(** * Verification of the OpenStack plugin's server lifecycle operations

    A shallow embedding of [openstack_plugin_common/__init__.py] and
    [nova_plugin/server.py] (cloudify-openstack-plugin 2.14.8).

    Python dictionaries are finite maps ([gmap string _]); lists are lists;
    the operation context ([ctx]) and the provider clients are threaded
    explicitly: an operation is a function from a world (context plus the
    history of provider calls issued so far) to a result and a new world.
    Exceptions are results, and the mutations made before an exception is
    raised are kept, as in Python.  Logging is not modelled. *)

From Stdlib Require Import ZArith String Ascii List.
From stdpp Require Import base option list gmap strings pretty.

Open Scope string_scope.
Open Scope Z_scope.

(** ** Python values and exceptions *)

Module Py.

(** The values found in node properties, runtime properties and provider
    objects. *)
#[warnings="-register-all"] Inductive value :=
| VNone
| VBool (b : bool)
| VInt (z : Z)
| VStr (s : string)
| VList (l : list value)
| VDict (d : gmap string value).

(** Python truthiness ([if v:], [not v]). *)
Definition truthy (v : value) : bool :=
  match v with
  | VNone => false
  | VBool b => b
  | VInt z => negb (z =? 0)
  | VStr s => negb (String.eqb s EmptyString)
  | VList l => match l with [] => false | _ => true end
  | VDict d => negb (bool_decide (d = ∅))
  end.

(** Truthiness of [d.get(k)] (a missing key gives [None]). *)
Definition truthy_get (d : gmap string value) (k : string) : bool :=
  match d !! k with Some v => truthy v | None => false end.

(** [v == s] for a string [s]. *)
Definition eq_str (v : value) (s : string) : bool :=
  match v with VStr s' => bool_decide (s' = s) | _ => false end.

(** [a == b].  [True] and [False] are equal to [1] and [0]. *)
Fixpoint py_eq (a b : value) {struct a} : bool :=
  match a, b with
  | VNone, VNone => true
  | VBool x, VBool y => bool_decide (x = y)
  | VInt x, VInt y => bool_decide (x = y)
  | VBool x, VInt y | VInt y, VBool x => bool_decide ((if x then 1 else 0) = y)
  | VStr x, VStr y => bool_decide (x = y)
  | VList x, VList y =>
      (fix go (x y : list value) : bool :=
         match x, y with
         | [], [] => true
         | a :: x, b :: y => py_eq a b && go x y
         | _, _ => false
         end) x y
  | VDict x, VDict y =>
      bool_decide (dom x = dom y) &&
      map_fold (fun k v acc =>
                  acc && match y !! k with
                         | Some v' => py_eq v v'
                         | None => false
                         end) true x
  | _, _ => false
  end.

(** [a in b] on two strings is the substring test. *)
Fixpoint str_contains (a b : string) : bool :=
  String.prefix a b ||
  match b with
  | EmptyString => false
  | String _ b' => str_contains a b'
  end.

(** [x in l] on a list. *)
Definition list_contains (x : value) (l : list value) : bool :=
  existsb (py_eq x) l.

(** [l.remove(x)]: removes the first element equal to [x]. *)
Fixpoint list_remove (x : value) (l : list value) : list value :=
  match l with
  | [] => []
  | y :: l' => if py_eq y x then l' else y :: list_remove x l'
  end.

(** [s.upper()] on ASCII letters. *)
Definition upper_ascii (c : ascii) : ascii :=
  let n := nat_of_ascii c in
  if (Nat.leb 97 n && Nat.leb n 122)%bool then ascii_of_nat (n - 32) else c.

Fixpoint upper (s : string) : string :=
  match s with
  | EmptyString => EmptyString
  | String c s' => String (upper_ascii c) (upper s')
  end.

(** The five sugared provider clients. *)
Inductive client_kind :=
| NovaClientWithSugar
| NeutronClientWithSugar
| CinderClientWithSugar
| KeystoneClientWithSugar
| GlanceClientWithSugar.

#[global] Instance client_kind_eq_dec : EqDecision client_kind.
Proof. solve_decision. Defined.

(** Exceptions.  [NonRecoverableError] and [RecoverableError] are the
    orchestrator's two failure classes; the argument of an exception is a
    text or, as in [NonRecoverableError(e)], another exception.  A provider
    client's [ClientException] carries its HTTP status code ([NotFound] is
    the one with code 404, [BadRequest] the one with code 400); nova's
    [OverLimit] is kept apart, as the decorators do. *)
Inductive exn :=
| NonRecoverableError (arg : exn_arg)
| RecoverableError (arg : exn_arg) (retry_after : option Z)
| KeyError (key : string)
| AttributeError (attr : string)
| TypeError (what : string)
| ValueError (msg : string)
| IndexError (msg : string)
| NoUniqueMatch
| RuntimeError (msg : string)
| OverLimit (msg : string) (retry_after : Z)
| ClientException (client : client_kind) (code : Z) (msg : string)
with exn_arg :=
| Text (s : string)
| Exc (e : exn).

(** [isinstance(e, NonRecoverableError)] *)
Definition is_non_recoverable (e : exn) : bool :=
  match e with NonRecoverableError _ => true | _ => false end.

Inductive result (A : Type) :=
| Ok (a : A)
| Raise (e : exn).
Arguments Ok {A} a.
Arguments Raise {A} e.

Definition is_ok {A} (r : result A) : bool :=
  match r with Ok _ => true | Raise _ => false end.

(** [d[k]] *)
Definition getitem {V} (d : gmap string V) (k : string) : result V :=
  match d !! k with Some v => Ok v | None => Raise (KeyError k) end.

(** [getattr(o, a)] on a provider object, whose attributes are the fields
    of the provider's response. *)
Definition getattr {V} (o : gmap string V) (a : string) : result V :=
  match o !! a with Some v => Ok v | None => Raise (AttributeError a) end.

(** A string is expected where the code uses a value as an id or name. *)
Definition as_str (v : value) : result string :=
  match v with VStr s => Ok s | _ => Raise (TypeError "str expected") end.

Definition as_dict (v : value) : result (gmap string value) :=
  match v with VDict d => Ok d | _ => Raise (TypeError "dict expected") end.

Definition as_list (v : value) : result (list value) :=
  match v with VList l => Ok l | _ => Raise (TypeError "list expected") end.

(** [a in b]: substring test on a string, membership in a list, key of a
    dictionary. *)
Definition py_in (a b : value) : result bool :=
  match b with
  | VStr b =>
      match a with
      | VStr a => Ok (str_contains a b)
      | _ => Raise (TypeError "'in <string>' requires string as left operand")
      end
  | VList l => Ok (list_contains a l)
  | VDict d =>
      match a with
      | VStr a => Ok (bool_decide (is_Some (d !! a)))
      | VList _ | VDict _ => Raise (TypeError "unhashable type")
      | _ => Ok false
      end
  | _ => Raise (TypeError "argument is not iterable")
  end.

End Py.
Export Py.

(** ** Operations as state transformers *)

(** What an operation returns to the orchestrator when it does not raise:
    it is done, or it asks to be invoked again ([ctx.operation.retry]). *)
Inductive decision :=
| Done
| OperationRetry (message : string) (retry_after : option Z).

Section Monad.
Context {W : Type}.

Definition M (A : Type) : Type := W -> result A * W.

Definition ret {A} (a : A) : M A := fun w => (Ok a, w).
Definition raise {A} (e : exn) : M A := fun w => (Raise e, w).
Definition bind {A B} (m : M A) (f : A -> M B) : M B :=
  fun w => match m w with
           | (Ok a, w') => f a w'
           | (Raise e, w') => (Raise e, w')
           end.
(** [try: m  except Exception as e: h e] *)
Definition try_except {A} (m : M A) (h : exn -> M A) : M A :=
  fun w => match m w with
           | (Ok a, w') => (Ok a, w')
           | (Raise e, w') => h e w'
           end.
Definition lift {A} (r : result A) : M A := fun w => (r, w).
Definition gets {A} (f : W -> A) : M A := fun w => (Ok (f w), w).
Definition modify (f : W -> W) : M unit := fun w => (Ok tt, f w).

Fixpoint forM_ {A} (l : list A) (f : A -> M unit) : M unit :=
  match l with
  | [] => ret tt
  | x :: l' => bind (f x) (fun _ => forM_ l' f)
  end.
End Monad.
Arguments M : clear implicits.

#[global] Instance M_ret {W} : MRet (M W) := fun A a => ret a.
#[global] Instance M_bind {W} : MBind (M W) := fun A B f m => bind m f.

#[global] Instance result_ret : MRet result := fun A a => Ok a.
#[global] Instance result_bind : MBind result :=
  fun A B f r => match r with Ok a => f a | Raise e => Raise e end.

(** ** The world: the operation context and the provider *)

(** A call issued to the provider (or the passing of time). *)
Inductive call :=
| ListResources (client : client_kind) (plural : string) (kw : gmap string value)
| GetQuota (client : client_kind)
| DeleteResource (client : client_kind) (plural : string) (id : value)
| ShowPort (port_id : value)
| ServersGet (server_id : value)
| ServersStop (server_id : value)
| ServersStart (server_id : value)
| ServersReboot (server_id : value) (reboot_type : string)
| ServersDelete (server_id : value)
| ServersCreate (server : gmap string value)
| InterfaceList (server_id : value)
| InterfaceAttach (server_id port_id net_id : value)
| CreateServerVolume (server_id volume_id device : value)
| DeleteServerVolume (server_id attachment_id : value)
| WaitUntilStatus (volume_id : value) (status : string) (num_tries timeout : Z)
| GetAttachment (volume_id server_id : value)
| Sleep (seconds : Z).

(** The provider answers a call by looking at what was issued before it, so
    that its state may change as the operation proceeds.  A provider object
    (server, port, volume, quota set) is the map of its fields. *)
Record cloud := {
  list_resources :
    list call -> client_kind -> string -> gmap string value ->
    result (list (gmap string value));
  quotas : list call -> client_kind -> result (gmap string Z);
  delete_resource : list call -> client_kind -> string -> value -> result unit;
  show_port : list call -> value -> result (gmap string value);
  servers_get : list call -> value -> result (gmap string value);
  servers_stop : list call -> value -> result unit;
  servers_start : list call -> value -> result unit;
  servers_reboot : list call -> value -> string -> result unit;
  servers_delete : list call -> value -> result unit;
  servers_create : list call -> gmap string value -> result (gmap string value);
  interface_list : list call -> value -> result (list (gmap string value));
  interface_attach : list call -> value -> value -> value -> result unit;
  create_server_volume : list call -> value -> value -> value -> result unit;
  delete_server_volume : list call -> value -> value -> result unit;
  wait_until_status :
    list call -> value -> string -> Z -> Z -> result (gmap string value * bool);
  get_attachment : list call -> value -> value -> result value
}.

(** A relationship of the node instance an operation runs on: the target's
    node properties and runtime properties. *)
Record relationship := {
  target_node_properties : gmap string value;
  target_runtime_properties : gmap string value
}.

(** [ctx] of a node-instance operation. *)
Record node_ctx := {
  node_id : string;
  node_properties : gmap string value;
  instance_id : string;
  runtime_properties : gmap string value;
  relationships : list relationship;
  deployment_id : string;
  provider_resources : gmap string value;
  resources_prefix : value;
  retry_number : nat
}.

Definition set_runtime_properties (f : gmap string value -> gmap string value)
    (c : node_ctx) : node_ctx :=
  {| node_id := node_id c;
     node_properties := node_properties c;
     instance_id := instance_id c;
     runtime_properties := f (runtime_properties c);
     relationships := relationships c;
     deployment_id := deployment_id c;
     provider_resources := provider_resources c;
     resources_prefix := resources_prefix c;
     retry_number := retry_number c |}.

(** [ctx] of a relationship operation. *)
Record rel_ctx := {
  source : node_ctx;
  target : node_ctx
}.

Definition set_source (f : node_ctx -> node_ctx) (c : rel_ctx) : rel_ctx :=
  {| source := f (source c); target := target c |}.

(** The world of an operation: its context, the calls issued so far, and
    the retry request left by [ctx.operation.retry], if any. *)
Record world (C : Type) := {
  ctx : C;
  history : list call;
  retry_request : option decision
}.
Arguments ctx {C} w.
Arguments history {C} w.
Arguments retry_request {C} w.
Arguments Build_world {C} ctx history retry_request.

Abbreviation Op C := (M (world C)).

(** Issue a call: the provider answers from the history, and the call is
    appended to it. *)
Definition invoke {C A} (c : call) (answer : list call -> result A) : Op C A :=
  fun w => (answer (history w),
            {| ctx := ctx w; history := history w ++ [c];
               retry_request := retry_request w |}).

Definition get_ctx {C} : Op C C := gets ctx.

Definition modify_ctx {C} (f : C -> C) : Op C unit :=
  modify (fun w => {| ctx := f (ctx w); history := history w;
                      retry_request := retry_request w |}).

(** [ctx.operation.retry(message, retry_after)] records the request and
    returns it. *)
Definition operation_retry {C} (message : string) (retry_after : option Z)
    : Op C decision :=
  fun w => (Ok (OperationRetry message retry_after),
            {| ctx := ctx w; history := history w;
               retry_request := Some (OperationRetry message retry_after) |}).

(** [time.sleep(n)] *)
Definition sleep {C} (n : Z) : Op C unit := invoke (Sleep n) (fun _ => Ok tt).

(** ** openstack_plugin_common *)

Module Common.

Definition INFINITE_RESOURCE_QUOTA : Z := -1.

Definition USE_EXTERNAL_RESOURCE_PROPERTY := "use_external_resource".
Definition CREATE_IF_MISSING_PROPERTY := "create_if_missing".

Definition OPENSTACK_AZ_PROPERTY := "availability_zone".
Definition OPENSTACK_ID_PROPERTY := "external_id".
Definition OPENSTACK_TYPE_PROPERTY := "external_type".
Definition OPENSTACK_NAME_PROPERTY := "external_name".
Definition OPENSTACK_RESOURCE_PROPERTY := "external_resource".
Definition CONDITIONALLY_CREATED := "conditionally_created".

Definition COMMON_RUNTIME_PROPERTIES_KEYS : list string :=
  [OPENSTACK_ID_PROPERTY; OPENSTACK_TYPE_PROPERTY; OPENSTACK_NAME_PROPERTY;
   OPENSTACK_RESOURCE_PROPERTY; CONDITIONALLY_CREATED].

(** [str(v)] as used in messages; containers are not rendered. *)
Definition py_str (v : value) : string :=
  match v with
  | VNone => "None"
  | VBool true => "True"
  | VBool false => "False"
  | VInt z => pretty z
  | VStr s => s
  | VList _ => "[...]"
  | VDict _ => "{...}"
  end.

Definition MISSING_RESOURCE_MESSAGE (openstack_type : string) (resource_id : value)
    : string :=
  "Couldn't find a resource of type " ++ openstack_type ++
  " with the name or id " ++ py_str resource_id.

Definition is_external_resource_by_properties (properties : gmap string value)
    : bool :=
  truthy_get properties USE_EXTERNAL_RESOURCE_PROPERTY.

Definition is_create_if_missing_by_properties (properties : gmap string value)
    : bool :=
  truthy_get properties CREATE_IF_MISSING_PROPERTY.

Definition is_external_resource (c : node_ctx) : bool :=
  is_external_resource_by_properties (node_properties c).

Definition is_external_resource_not_conditionally_created (c : node_ctx) : bool :=
  is_external_resource_by_properties (node_properties c) &&
  negb (truthy_get (runtime_properties c) CONDITIONALLY_CREATED).

Definition is_create_if_missing (c : node_ctx) : bool :=
  is_create_if_missing_by_properties (node_properties c).

(** The loop deletes each listed key that is present. *)
Definition delete_runtime_properties (runtime_properties_keys : list string)
    : Op node_ctx unit :=
  forM_ runtime_properties_keys (fun runtime_prop_key =>
    modify_ctx (set_runtime_properties (delete runtime_prop_key))).

Definition get_openstack_id : Op node_ctx value :=
  c ← get_ctx; lift (getitem (runtime_properties c) OPENSTACK_ID_PROPERTY).

(** [rel.target.instance.runtime_properties.get(OPENSTACK_TYPE_PROPERTY) == type_name] *)
Definition has_openstack_type (type_name : string) (rel : relationship) : bool :=
  match target_runtime_properties rel !! OPENSTACK_TYPE_PROPERTY with
  | Some v => eq_str v type_name
  | None => false
  end.

Definition get_relationships_by_openstack_type (c : node_ctx) (type_name : string)
    : list relationship :=
  List.filter (has_openstack_type type_name) (relationships c).

Definition get_openstack_ids_of_connected_nodes_by_openstack_type
    (c : node_ctx) (type_name : string) : result (list value) :=
  mapM (M := result)
    (fun rel => getitem (target_runtime_properties rel) OPENSTACK_ID_PROPERTY)
    (get_relationships_by_openstack_type c type_name).

Definition get_openstack_names_of_connected_nodes_by_openstack_type
    (c : node_ctx) (type_name : string) : result (list value) :=
  mapM (M := result)
    (fun rel => getitem (target_runtime_properties rel) OPENSTACK_NAME_PROPERTY)
    (get_relationships_by_openstack_type c type_name).

(** The result is the one id, or [None] when there is none. *)
Definition get_openstack_id_of_single_connected_node_by_openstack_type
    (c : node_ctx) (type_name : string) (if_exists : bool) : result value :=
  ids ← get_openstack_ids_of_connected_nodes_by_openstack_type c type_name;
  let check := if if_exists then bool_decide (1 < length ids)%nat
               else negb (bool_decide (length ids = 1%nat)) in
  if check then
    Raise (NonRecoverableError (Text (
      "Expected " ++ (if if_exists then "at most" else "exactly") ++ " one " ++
      type_name ++ " capability. got " ++ pretty (length ids))))
  else Ok (default VNone (head ids)).

(** The stored payload leaves out the user data and the password. *)
Definition assign_payload_as_runtime_properties (resource_name : string)
    (payload : gmap string value) : Op node_ctx unit :=
  c ← get_ctx;
  stored ← lift (as_dict (default (VDict ∅) (runtime_properties c !! resource_name)));
  modify_ctx (set_runtime_properties
    (<[resource_name :=
         VDict (delete "user_data" (delete "adminPass" payload) ∪ stored)]>)).

Definition get_resource_id (c : node_ctx) (type_name : string) : result value :=
  resource_id ← getitem (node_properties c) "resource_id";
  if truthy resource_id then Ok resource_id
  else Ok (VStr (type_name ++ "_" ++ deployment_id c ++ "_" ++ instance_id c)).

(** [provider(ctx).<name>], a lookup in the provider context's resources. *)
Definition provider_resource (c : node_ctx) (name : string) : value :=
  default VNone (provider_resources c !! name).

(** [transform_resource_name(ctx, res)]: [res] is a name or a dictionary
    with a name, which the call updates in place; the result is the
    returned name and [res] after the call. *)
Definition transform_resource_name (c : node_ctx) (res : value)
    : result (value * gmap string value) :=
  res ← match res with
        | VStr _ => Ok {["name" := res]}
        | VDict d => Ok d
        | _ => Raise (ValueError
                 "transform_resource_name() expects either string or dict as the first parameter")
        end;
  let pfx := resources_prefix c in
  if negb (truthy pfx) then
    name ← getitem res "name"; Ok (name, res)
  else
    name ← getitem res "name";
    pfx ← as_str pfx;
    name ← as_str name;
    Ok (VStr (pfx ++ name), <["name" := VStr (pfx ++ name)]> res).

Section Clients.
Variable os : cloud.
(** The constant of [openstack_plugin_common.floatingip]. *)
Variable FLOATINGIP_OPENSTACK_TYPE : string.

Definition cosmo_plural (obj_type_single : string) : string :=
  obj_type_single ++ "s".

Definition _get_nova_field_name_for_type (obj_type_single : string) : string :=
  if decide (obj_type_single = FLOATINGIP_OPENSTACK_TYPE)
  then cosmo_plural "floating_ip"
  else cosmo_plural obj_type_single.

(** [cosmo_list] of each client lists the resources of a type that match
    the keyword filter. *)
Definition cosmo_list {C} (client : client_kind) (obj_type_single : string)
    (kw : gmap string value) : Op C (list (gmap string value)) :=
  let obj_type_plural :=
    match client with
    | NovaClientWithSugar => _get_nova_field_name_for_type obj_type_single
    | _ => cosmo_plural obj_type_single
    end in
  invoke (ListResources client obj_type_plural kw)
         (fun h => list_resources os h client obj_type_plural kw).

Definition cosmo_delete_resource {C} (client : client_kind)
    (obj_type_single : string) (obj_id : value) : Op C unit :=
  let obj_type_plural :=
    match client with
    | NovaClientWithSugar => _get_nova_field_name_for_type obj_type_single
    | NeutronClientWithSugar => obj_type_single
    | _ => cosmo_plural obj_type_single
    end in
  invoke (DeleteResource client obj_type_plural obj_id)
         (fun h => delete_resource os h client obj_type_plural obj_id).

Definition get_id_from_resource (client : client_kind)
    (resource : gmap string value) : result value :=
  match client with
  | NeutronClientWithSugar => getitem resource "id"
  | _ => getattr resource "id"
  end.

Definition get_name_from_resource (client : client_kind)
    (resource : gmap string value) : result value :=
  match client with
  | NeutronClientWithSugar => getitem resource "name"
  | _ => getattr resource "name"
  end.

Definition get_quota {C} (client : client_kind) (obj_type_single : string)
    : Op C Z :=
  match client with
  | NovaClientWithSugar =>
      raise (RuntimeError
        "Retrieving quotas from Nova service is currently unsupported due to a bug in Nova python client")
  | NeutronClientWithSugar =>
      q ← invoke (GetQuota client) (fun h => quotas os h client);
      lift (getitem q obj_type_single)
  | CinderClientWithSugar =>
      q ← invoke (GetQuota client) (fun h => quotas os h client);
      lift (getattr q (cosmo_plural obj_type_single))
  | KeystoneClientWithSugar => mret (10 ^ 9)
  | GlanceClientWithSugar => mret (10 ^ 9)
  end.

Definition _cosmo_get {C} (client : client_kind) (obj_type_single : string)
    (if_exists : bool) (kw : gmap string value)
    : Op C (option (gmap string value)) :=
  ls ← cosmo_list client obj_type_single kw;
  let check := if if_exists then bool_decide (1 < length ls)%nat
               else negb (bool_decide (length ls = 1%nat)) in
  if check then
    raise (NonRecoverableError (Text (
      "Expected " ++ (if if_exists then "at most" else "exactly") ++
      " one object of type " ++ obj_type_single ++
      " with match {...} but there are " ++ pretty (length ls))))
  else mret (head ls).

Definition cosmo_get {C} client obj_type_single kw
    : Op C (option (gmap string value)) :=
  _cosmo_get client obj_type_single false kw.

Definition cosmo_get_if_exists {C} client obj_type_single kw
    : Op C (option (gmap string value)) :=
  _cosmo_get client obj_type_single true kw.

Definition cosmo_get_named {C} client obj_type_single (name : value)
    : Op C (option (gmap string value)) :=
  cosmo_get client obj_type_single {["name" := name]}.

(** A provider object has fields, so that [not resource] holds of [None]
    only. *)
Definition get_resource_by_name_or_id {C} (resource_id : value)
    (openstack_type : string) (client : client_kind)
    (raise_if_not_found : bool) (name_field_name : string)
    : Op C (option (gmap string value)) :=
  let search_param : gmap string value := {[name_field_name := resource_id]} in
  resource ← cosmo_get_if_exists client openstack_type search_param;
  resource ← match resource with
             | Some r => mret (Some r)
             | None => cosmo_get_if_exists client openstack_type
                         {["id" := resource_id]}
             end;
  match resource with
  | None =>
      if raise_if_not_found then
        raise (NonRecoverableError (Text (
                 MISSING_RESOURCE_MESSAGE openstack_type resource_id)))
      else mret None
  | Some r => mret (Some r)
  end.

Definition _get_resource_by_name_or_id_from_ctx (name_field_name : string)
    (openstack_type : string) (client : client_kind)
    : Op node_ctx (option (gmap string value)) :=
  c ← get_ctx;
  dflt ← lift (getitem (node_properties c) "resource_id");
  let resource_id := default dflt (runtime_properties c !! OPENSTACK_ID_PROPERTY) in
  if negb (truthy resource_id) then
    raise (NonRecoverableError (Text (
      "Can't set '" ++ USE_EXTERNAL_RESOURCE_PROPERTY ++
      "' to True without supplying a value for 'resource_id'")))
  else
    get_resource_by_name_or_id resource_id openstack_type client true
                               name_field_name.

Definition set_runtime_property (k : string) (v : value) : Op node_ctx unit :=
  modify_ctx (set_runtime_properties (<[k := v]>)).

(** The result is the external resource, or [None] when the caller is to
    create the resource itself. *)
Definition use_external_resource (client : client_kind)
    (openstack_type : string) (name_field_name : string)
    : Op node_ctx (option (gmap string value)) :=
  c ← get_ctx;
  if negb (is_external_resource c) then mret None
  else
    found ← try_except
      (r ← _get_resource_by_name_or_id_from_ctx name_field_name
             openstack_type client;
       mret (inl r))
      (fun e =>
         if is_non_recoverable e then
           if is_create_if_missing c then
             set_runtime_property CONDITIONALLY_CREATED (VBool true);;
             mret (inr tt)
           else raise e
         else raise e);
    match found with
    | inr _ => mret None
    | inl None => raise (AttributeError "id")
    | inl (Some resource) =>
        id ← lift (get_id_from_resource client resource);
        set_runtime_property OPENSTACK_ID_PROPERTY id;;
        set_runtime_property OPENSTACK_TYPE_PROPERTY (VStr openstack_type);;
        set_runtime_property OPENSTACK_RESOURCE_PROPERTY (VDict resource);;
        (if decide (openstack_type = FLOATINGIP_OPENSTACK_TYPE) then mret tt
         else
           name ← lift (get_name_from_resource client resource);
           set_runtime_property OPENSTACK_NAME_PROPERTY name);;
        mret (Some resource)
    end.

Definition validate_resource (client : client_kind) (openstack_type : string)
    (name_field_name : string) : Op node_ctx unit :=
  c ← get_ctx;
  let openstack_type_plural := cosmo_plural openstack_type in
  resource ←
    (if is_external_resource c then
       try_except
         (_get_resource_by_name_or_id_from_ctx name_field_name
            openstack_type client)
         (fun e =>
            if is_non_recoverable e then
              if negb (is_create_if_missing c) then
                resource_list ← cosmo_list client openstack_type ∅;
                forM_ resource_list (fun resource =>
                  _ ← lift (get_id_from_resource client resource);
                  _ ← lift (get_name_from_resource client resource);
                  mret tt);;
                raise e
              else mret None
            else raise e)
     else mret None);
  match resource with
  | Some _ => mret tt
  | None =>
      if decide (client = NovaClientWithSugar) then
        (* not checking quota for Nova resources due to a bug in Nova
           client *)
        mret tt
      else
        resource_list ← cosmo_list client openstack_type ∅;
        let resource_amount := Z.of_nat (length resource_list) in
        resource_quota ← get_quota client openstack_type;
        if (resource_amount <? resource_quota) ||
           (resource_quota =? INFINITE_RESOURCE_QUOTA)
        then mret tt
        else
          raise (NonRecoverableError (Text (
            openstack_type ++ " (node " ++ node_id c ++
            ") cannot be created due to quota limitations. provisioned " ++
            openstack_type_plural ++ ": " ++ pretty resource_amount ++
            ", quota: " ++ pretty resource_quota)))
  end.

Definition delete_resource_and_runtime_properties (client : client_kind)
    (runtime_properties_keys : list string) : Op node_ctx unit :=
  c ← get_ctx;
  node_openstack_type ←
    lift (getitem (runtime_properties c) OPENSTACK_TYPE_PROPERTY);
  (if negb (is_external_resource_not_conditionally_created c) then
     id ← lift (getitem (runtime_properties c) OPENSTACK_ID_PROPERTY);
     t ← lift (as_str node_openstack_type);
     cosmo_delete_resource client t id
   else mret tt);;
  delete_runtime_properties runtime_properties_keys.
End Clients.

(** *** The client decorators *)

Definition _non_recoverable_error_codes : list Z := [400; 401; 403; 404; 409].

Definition _re_raise (message : string) (recoverable : bool)
    (retry_after : option Z) (status_code : option Z) : exn :=
  let message :=
    match status_code with
    | Some code => message ++ " [status_code=" ++ pretty code ++ "]"
    | None => message
    end in
  if recoverable then
    RecoverableError (Text message)
      (match retry_after with Some 0 => None | r => r end)
  else NonRecoverableError (Text message).

(** The [except] clauses of [with_<client>_client]. *)
Definition translate (client : client_kind) (e : exn) : exn :=
  match e with
  | OverLimit msg retry_after =>
      if decide (client = NovaClientWithSugar)
      then _re_raise msg true (Some retry_after) None
      else e
  | ClientException cl code msg =>
      if decide (cl = client) then
        if bool_decide (code ∈ _non_recoverable_error_codes)
        then _re_raise msg false None (Some code)
        else e
      else e
  | _ => e
  end.

(** [_handle_kw] on a node-instance context, as far as the context goes:
    the resource id of the inputs, or else of the node properties, becomes
    the stored id when there is none.  The result is the keyword arguments
    after the call. *)
Definition _handle_kw (kw : gmap string value)
    : Op node_ctx (gmap string value) :=
  c ← get_ctx;
  let resource_id :=
    default (default VNone (node_properties c !! "resource_id"))
            (kw !! "resource_id") in
  (if truthy resource_id &&
      bool_decide (runtime_properties c !! OPENSTACK_ID_PROPERTY = None)
   then modify_ctx (set_runtime_properties (<[OPENSTACK_ID_PROPERTY := resource_id]>))
   else mret tt);;
  mret (delete "resource_id" kw).

(** [_handle_kw] on a relationship context. *)
Definition _handle_kw_rel (kw : gmap string value)
    : Op rel_ctx (gmap string value) :=
  c ← get_ctx;
  let resource_id :=
    default (default VNone (node_properties (source c) !! "resource_id"))
            (kw !! "resource_id") in
  (if truthy resource_id &&
      bool_decide (runtime_properties (source c) !! OPENSTACK_ID_PROPERTY = None)
   then modify_ctx (set_source (set_runtime_properties
                                  (<[OPENSTACK_ID_PROPERTY := resource_id]>)))
   else mret tt);;
  mret (delete "resource_id" kw).

Definition with_client {A} (client : client_kind) (kw : gmap string value)
    (f : gmap string value -> Op node_ctx A) : Op node_ctx A :=
  kw ← _handle_kw kw;
  try_except (f kw) (fun e => raise (translate client e)).

Definition with_client_rel {A} (client : client_kind) (kw : gmap string value)
    (f : gmap string value -> Op rel_ctx A) : Op rel_ctx A :=
  kw ← _handle_kw_rel kw;
  try_except (f kw) (fun e => raise (translate client e)).

Definition is_external_relationship (c : rel_ctx) : bool :=
  is_external_resource_by_properties (node_properties (source c)) &&
  is_external_resource_by_properties (node_properties (target c)).

Definition is_external_relationship_not_conditionally_created (c : rel_ctx)
    : bool :=
  is_external_resource_by_properties (node_properties (source c)) &&
  is_external_resource_by_properties (node_properties (target c)) &&
  negb (truthy_get (runtime_properties (source c)) CONDITIONALLY_CREATED) &&
  negb (truthy_get (runtime_properties (target c)) CONDITIONALLY_CREATED).

End Common.

(** ** nova_plugin.server *)

Module Server.
Import Common.

Definition SERVER_OPENSTACK_TYPE := "server".

Definition SERVER_STATUS_ACTIVE := "ACTIVE".
Definition SERVER_STATUS_BUILD := "BUILD".
Definition SERVER_STATUS_SHUTOFF := "SHUTOFF".
Definition SERVER_STATUS_SUSPENDED := "SUSPENDED".
Definition SERVER_STATUS_ERROR := "ERROR".
Definition SERVER_STATUS_REBOOT := "REBOOT".
Definition SERVER_STATUS_HARD_REBOOT := "HARD_REBOOT".
Definition SERVER_STATUS_UNKNOWN := "UNKNOWN".

Definition OS_EXT_STS_TASK_STATE := "OS-EXT-STS:task_state".
Definition SERVER_TASK_STATE_POWERING_ON := "powering-on".
Definition SERVER_TASK_STATE_POWERING_OFF := "powering-off".

Definition NETWORKS_PROPERTY := "networks".
Definition IP_PROPERTY := "ip".
Definition ADMIN_PASSWORD_PROPERTY := "password".
Definition RUNTIME_PROPERTIES_KEYS : list string :=
  COMMON_RUNTIME_PROPERTIES_KEYS ++
  [NETWORKS_PROPERTY; IP_PROPERTY; ADMIN_PASSWORD_PROPERTY].

(** *** Network interfaces *)

(** A NIC is a dictionary with the keys ['net-id'] and ['port-id'] (and
    whatever else an inline NIC declares). *)
Abbreviation nic := (gmap string value).

(** [any(nic['net-id'] == management_network_id for nic in merged)]: the
    scan stops at the first match, and fails at a NIC without ['net-id']
    that it reaches. *)
Fixpoint any_targets (management_network_id : value) (merged : list nic)
    : result bool :=
  match merged with
  | [] => Ok false
  | n :: rest =>
      v ← getitem n "net-id";
      if py_eq v management_network_id then Ok true
      else any_targets management_network_id rest
  end.

Definition is_none (v : value) : bool :=
  match v with VNone => true | _ => false end.

Definition _merge_nics (management_network_id : value)
    (nics_sources : list (list nic)) : result (list nic) :=
  let merged := concat nics_sources in
  if negb (is_none management_network_id) then
    present ← any_targets management_network_id merged;
    if negb present then Ok ({["net-id" := management_network_id]} :: merged)
    else Ok merged
  else Ok merged.

Definition _normalize (n : nic) : nic :=
  if bool_decide (is_Some (n !! "port-id")) &&
     bool_decide (is_Some (n !! "net-id"))
  then delete "net-id" n
  else n.

Definition _normalize_nics (nics : list nic) : list nic :=
  map _normalize nics.

(** The inner loop of [_prepare_server_nics],
    [for network_id in network_ids:
       if network_id in port_network.get('net-id'):
         network_ids.remove(network_id)],
    which removes from the list it iterates over: the iterator is the index
    [i], and the loop ends when the index is past the end of the list as it
    is then.  Every step advances the index, so that [length network_ids]
    steps are enough. *)
Fixpoint remove_loop (fuel : nat) (i : nat) (port_net : value)
    (network_ids : list value) : result (list value) :=
  match fuel with
  | O => Ok network_ids
  | S fuel =>
      match network_ids !! i with
      | None => Ok network_ids
      | Some network_id =>
          found ← py_in network_id port_net;
          if found : bool
          then remove_loop fuel (S i) port_net (list_remove network_id network_ids)
          else remove_loop fuel (S i) port_net network_ids
      end
  end.

Definition remove_port_network (port_network : nic) (network_ids : list value)
    : result (list value) :=
  remove_loop (length network_ids) 0
    (default VNone (port_network !! "net-id")) network_ids.

(** The outer loop, over the port NICs. *)
Fixpoint remove_port_networks (port_networks : list nic)
    (network_ids : list value) : result (list value) :=
  match port_networks with
  | [] => Ok network_ids
  | port_network :: rest =>
      network_ids ← remove_port_network port_network network_ids;
      remove_port_networks rest network_ids
  end.

Section Nics.
Variable os : cloud.
(** The constants of [neutron_plugin.network] and [neutron_plugin.port]. *)
Variable NETWORK_OPENSTACK_TYPE PORT_OPENSTACK_TYPE : string.
Variable FLOATINGIP_OPENSTACK_TYPE : string.

Definition _get_management_network_id_and_name
    : Op node_ctx (value * value) :=
  c ← get_ctx;
  let management_network_name :=
    default VNone (node_properties c !! "management_network_name") in
  if truthy management_network_name then
    '(management_network_name, _) ←
      lift (transform_resource_name c management_network_name);
    network ← cosmo_get_named os FLOATINGIP_OPENSTACK_TYPE
                NeutronClientWithSugar "network" management_network_name;
    id ← lift (match network with
               | Some network => getitem network "id"
               | None => Raise (TypeError "'NoneType' object is not subscriptable")
               end);
    mret (id, management_network_name)
  else
    let int_network := provider_resource c "int_network" in
    if truthy int_network then
      int_network ← lift (as_dict int_network);
      id ← lift (getitem int_network "id");
      name ← lift (getitem int_network "name");
      mret (id, name)
    else mret (VNone, management_network_name).

Definition get_network (port_id : value) : Op node_ctx nic :=
  port ← invoke (ShowPort port_id) (fun h => show_port os h port_id);
  port ← lift (getitem port "port");
  port ← lift (as_dict port);
  network_id ← lift (getitem port "network_id");
  id ← lift (getitem port "id");
  mret (<["net-id" := network_id]> {["port-id" := id]}).

Definition get_port_networks (port_ids : list value) : Op node_ctx (list nic) :=
  mapM get_network port_ids.

(** [server] is the dictionary of the server to create; the result is the
    dictionary after the call. *)
Definition _prepare_server_nics (server : gmap string value)
    : Op node_ctx (gmap string value) :=
  c ← get_ctx;
  network_ids ← lift (get_openstack_ids_of_connected_nodes_by_openstack_type
                        c NETWORK_OPENSTACK_TYPE);
  port_ids ← lift (get_openstack_ids_of_connected_nodes_by_openstack_type
                     c PORT_OPENSTACK_TYPE);
  '(management_network_id, management_network_name) ←
    _get_management_network_id_and_name;
  port_networks ← get_port_networks port_ids;
  network_ids ← lift (remove_port_networks port_networks network_ids);
  inline ← lift (as_list (default (VList []) (server !! "nics")));
  inline ← lift (mapM as_dict inline);
  nics ← lift (_merge_nics management_network_id
                 [inline;
                  map (fun net_id => {["net-id" := net_id]}) network_ids;
                  port_networks]);
  let nics := _normalize_nics nics in
  let server := <["nics" := VList (VDict <$> nics)]> server in
  server ←
    (if negb (is_none management_network_id) then
       meta ← lift (getitem server "meta");
       meta ← lift (as_dict meta);
       mret (<["meta" :=
                 VDict (<["cloudify_management_network_id" :=
                            management_network_id]> meta)]> server)
     else mret server);
  if negb (is_none management_network_name) then
    meta ← lift (getitem server "meta");
    meta ← lift (as_dict meta);
    mret (<["meta" :=
              VDict (<["cloudify_management_network_name" :=
                         management_network_name]> meta)]> server)
  else mret server.
End Nics.

(** *** Boot volumes *)

Section BootVolume.
(** The constants of [cinder_plugin.volume]. *)
Variable VOLUME_OPENSTACK_TYPE VOLUME_BOOTABLE : string.

Definition is_boot_volume (type_name : string) (rel : relationship) : bool :=
  has_openstack_type type_name rel &&
  truthy (default (VBool false) (target_runtime_properties rel !! VOLUME_BOOTABLE)).

(** The result is the runtime properties of the one bootable volume the
    instance is related to, if any. *)
Definition _get_boot_volume_relationships (type_name : string) (c : node_ctx)
    : result (option (gmap string value)) :=
  let targets :=
    map target_runtime_properties
        (List.filter (is_boot_volume type_name) (relationships c)) in
  match targets with
  | [] => Ok None
  | [t] => Ok (Some t)
  | _ => Raise (NonRecoverableError (Text "2 boot volumes not supported"))
  end.

Definition _handle_boot_volume (server : gmap string value) (c : node_ctx)
    : result (gmap string value) :=
  boot_volume ← _get_boot_volume_relationships VOLUME_OPENSTACK_TYPE c;
  match boot_volume with
  | None => Ok server
  | Some boot_volume =>
      boot_volume_id ← getitem boot_volume OPENSTACK_ID_PROPERTY;
      (* bdm = server.setdefault('block_device_mapping', {}) *)
      bdm ← as_dict (default (VDict ∅) (server !! "block_device_mapping"));
      let bdm := <["vda" := VStr (py_str boot_volume_id ++ ":::0")]> bdm in
      let server := <["block_device_mapping" := VDict bdm]> server in
      if negb (truthy_get server "availability_zone") then
        az ← getitem boot_volume OPENSTACK_AZ_PROPERTY;
        Ok (<["availability_zone" := az]> server)
      else Ok server
  end.
End BootVolume.

(** *** stop, reboot, delete *)

Section Lifecycle.
Variable os : cloud.

Definition servers_get_ {C} (server_id : value) : Op C (gmap string value) :=
  invoke (ServersGet server_id) (fun h => servers_get os h server_id).

Definition get_server_by_context : Op node_ctx (gmap string value) :=
  id ← get_openstack_id; servers_get_ id.

Definition _server_stop {C} (server : gmap string value) : Op C decision :=
  server_task_state ← lift (getattr server OS_EXT_STS_TASK_STATE);
  if eq_str server_task_state SERVER_TASK_STATE_POWERING_OFF then
    operation_retry "Server is stopping" (Some 30)
  else
    status ← lift (getattr server "status");
    if negb (eq_str status SERVER_STATUS_SHUTOFF) then
      id ← lift (getattr server "id");
      invoke (ServersStop id) (fun h => servers_stop os h id);;
      (* wait 10 seconds before next check *)
      sleep 10;;
      server ← servers_get_ id;
      status ← lift (getattr server "status");
      if negb (eq_str status SERVER_STATUS_SHUTOFF) then
        operation_retry ("Server has " ++ py_str status ++ " state.") (Some 30)
      else mret Done
    else mret Done.

(** The body of [stop]; its result is discarded by [stop] itself. *)
Definition stop_body : Op node_ctx unit :=
  c ← get_ctx;
  if is_external_resource c then mret tt
  else
    server ← get_server_by_context;
    _server_stop server;;
    mret tt.

Definition stop (kw : gmap string value) : Op node_ctx unit :=
  with_client NovaClientWithSugar kw (fun _ => stop_body).

Definition reboot_body (reboot_type : string) : Op node_ctx decision :=
  server ← get_server_by_context;
  c ← get_ctx;
  (if bool_decide (retry_number c = 0%nat) then
     if negb (bool_decide (upper reboot_type ∈ ["HARD"; "SOFT"])) then
       raise (NonRecoverableError (Text (
         "Unexpected reboot type: " ++ reboot_type ++
         ". Valid values: SOFT or HARD.")))
     else
       id ← lift (getattr server "id");
       invoke (ServersReboot id (upper reboot_type))
              (fun h => servers_reboot os h id (upper reboot_type))
   else mret tt);;
  id ← lift (getattr server "id");
  server ← servers_get_ id;
  status ← lift (getattr server "status");
  if eq_str status SERVER_STATUS_REBOOT ||
     eq_str status SERVER_STATUS_HARD_REBOOT ||
     eq_str status SERVER_STATUS_UNKNOWN
  then
    operation_retry ("Server has " ++ py_str status ++ " state. Waiting.")
                    (Some 30)
  else if eq_str status SERVER_STATUS_ACTIVE then mret Done
  else if eq_str status SERVER_STATUS_ERROR then
    raise (NonRecoverableError (Text (
      "Reboot operation finished in " ++ py_str status ++ " state.")))
  else
    state ← lift (getattr server "state");
    raise (NonRecoverableError (Text (
      "Reboot operation finished in unexpected state: " ++ py_str state))).

(** [reboot_type] defaults to ['soft']. *)
Definition reboot (reboot_type : string) (kw : gmap string value)
    : Op node_ctx decision :=
  with_client NovaClientWithSugar kw (fun _ => reboot_body reboot_type).

(** [time.time()], counted from the start of the operation: time passes
    by sleeping. *)
Definition elapsed (h : list call) : Z :=
  foldr (fun c t => match c with Sleep n => n + t | _ => t end) 0 h.

Definition is_not_found (e : exn) : bool :=
  match e with
  | ClientException NovaClientWithSugar 404 _ => true
  | _ => false
  end.

(** The loop of [_wait_for_server_to_be_deleted].  An iteration sleeps
    for [sleep_interval] seconds, one at least, so that [timeout]
    iterations are enough to reach [wait_time]; [fuel] counts them. *)
Fixpoint wait_loop {C} (fuel : nat) (wait_time : Z) (server_id : value)
    (timeout sleep_interval : Z) : Op C unit :=
  let timed_out : Op C unit :=
    raise (RuntimeError (
      "Server " ++ py_str server_id ++ " has not been deleted. waited for " ++
      pretty timeout ++ " seconds")) in
  now ← gets (fun w => elapsed (history w));
  if now <? wait_time then
    match fuel with
    | O => timed_out
    | S fuel =>
        continue ← try_except
          (server ← servers_get_ server_id;
           _ ← lift (getattr server "id");
           _ ← lift (getattr server "status");
           sleep sleep_interval;;
           mret true)
          (fun e => if is_not_found e then mret false else raise e);
        if continue : bool
        then wait_loop fuel wait_time server_id timeout sleep_interval
        else mret tt
    end
  else timed_out.

Definition _wait_for_server_to_be_deleted {C} (server_id : value)
    (timeout sleep_interval : Z) : Op C unit :=
  start ← gets (fun w => elapsed (history w));
  wait_loop (Z.to_nat timeout) (start + timeout) server_id timeout
            sleep_interval.

Definition delete_body : Op node_ctx unit :=
  c ← get_ctx;
  (if negb (is_external_resource c) then
     server ← get_server_by_context;
     id ← lift (getattr server "id");
     invoke (ServersDelete id) (fun h => servers_delete os h id);;
     _wait_for_server_to_be_deleted id 120 5
   else mret tt);;
  delete_runtime_properties RUNTIME_PROPERTIES_KEYS.

Definition delete (kw : gmap string value) : Op node_ctx unit :=
  with_client NovaClientWithSugar kw (fun _ => delete_body).
End Lifecycle.

(** *** Volume attachment *)

Section Volumes.
Variable os : cloud.
(** The constants of [cinder_plugin.volume]; its functions
    [wait_until_status] and [get_attachment] are calls to the provider. *)
Variable DEVICE_NAME_PROPERTY : string.
Variable VOLUME_STATUS_IN_USE VOLUME_STATUS_AVAILABLE : string.

Definition volume_wait_until_status (volume_id : value) (status : string)
    (num_tries timeout : Z) : Op rel_ctx (gmap string value * bool) :=
  invoke (WaitUntilStatus volume_id status num_tries timeout)
         (fun h => wait_until_status os h volume_id status num_tries timeout).

Definition volume_get_attachment (volume_id server_id : value)
    : Op rel_ctx value :=
  invoke (GetAttachment volume_id server_id)
         (fun h => get_attachment os h volume_id server_id).

Definition _detach_volume (server_id volume_id : value)
    (status_attempts status_timeout : Z) : Op rel_ctx unit :=
  attachment ← volume_get_attachment volume_id server_id;
  if truthy attachment then
    a ← lift (as_dict attachment);
    id ← lift (getitem a "id");
    invoke (DeleteServerVolume server_id id)
           (fun h => delete_server_volume os h server_id id);;
    volume_wait_until_status volume_id VOLUME_STATUS_AVAILABLE
                             status_attempts status_timeout;;
    mret tt
  else mret tt.

Definition _prepare_attach_volume_to_be_repeated (server_id volume_id : value)
    (status_attempts status_timeout : Z) : Op rel_ctx unit :=
  try_except
    (_detach_volume server_id volume_id status_attempts status_timeout)
    (fun e => raise (NonRecoverableError (Exc e))).

Definition attach_volume_body (status_attempts status_timeout : Z)
    : Op rel_ctx unit :=
  c ← get_ctx;
  server_id ← lift (getitem (runtime_properties (target c)) OPENSTACK_ID_PROPERTY);
  volume_id ← lift (getitem (runtime_properties (source c)) OPENSTACK_ID_PROPERTY);
  if is_external_relationship_not_conditionally_created c then
    attachment ← volume_get_attachment volume_id server_id;
    if truthy attachment then mret tt
    else
      raise (NonRecoverableError (Text (
        "Expected external resources server " ++ py_str server_id ++
        " and volume " ++ py_str volume_id ++ " to be connected")))
  else
    device ← lift (getitem (node_properties (source c)) DEVICE_NAME_PROPERTY);
    let requested := if negb (eq_str device "auto") then device else VNone in
    invoke (CreateServerVolume server_id volume_id requested)
           (fun h => create_server_volume os h server_id volume_id requested);;
    try_except
      ('(vol, wait_succeeded) ←
         volume_wait_until_status volume_id VOLUME_STATUS_IN_USE
                                  status_attempts status_timeout;
       if negb wait_succeeded then
         raise (RecoverableError (Text (
           "Waiting for volume status " ++ VOLUME_STATUS_IN_USE ++
           " failed - detaching volume and retrying..")) None)
       else if eq_str device "auto" then
         attachment ← volume_get_attachment volume_id server_id;
         a ← lift (match attachment with
                   | VDict a => Ok a
                   | _ => Raise (TypeError "object is not subscriptable")
                   end);
         device_name ← lift (getitem a "device");
         modify_ctx (set_source (set_runtime_properties
                                   (<[DEVICE_NAME_PROPERTY := device_name]>)))
       else mret tt)
      (fun e =>
         (if negb (is_non_recoverable e) then
            _prepare_attach_volume_to_be_repeated server_id volume_id
              status_attempts status_timeout
          else mret tt);;
         raise e).

(** [status_attempts] defaults to 10 and [status_timeout] to 2. *)
Definition attach_volume (status_attempts status_timeout : Z)
    (kw : gmap string value) : Op rel_ctx unit :=
  with_client_rel NovaClientWithSugar kw (fun kw =>
    with_client_rel CinderClientWithSugar kw (fun _ =>
      attach_volume_body status_attempts status_timeout)).
End Volumes.

(** *** create *)

Definition IPV4_PROPERTY := "ipv4_address".
Definition IPV6_PROPERTY := "ipv6_address".
Definition IPV4_LIST_PROPERTY := "ipv4_addresses".
Definition IPV6_LIST_PROPERTY := "ipv6_addresses".

Definition _fail_on_missing_required_parameters (obj : gmap string value)
    (required_parameters : list string) (hint_where : string) : result unit :=
  match List.filter (fun k => bool_decide (obj !! k = None)) required_parameters with
  | [] => Ok tt
  | k :: _ =>
      Raise (NonRecoverableError (Text (
        "Required parameter '" ++ k ++ "' is missing (under host's properties." ++
        hint_where ++ ")")))
  end.

(** [list(set(l))]; Python leaves the order open, the first occurrences are
    kept here in their order. *)
Fixpoint list_set (l : list value) : list value :=
  match l with
  | [] => []
  | x :: l' => x :: List.filter (fun y => negb (py_eq y x)) (list_set l')
  end.

Section Create.
Variable os : cloud.
(** The constants of the sibling modules. *)
Variable NETWORK_OPENSTACK_TYPE PORT_OPENSTACK_TYPE : string.
Variable FLOATINGIP_OPENSTACK_TYPE : string.
Variable VOLUME_OPENSTACK_TYPE VOLUME_BOOTABLE : string.
Variable KEYPAIR_OPENSTACK_TYPE SERVER_GROUP_OPENSTACK_TYPE : string.
Variable SECURITY_GROUP_OPENSTACK_TYPE : string.
(** [glance_plugin.image.handle_image_from_relationship] and
    [nova_plugin.userdata.handle_userdata] update the server dictionary
    from the context. *)
Variable handle_image_from_relationship :
  gmap string value -> string -> node_ctx -> result (gmap string value).
Variable handle_userdata :
  gmap string value -> node_ctx -> result (gmap string value).
(** [netaddr.valid_ipv4] and [netaddr.valid_ipv6] *)
Variable valid_ipv4 valid_ipv6 : value -> bool.

Abbreviation nova_get_named :=
  (cosmo_get_named os FLOATINGIP_OPENSTACK_TYPE NovaClientWithSugar).

(** [keypair.id] of the keypair named [key_name]. *)
Definition _get_keypair_name_by_id {C} (key_name : value) : Op C value :=
  keypair ← nova_get_named KEYPAIR_OPENSTACK_TYPE key_name;
  lift (match keypair with
        | Some keypair => getattr keypair "id"
        | None => Raise (AttributeError "id")
        end).

(** [getattr(nova_client, plural).find(name=name)]: the one match of
    [findall], [NotFound] when there is none. *)
Definition nova_find {C} (obj_type_plural : string) (name : value)
    : Op C (gmap string value) :=
  ls ← invoke (ListResources NovaClientWithSugar obj_type_plural {["name" := name]})
         (fun h => list_resources os h NovaClientWithSugar obj_type_plural
                     {["name" := name]});
  match ls with
  | [] => raise (ClientException NovaClientWithSugar 404 "No match")
  | [r] => mret r
  | _ => raise NoUniqueMatch
  end.

Definition _handle_image_or_flavor (server : gmap string value)
    (prop_name : string) : Op node_ctx (gmap string value) :=
  c ← get_ctx;
  let name_key := prop_name ++ "_name" in
  if bool_decide (server !! prop_name = None) &&
     bool_decide (server !! name_key = None)
  then
    v ← lift (getitem (node_properties c) prop_name);
    let server := <[prop_name := v]> server in
    if negb (truthy v) then
      raise (NonRecoverableError (Text (
        "must set " ++ prop_name ++ " by either setting a '" ++ prop_name ++
        "' property or by setting a '" ++ prop_name ++ "' or '" ++
        prop_name ++ "_name' (deprecated) field under the 'server' property")))
    else
      image_or_flavor ← cosmo_get_if_exists os FLOATINGIP_OPENSTACK_TYPE
                          NovaClientWithSugar prop_name {["name" := v]};
      match image_or_flavor with
      | Some r => id ← lift (getattr r "id"); mret (<[prop_name := id]> server)
      | None => mret server
      end
  else
    match server !! name_key with
    | Some name =>
        r ← nova_find (cosmo_plural prop_name) name;
        id ← lift (getattr r "id");
        mret (base.delete name_key (<[prop_name := id]> server))
    | None => mret server
    end.

Definition interface_list_ (server : gmap string value)
    : Op node_ctx (list (gmap string value)) :=
  id ← lift (getattr server "id");
  invoke (InterfaceList id) (fun h => interface_list os h id).

Definition interface_attach_ (server : gmap string value) (port_id net_id : value)
    : Op node_ctx unit :=
  id ← lift (getattr server "id");
  invoke (InterfaceAttach id port_id net_id)
         (fun h => interface_attach os h id port_id net_id).

Definition _validate_external_server_nics (external_server : gmap string value)
    (network_ids port_ids : list value) : Op node_ctx unit :=
  interfaces ← interface_list_ external_server;
  attached_ports ← lift (mapM (fun i => getattr i "port_id") interfaces);
  attached_nets ← lift (mapM (fun i => getattr i "net_id") interfaces);
  let already_attached_ports :=
    List.filter (fun port_id => list_contains port_id port_ids) attached_ports in
  let already_attached_nets :=
    List.filter (fun net_id => list_contains net_id network_ids) attached_nets in
  match already_attached_ports, already_attached_nets with
  | [], [] =>
      forM_ port_ids (fun port_id =>
        interface_attach_ external_server port_id VNone);;
      interfaces ← interface_list_ external_server;
      attached_nets ← lift (mapM (fun i => getattr i "net_id") interfaces);
      forM_ network_ids (fun net_id =>
        if negb (list_contains net_id attached_nets)
        then interface_attach_ external_server VNone net_id
        else mret tt)
  | _, _ =>
      raise (NonRecoverableError (Text
        "Several ports/networks already connected to external server"))
  end.

(** The loop of [_set_network_and_ip_runtime_properties] over the
    networks of the server; its state is the manager network ip and the
    two address lists. *)
Fixpoint networks_loop (management_network_name : value)
    (networks : list (string * value))
    (st : value * list value * list value)
    : result (value * list value * list value) :=
  match networks with
  | [] => Ok st
  | (network, network_ips) :: rest =>
      let '(manager_network_ip, ipv4_addrs, ipv6_addrs) := st in
      let manager_network_ip :=
        if (truthy management_network_name &&
            py_eq (VStr network) management_network_name) ||
           negb (truthy manager_network_ip)
        then match network_ips with
             | VList (ip :: _) => ip
             | _ => VNone
             end
        else manager_network_ip in
      ips ← as_list network_ips;
      networks_loop management_network_name rest
        (manager_network_ip,
         list_set (ipv4_addrs ++ List.filter valid_ipv4 ips),
         list_set (ipv6_addrs ++ List.filter valid_ipv6 ips))
  end.

Definition _set_network_and_ip_runtime_properties (server : gmap string value)
    : Op node_ctx unit :=
  networks ← lift (getattr server "networks");
  if negb (truthy networks) then
    raise (NonRecoverableError (Text (
      "The server was created but not attached to a network. " ++
      "Cloudify requires that a server is connected to at least one port.")))
  else
    networks ← lift (as_dict networks);
    metadata ← lift (getattr server "metadata");
    metadata ← lift (as_dict metadata);
    let management_network_name :=
      default VNone (metadata !! "cloudify_management_network_name") in
    '(manager_network_ip, ipv4_addrs, ipv6_addrs) ←
      lift (networks_loop management_network_name (map_to_list networks)
                          (VNone, [], []));
    set_runtime_property NETWORKS_PROPERTY (VDict networks);;
    set_runtime_property IPV4_LIST_PROPERTY (VList ipv4_addrs);;
    set_runtime_property IPV6_LIST_PROPERTY (VList ipv6_addrs);;
    set_runtime_property IP_PROPERTY manager_network_ip;;
    accessIPv4 ← lift (getattr server "accessIPv4");
    set_runtime_property IPV4_PROPERTY
      (if truthy accessIPv4 then accessIPv4
       else if valid_ipv4 manager_network_ip then manager_network_ip
       else match ipv4_addrs with [ip] => ip | _ => VNone end);;
    accessIPv6 ← lift (getattr server "accessIPv6");
    set_runtime_property IPV6_PROPERTY
      (if truthy accessIPv6 then accessIPv6
       else if valid_ipv6 manager_network_ip then manager_network_ip
       else match ipv6_addrs with [ip] => ip | _ => VNone end).

(** The node properties of the keypair come from the relationship whose
    target has the keypair's id. *)
Definition _validate_external_server_keypair : Op node_ctx unit :=
  c ← get_ctx;
  keypair_id ← lift (get_openstack_id_of_single_connected_node_by_openstack_type
                       c KEYPAIR_OPENSTACK_TYPE true);
  if negb (truthy keypair_id) then mret tt
  else
    match List.filter
            (fun rel =>
               py_eq (default VNone
                        (target_runtime_properties rel !! OPENSTACK_ID_PROPERTY))
                     keypair_id)
            (relationships c) with
    | [] => raise (IndexError "list index out of range")
    | rel :: _ =>
        if negb (is_external_resource_by_properties (target_node_properties rel))
        then
          raise (NonRecoverableError (Text (
            "Can't connect a new keypair node to a server node with '" ++
            USE_EXTERNAL_RESOURCE_PROPERTY ++ "'=True")))
        else
          server ← get_server_by_context os;
          key_name ← lift (getattr server "key_name");
          id ← _get_keypair_name_by_id key_name;
          if py_eq keypair_id id then mret tt
          else
            raise (NonRecoverableError (Text (
              "Expected external resources server and keypair to be connected")))
    end.

Abbreviation external_server_lookup :=
  (use_external_resource os FLOATINGIP_OPENSTACK_TYPE NovaClientWithSugar
                         SERVER_OPENSTACK_TYPE "name").

(** The branch of [create] for an existing external server. *)
Definition create_external (external_server : gmap string value)
    : Op node_ctx decision :=
  c ← get_ctx;
  network_ids ← lift (get_openstack_ids_of_connected_nodes_by_openstack_type
                        c NETWORK_OPENSTACK_TYPE);
  port_ids ← lift (get_openstack_ids_of_connected_nodes_by_openstack_type
                     c PORT_OPENSTACK_TYPE);
  _validate_external_server_nics external_server network_ids port_ids;;
  (* need to reload server for full list of networks *)
  external_server ← external_server_lookup;
  external_server ← lift (match external_server with
                          | Some s => Ok s
                          | None => Raise (AttributeError "networks")
                          end);
  _set_network_and_ip_runtime_properties external_server;;
  _validate_external_server_keypair;;
  mret Done.

(** The security groups of the server to create. *)
Definition handle_security_groups (server : gmap string value) (c : node_ctx)
    : result (gmap string value) :=
  let agents_security_group := provider_resource c "agents_security_group" in
  if truthy agents_security_group then
    security_groups ← as_list (default (VList []) (server !! "security_groups"));
    asg ← as_dict agents_security_group;
    asg ← getitem asg "name";
    let security_groups :=
      if negb (list_contains asg security_groups)
      then (security_groups ++ [asg])%list else security_groups in
    Ok (<["security_groups" := VList security_groups]> server)
  else if negb (truthy (default (VList []) (server !! "security_groups"))) then
    security_group_names ←
      get_openstack_names_of_connected_nodes_by_openstack_type
        c SECURITY_GROUP_OPENSTACK_TYPE;
    Ok (<["security_groups" := VList security_group_names]> server)
  else Ok server.

(** The key pair of the server to create. *)
Definition handle_keypair (server : gmap string value)
    : Op node_ctx (gmap string value) :=
  c ← get_ctx;
  keypair_id ← lift (get_openstack_id_of_single_connected_node_by_openstack_type
                       c KEYPAIR_OPENSTACK_TYPE true);
  match server !! "key_name" with
  | Some key_name =>
      if truthy keypair_id then
        raise (NonRecoverableError (Text (
          "server can't both have the 'key_name' nested property and be " ++
          "connected to a keypair via a relationship at the same time")))
      else
        '(name, _) ← lift (transform_resource_name c key_name);
        mret (<["key_name" := name]> server)
  | None =>
      if truthy keypair_id then
        name ← _get_keypair_name_by_id keypair_id;
        mret (<["key_name" := name]> server)
      else
        let agents_keypair := provider_resource c "agents_keypair" in
        if truthy agents_keypair then
          kp ← lift (as_dict agents_keypair);
          name ← lift (getitem kp "name");
          mret (<["key_name" := name]> server)
        else mret (<["key_name" := VNone]> server)
  end.

(** The branch of [create] that creates the server. *)
Definition create_managed (args : gmap string value) : Op node_ctx decision :=
  c ← get_ctx;
  name ← lift (get_resource_id c SERVER_OPENSTACK_TYPE);
  properties_server ← lift (getitem (node_properties c) "server");
  properties_server ← lift (as_dict properties_server);
  let server : gmap string value :=
    args ∪ (properties_server ∪ {["name" := name]}) in
  server ← lift (_handle_boot_volume VOLUME_OPENSTACK_TYPE VOLUME_BOOTABLE
                                     server c);
  server ← lift (handle_image_from_relationship server "image" c);
  let server :=
    if bool_decide (server !! "meta" = None)
    then <["meta" := VDict ∅]> server else server in
  '(_, server) ← lift (transform_resource_name c (VDict server));
  server ←
    (if (bool_decide (is_Some (server !! "block_device_mapping")) ||
         bool_decide (is_Some (server !! "block_device_mapping_v2"))) &&
        bool_decide (server !! "image" = None)
     then
       (* python-novaclient requires an image field even if BDM is used. *)
       mret (<["image" := default VNone (node_properties c !! "image")]> server)
     else _handle_image_or_flavor server "image");
  server ← _handle_image_or_flavor server "flavor";
  server ← lift (handle_security_groups server c);
  server ← handle_keypair server;
  lift (_fail_on_missing_required_parameters server ["name"; "flavor"] "server");;
  server ← _prepare_server_nics os NETWORK_OPENSTACK_TYPE PORT_OPENSTACK_TYPE
             FLOATINGIP_OPENSTACK_TYPE server;
  server_group_id ←
    lift (get_openstack_id_of_single_connected_node_by_openstack_type
            c SERVER_GROUP_OPENSTACK_TYPE true);
  server ←
    (if truthy server_group_id then
       scheduler_hints ←
         lift (as_dict (default (VDict ∅) (server !! "scheduler_hints")));
       mret (<["scheduler_hints" :=
                 VDict (<["group" := server_group_id]> scheduler_hints)]> server)
     else mret server);
  server ← lift (handle_userdata server c);
  (* Store the server dictionary contents in runtime properties *)
  assign_payload_as_runtime_properties SERVER_OPENSTACK_TYPE server;;
  created ← try_except
    (s ← invoke (ServersCreate server) (fun h => servers_create os h server);
     mret (inl s))
    (fun e =>
       match e with
       | ClientException NovaClientWithSugar 400 msg =>
           if str_contains "Block Device Mapping is Invalid" msg then
             r ← operation_retry "Block Device Mapping is not created yet"
                   (Some 30);
             mret (inr r)
           else raise e
       | _ => raise e
       end);
  match created with
  | inr r => mret r
  | inl s =>
      id ← lift (getattr s "id");
      set_runtime_property OPENSTACK_ID_PROPERTY id;;
      set_runtime_property OPENSTACK_TYPE_PROPERTY (VStr SERVER_OPENSTACK_TYPE);;
      name ← lift (getitem server "name");
      set_runtime_property OPENSTACK_NAME_PROPERTY name;;
      mret Done
  end.

Definition create_body (args : gmap string value) : Op node_ctx decision :=
  external_server ← external_server_lookup;
  match external_server with
  | Some external_server => create_external external_server
  | None => create_managed args
  end.

Definition create (args : gmap string value) (kw : gmap string value)
    : Op node_ctx decision :=
  with_client NovaClientWithSugar kw (fun kw =>
    with_client NeutronClientWithSugar kw (fun _ => create_body args)).
End Create.

End Server.

(** ** Example worlds *)

Module Scenario.
Import Common Server.

(** The constants of the sibling modules, as the plugin defines them. *)
Definition NETWORK_OPENSTACK_TYPE := "network".
Definition PORT_OPENSTACK_TYPE := "port".
Definition FLOATINGIP_OPENSTACK_TYPE := "floatingip".
Definition VOLUME_OPENSTACK_TYPE := "volume".
Definition VOLUME_BOOTABLE := "bootable".
Definition KEYPAIR_OPENSTACK_TYPE := "keypair".
Definition SERVER_GROUP_OPENSTACK_TYPE := "server_group".
Definition SECURITY_GROUP_OPENSTACK_TYPE := "security_group".
Definition DEVICE_NAME_PROPERTY := "device_name".
Definition VOLUME_STATUS_IN_USE := "in-use".
Definition VOLUME_STATUS_AVAILABLE := "available".

(** A provider given by its listings, its quotas, its ports, its servers,
    the outcome of a wait for a volume status, its attachment records and
    the outcome of a detach command; every other command succeeds. *)
Definition example_cloud
    (listing : list call -> client_kind -> string -> gmap string value ->
               list (gmap string value))
    (quota : gmap string Z)
    (port : value -> result (gmap string value))
    (server : list call -> value -> result (gmap string value))
    (wait : list call -> string -> result (gmap string value * bool))
    (attachment : list call -> value)
    (detach : result unit) : cloud :=
  {| list_resources := fun h client plural kw => Ok (listing h client plural kw);
     quotas := fun _ _ => Ok quota;
     delete_resource := fun _ _ _ _ => Ok tt;
     show_port := fun _ port_id => port port_id;
     servers_get := server;
     servers_stop := fun _ _ => Ok tt;
     servers_start := fun _ _ => Ok tt;
     servers_reboot := fun _ _ _ => Ok tt;
     servers_delete := fun _ _ => Ok tt;
     servers_create := fun _ server =>
       Ok (<["id" := VStr "srv-1"]> (<["status" := VStr "BUILD"]> server));
     interface_list := fun _ _ => Ok [];
     interface_attach := fun _ _ _ _ => Ok tt;
     create_server_volume := fun _ _ _ _ => Ok tt;
     delete_server_volume := fun _ _ _ => detach;
     wait_until_status := fun h _ status _ _ => wait h status;
     get_attachment := fun h _ _ => Ok (attachment h) |}.

Definition nothing_listed : list call -> client_kind -> string ->
    gmap string value -> list (gmap string value) :=
  fun _ _ _ _ => [].

Definition no_port : value -> result (gmap string value) :=
  fun _ => Raise (ClientException NeutronClientWithSugar 404 "Port not found").

Definition no_server : list call -> value -> result (gmap string value) :=
  fun _ _ => Raise (ClientException NovaClientWithSugar 404 "Server not found").

Definition wait_succeeds : list call -> string ->
    result (gmap string value * bool) :=
  fun _ status => Ok ({["status" := VStr status]}, true).

(** An empty provider. *)
Definition empty_cloud : cloud :=
  example_cloud nothing_listed ∅ no_port no_server wait_succeeds
                (fun _ => VNone) (Ok tt).

(** A node instance without relationships. *)
Definition node (properties runtime : gmap string value)
    (rels : list relationship) : node_ctx :=
  {| node_id := "vm";
     node_properties := properties;
     instance_id := "vm_x1";
     runtime_properties := runtime;
     relationships := rels;
     deployment_id := "dep";
     provider_resources := ∅;
     resources_prefix := VNone;
     retry_number := 0 |}.

Definition start_of {C} (c : C) : world C :=
  {| ctx := c; history := []; retry_request := None |}.

(** A relationship to a node instance of the given type and id. *)
Definition related (openstack_type id : string) (more : gmap string value)
    : relationship :=
  {| target_node_properties := ∅;
     target_runtime_properties :=
       <[OPENSTACK_TYPE_PROPERTY := VStr openstack_type]>
         (<[OPENSTACK_ID_PROPERTY := VStr id]> more) |}.

(** A server object of the provider. *)
Definition server_object (id status : string) (task_state : value)
    : gmap string value :=
  <["id" := VStr id]>
    (<["name" := VStr "web"]>
       (<["status" := VStr status]>
          (<[OS_EXT_STS_TASK_STATE := task_state]>
             (<["networks" := VDict {["private" := VList [VStr "10.0.0.5"]]}]>
                (<["metadata" := VDict ∅]>
                   (<["accessIPv4" := VStr EmptyString]>
                      (<["accessIPv6" := VStr EmptyString]>
                         {["key_name" := VNone]}))))))).

(** The images and userdata hooks of a node without image relationship and
    without userdata. *)
Definition no_image : gmap string value -> string -> node_ctx ->
    result (gmap string value) :=
  fun server _ _ => Ok server.

Definition no_userdata : gmap string value -> node_ctx ->
    result (gmap string value) :=
  fun server _ => Ok server.

Definition is_the_ip (v : value) : bool := eq_str v "10.0.0.5".
Definition never (v : value) : bool := false.

(** [create] with the plugin's constants. *)
Definition create_server (os : cloud) :=
  create os NETWORK_OPENSTACK_TYPE PORT_OPENSTACK_TYPE FLOATINGIP_OPENSTACK_TYPE
         VOLUME_OPENSTACK_TYPE VOLUME_BOOTABLE KEYPAIR_OPENSTACK_TYPE
         SERVER_GROUP_OPENSTACK_TYPE SECURITY_GROUP_OPENSTACK_TYPE
         no_image no_userdata is_the_ip never.

(** A server declared external with create-if-missing. *)
Definition conditional_server : node_ctx :=
  node (<[USE_EXTERNAL_RESOURCE_PROPERTY := VBool true]>
          (<[CREATE_IF_MISSING_PROPERTY := VBool true]>
             (<["resource_id" := VStr "web"]>
                (<["server" := VDict ∅]>
                   (<["image" := VStr "img"]>
                      {["flavor" := VStr "small"]})))))
       ∅ [].

(** A managed server that was created with id ["srv-1"]. *)
Definition managed_server (retries : nat) : node_ctx :=
  {| node_id := "vm";
     node_properties := {["resource_id" := VStr EmptyString]};
     instance_id := "vm_x1";
     runtime_properties :=
       <[OPENSTACK_ID_PROPERTY := VStr "srv-1"]>
         {[OPENSTACK_TYPE_PROPERTY := VStr SERVER_OPENSTACK_TYPE]};
     relationships := [];
     deployment_id := "dep";
     provider_resources := ∅;
     resources_prefix := VNone;
     retry_number := retries |}.

(** A provider whose one server is in the given status. *)
Definition cloud_with_server (status : string) : cloud :=
  example_cloud nothing_listed ∅ no_port
    (fun _ _ => Ok (server_object "srv-1" status VNone))
    wait_succeeds (fun _ => VNone) (Ok tt).

(** A provider whose every port is on network ["D"]. *)
Definition port_on_D : value -> result (gmap string value) :=
  fun port_id =>
    Ok {["port" := VDict (<["network_id" := VStr "D"]> {["id" := port_id]})]}.

Definition nic_cloud : cloud :=
  example_cloud nothing_listed ∅ port_on_D no_server wait_succeeds
                (fun _ => VNone) (Ok tt).

(** A server node with management network ["E"] in the provider context. *)
Definition nic_node (rels : list relationship) : node_ctx :=
  {| node_id := "vm";
     node_properties := {["resource_id" := VStr EmptyString]};
     instance_id := "vm_x1";
     runtime_properties := ∅;
     relationships := rels;
     deployment_id := "dep";
     provider_resources :=
       {["int_network" :=
           VDict (<["id" := VStr "E"]> {["name" := VStr "management"]})]};
     resources_prefix := VNone;
     retry_number := 0 |}.

(** The server dictionary with the inline NIC ["A"]. *)
Definition inline_server : gmap string value :=
  <["meta" := VDict ∅]> {["nics" := VList [VDict {["net-id" := VStr "A"]}]]}.

Definition compose (rels : list relationship)
    : result (gmap string value) * world node_ctx :=
  _prepare_server_nics nic_cloud NETWORK_OPENSTACK_TYPE PORT_OPENSTACK_TYPE
    FLOATINGIP_OPENSTACK_TYPE inline_server (start_of (nic_node rels)).

(** The NIC list of the server dictionary a composition returns. *)
Definition composed_nics (out : result (gmap string value) * world node_ctx)
    : option value :=
  match fst out with
  | Ok server => server !! "nics"
  | Raise _ => None
  end.

Definition net (id : string) : value := VDict {["net-id" := VStr id]}.

(** A volume and the server it is attached to. *)
Definition volume_to_server : rel_ctx :=
  {| source := node {[DEVICE_NAME_PROPERTY := VStr "auto"]}
                    {[OPENSTACK_ID_PROPERTY := VStr "vol-1"]} [];
     target := node ∅ {[OPENSTACK_ID_PROPERTY := VStr "srv-1"]} [] |}.

(** A provider on which the volume never gets in use and the attachment
    record exists; [detach] is the outcome of the detach command. *)
Definition slow_volume_cloud (detach : result unit) : cloud :=
  example_cloud nothing_listed ∅ no_port no_server
    (fun _ status => Ok ({["status" := VStr "attaching"]}, false))
    (fun _ => VDict (<["id" := VStr "att-1"]> {["device" := VStr "/dev/vdb"]}))
    detach.

Definition detach_refused : exn :=
  ClientException NovaClientWithSugar 500 "detach refused".

Definition attach (os : cloud) :=
  attach_volume os DEVICE_NAME_PROPERTY VOLUME_STATUS_IN_USE
                VOLUME_STATUS_AVAILABLE 10 2 ∅ (start_of volume_to_server).

(** A provider with [existing] networks and the given quota of networks. *)
Definition network_cloud (existing : nat) (quota : Z) : cloud :=
  example_cloud
    (fun _ _ _ _ => replicate existing ({["id" := VStr "n"]} : gmap string value))
    {["network" := quota]} no_port no_server wait_succeeds (fun _ => VNone)
    (Ok tt).

Definition validate_network (os : cloud) :=
  validate_resource os FLOATINGIP_OPENSTACK_TYPE NeutronClientWithSugar
                    "network" "name".

Definition managed_network : node_ctx :=
  node {["resource_id" := VStr "net"]} ∅ [].

Definition conditional_network : node_ctx :=
  node (<[USE_EXTERNAL_RESOURCE_PROPERTY := VBool true]>
          (<[CREATE_IF_MISSING_PROPERTY := VBool true]>
             {["resource_id" := VStr "net"]}))
       ∅ [].

(** Two bootable volumes. *)
Definition two_boot_volumes : list relationship :=
  [related VOLUME_OPENSTACK_TYPE "vol-1" {[VOLUME_BOOTABLE := VBool true]};
   related VOLUME_OPENSTACK_TYPE "vol-2" {[VOLUME_BOOTABLE := VBool true]}].

Definition managed_two_boot : node_ctx :=
  node (<["resource_id" := VStr EmptyString]>
          (<["server" := VDict ∅]>
             (<["image" := VStr "img"]> {["flavor" := VStr "small"]})))
       ∅ two_boot_volumes.

Definition external_two_boot : node_ctx :=
  node (<[USE_EXTERNAL_RESOURCE_PROPERTY := VBool true]>
          (<["resource_id" := VStr "web"]> {["server" := VDict ∅]}))
       ∅ two_boot_volumes.

(** A provider with the server ["web"], whose id is ["srv-1"]. *)
Definition cloud_with_web : cloud :=
  example_cloud
    (fun _ client plural kw =>
       if bool_decide (client = NovaClientWithSugar) &&
          bool_decide (plural = "servers") &&
          (match kw !! "name" with Some v => eq_str v "web" | None => false end ||
           match kw !! "id" with Some v => eq_str v "srv-1" | None => false end)
       then [server_object "srv-1" "ACTIVE" VNone] else [])
    ∅ no_port
    (fun _ _ => Ok (server_object "srv-1" "ACTIVE" VNone))
    wait_succeeds (fun _ => VNone) (Ok tt).

End Scenario.


(** ** nova_plugin.server: start, detach and the snapshots *)

Module ServerOps.
Import Common Server.

(** The double quote of a message. *)
Definition quote : string := String (ascii_of_nat 34) EmptyString.

(** [base.getid(server)] of the provider's client: the id of the object,
    or the object itself when it has none. *)
Definition getid (server : gmap string value) : value :=
  default (VDict server) (server !! "id").

Section Start.
Variable os : cloud.
Variable valid_ipv4 valid_ipv6 : value -> bool.
(** [_get_private_key] reads the key of the agent from the file system and
    [server.get_password] asks the provider for the generated password:
    both are given, and may do whatever an operation does. *)
Variable _get_private_key : string -> Op node_ctx value.
Variable get_password : gmap string value -> value -> Op node_ctx value.

(** [server.fault['message']], or the task state when the server has no
    fault or the fault has no message. *)
Definition server_state_fault (server : gmap string value)
    (server_task_state : value) : result string :=
  let not_provided :=
    py_str server_task_state ++ ". A reason was not provided by Opentack." in
  match server !! "fault" with
  | None => Ok not_provided
  | Some (VDict fault) =>
      match fault !! "message" with
      | Some message => Ok (py_str message)
      | None => Ok not_provided
      end
  | Some _ => Raise (TypeError "object is not subscriptable")
  end.

(** The body of [start]; [start_retry_interval] defaults to 30 and
    [private_key_path] to the empty string. *)
Definition start_body (start_retry_interval : Z) (private_key_path : string)
    : Op node_ctx decision :=
  server ← get_server_by_context os;
  c ← get_ctx;
  if is_external_resource_not_conditionally_created c then
    status ← lift (getattr server "status");
    if negb (eq_str status SERVER_STATUS_ACTIVE) then
      id ← lift (getattr server "id");
      raise (NonRecoverableError (Text (
        "Expected external resource server " ++ py_str id ++ " to be in " ++
        quote ++ SERVER_STATUS_ACTIVE ++ quote ++ " status")))
    else mret Done
  else
    status ← lift (getattr server "status");
    if eq_str status SERVER_STATUS_ACTIVE then
      use_password ← lift (getitem (node_properties c) "use_password");
      if truthy use_password then
        private_key ← _get_private_key private_key_path;
        password ← get_password server private_key;
        if negb (truthy password) then
          operation_retry "Waiting for server to post generated password"
                          (Some start_retry_interval)
        else
          modify_ctx (set_runtime_properties
                        (<[ADMIN_PASSWORD_PROPERTY := password]>));;
          _set_network_and_ip_runtime_properties valid_ipv4 valid_ipv6 server;;
          mret Done
      else
        _set_network_and_ip_runtime_properties valid_ipv4 valid_ipv6 server;;
        mret Done
    else
      server_task_state ← lift (getattr server OS_EXT_STS_TASK_STATE);
      server_task_state ←
        (if eq_str status SERVER_STATUS_SHUTOFF &&
            negb (eq_str server_task_state SERVER_TASK_STATE_POWERING_ON)
         then
           invoke (ServersStart (getid server))
                  (fun h => servers_start os h (getid server));;
           mret (VStr SERVER_TASK_STATE_POWERING_ON)
         else mret server_task_state);
      if eq_str status SERVER_STATUS_BUILD ||
         eq_str server_task_state SERVER_TASK_STATE_POWERING_ON
      then
        operation_retry
          ("Waiting for server to be in " ++ SERVER_STATUS_ACTIVE ++
           " state but is in " ++ py_str status ++ ":" ++
           py_str server_task_state ++ " state. Retrying...")
          (Some start_retry_interval)
      else
        fault ← lift (server_state_fault server server_task_state);
        raise (NonRecoverableError (Text (
          "Unexpected server state " ++ py_str status ++ ". Reason: " ++
          fault))).

Definition start (start_retry_interval : Z) (private_key_path : string)
    (kw : gmap string value) : Op node_ctx decision :=
  with_client NovaClientWithSugar kw (fun _ =>
    start_body start_retry_interval private_key_path).

Definition _server_start {C} (server : gmap string value) : Op C decision :=
  status ← lift (getattr server "status");
  if negb (eq_str status SERVER_STATUS_ACTIVE) then
    invoke (ServersStart (getid server))
           (fun h => servers_start os h (getid server));;
    (* wait 10 seconds before next check *)
    sleep 10;;
    id ← lift (getattr server "id");
    server ← servers_get_ os id;
    status ← lift (getattr server "status");
    if negb (eq_str status SERVER_STATUS_SHUTOFF) then
      operation_retry ("Server has " ++ py_str status ++ " state.") (Some 30)
    else mret Done
  else mret Done.

(** [waiting_list] is a list of task states. *)
Definition _check_finished_upload {C} (server : gmap string value)
    (waiting_list : list string) : Op C decision :=
  id ← lift (getattr server "id");
  server ← servers_get_ os id;
  state ← lift (getattr server OS_EXT_STS_TASK_STATE);
  if negb (list_contains state (VStr <$> waiting_list)) then mret Done
  else
    status ← lift (getattr server "status");
    operation_retry
      ("Server has " ++ py_str status ++ "/" ++ py_str state ++ " state.")
      (Some 30).
End Start.

(** *** Snapshots *)

Definition _get_snapshot_name (c : node_ctx) (kwargs : gmap string value)
    : result string :=
  id ← getitem (runtime_properties c) OPENSTACK_ID_PROPERTY;
  snapshot_name ← getitem kwargs "snapshot_name";
  snapshot_incremental ← getitem kwargs "snapshot_incremental";
  Ok ("vm-" ++ py_str id ++ "-" ++ py_str snapshot_name ++ "-" ++
      (if truthy snapshot_incremental then "increment" else "backup")).

(** The loop of [_get_image] over the listed images. *)
Fixpoint first_image (images : list (gmap string value))
    (snapshot_name backtype : string) : result (value * value) :=
  match images with
  | [] => Ok (VNone, VNone)
  | image :: rest =>
      name ← getitem image "name";
      if negb (eq_str name snapshot_name)
      then first_image rest snapshot_name backtype
      else
        image_type ← getitem image "image_type";
        if negb (eq_str image_type backtype)
        then first_image rest snapshot_name backtype
        else
          id ← getitem image "id";
          status ← getitem image "status";
          Ok (id, status)
  end.

Section Snapshots.
Variable os : cloud.

(** [glance_client.images.list(filters={'name': snapshot_name})] is a
    listing of the images with that filter. *)
Definition images_list {C} (snapshot_name : string)
    : Op C (list (gmap string value)) :=
  let kw : gmap string value :=
    {["filters" := VDict {["name" := VStr snapshot_name]}]} in
  invoke (ListResources GlanceClientWithSugar "images" kw)
         (fun h => list_resources os h GlanceClientWithSugar "images" kw).

Definition _get_image {C} (snapshot_name : string)
    (snapshot_incremental : value) : Op C (value * value) :=
  let backtype := if truthy snapshot_incremental then "snapshot" else "backup" in
  images ← images_list snapshot_name;
  lift (first_image images snapshot_name backtype).

Definition _image_delete {C} (snapshot_name : string)
    (snapshot_incremental : value) : Op C decision :=
  '(image_id, status) ← _get_image snapshot_name snapshot_incremental;
  if negb (truthy image_id) then mret Done
  else
    (if eq_str status "active" then
       invoke (DeleteResource GlanceClientWithSugar "images" image_id)
              (fun h => delete_resource os h GlanceClientWithSugar "images"
                          image_id);;
       sleep 10
     else mret tt);;
    (* check that we deleted any backups with such name *)
    '(image_id, _) ← _get_image snapshot_name snapshot_incremental;
    if truthy image_id then
      operation_retry (py_str image_id ++ " is still alive") (Some 30)
    else mret Done.

Definition snapshot_delete_body (kwargs : gmap string value)
    : Op node_ctx decision :=
  _ ← get_server_by_context os;
  c ← get_ctx;
  snapshot_name ← lift (_get_snapshot_name c kwargs);
  snapshot_incremental ← lift (getitem kwargs "snapshot_incremental");
  _image_delete snapshot_name snapshot_incremental.

Definition snapshot_delete (kw : gmap string value) : Op node_ctx decision :=
  with_client NovaClientWithSugar kw (fun kw =>
    with_client GlanceClientWithSugar kw snapshot_delete_body).
End Snapshots.

(** *** Detaching a volume *)

Section Detach.
Variable os : cloud.
Variable VOLUME_STATUS_AVAILABLE : string.

Definition detach_volume_body (status_attempts status_timeout : Z)
    : Op rel_ctx unit :=
  c ← get_ctx;
  if is_external_relationship c then mret tt
  else
    server_id ← lift (getitem (runtime_properties (target c)) OPENSTACK_ID_PROPERTY);
    volume_id ← lift (getitem (runtime_properties (source c)) OPENSTACK_ID_PROPERTY);
    _detach_volume os VOLUME_STATUS_AVAILABLE server_id volume_id
                   status_attempts status_timeout.

(** [status_attempts] defaults to 10 and [status_timeout] to 2. *)
Definition detach_volume (status_attempts status_timeout : Z)
    (kw : gmap string value) : Op rel_ctx unit :=
  with_client_rel NovaClientWithSugar kw (fun kw =>
    with_client_rel CinderClientWithSugar kw (fun _ =>
      detach_volume_body status_attempts status_timeout)).
End Detach.

End ServerOps.

(** ** openstack_plugin_common: the configuration of a client *)

Module ClientConfig.
Import Common.

Definition OPENSTACK_CONFIG_PATH_ENV_VAR := "OPENSTACK_CONFIG_PATH".
Definition OPENSTACK_CONFIG_PATH_DEFAULT_PATH := "~/openstack_config.json".
Definition CONFIG_PROPERTY := "openstack_config".
Definition AUTH_PARAM_INSECURE := "insecure".
Definition AUTH_PARM_CA_CERT := "ca_cert".

(** [Config.update_config]: the loop over the items of the overriding
    configuration; the result is the overridden configuration after it. *)
Definition update_config (overridden_cfg overriding_cfg : gmap string value)
    : gmap string value :=
  map_fold (fun k v cfg => if truthy v then <[k := v]> cfg else cfg)
           overridden_cfg overriding_cfg.

Definition COMMON : gset string := {["username"; "password"; "auth_url"]}.

Definition AUTH_SETS : list (gset string) :=
  [COMMON ∪ {["tenant_name"]};
   COMMON ∪ {["project_id"; "user_domain_name"]};
   COMMON ∪ {["project_id"; "project_name"; "user_domain_name"]};
   COMMON ∪ {["project_name"; "user_domain_name"; "project_domain_name"]}].

Definition OPTIONAL_AUTH_PARAMS : gset string :=
  {[AUTH_PARAM_INSECURE; AUTH_PARM_CA_CERT]}.

(** [reduce(lambda x, y: x | y, sets)] on a list that is not empty. *)
Definition reduce_union (sets : list (gset string)) : gset string :=
  match sets with
  | [] => ∅
  | s :: rest => foldl (fun x y => x ∪ y) s rest
  end.

(** [OpenStackClient._split_config]: the authentication parameters and
    the others. *)
Definition _split_config (cfg : gmap string value)
    : gmap string value * gmap string value :=
  let all := reduce_union AUTH_SETS ∪ OPTIONAL_AUTH_PARAMS in
  map_fold (fun param value '(auth, misc) =>
              if bool_decide (param ∈ all)
              then (<[param := value]> auth, misc)
              else (auth, <[param := value]> misc))
           (∅, ∅) cfg.

(** [sorted] on strings. *)
Fixpoint insert_sorted (s : string) (l : list string) : list string :=
  match l with
  | [] => [s]
  | x :: l' => if String.leb s x then s :: l else x :: insert_sorted s l'
  end.

Definition sorted (l : list string) : list string :=
  foldr insert_sorted [] l.

(** [sep.join(l)] *)
Definition join (sep : string) (l : list string) : string :=
  match l with
  | [] => EmptyString
  | x :: l' => foldl (fun acc y => acc ++ sep ++ y) x l'
  end.

Definition set2str (s : gset string) : string :=
  "(" ++ join ", " (sorted (elements s)) ++ ")".

Definition _validate_auth_params (params : gmap string value) : result unit :=
  if bool_decide (dom params ∖ OPTIONAL_AUTH_PARAMS ∈ AUTH_SETS) then Ok tt
  else
    Raise (NonRecoverableError (Text (
      set2str (dom params) ++
      " is not valid set of auth params. Expected to find parameters " ++
      "either as environment variables, in a JSON file (at either a " ++
      "path which is set under the environment variable " ++
      OPENSTACK_CONFIG_PATH_ENV_VAR ++ " or at the " ++
      "default location " ++ OPENSTACK_CONFIG_PATH_DEFAULT_PATH ++
      "), or as nested properties under an " ++
      "'" ++ CONFIG_PROPERTY ++ "' property. Valid auth param sets are: " ++
      join ", " (set2str <$> AUTH_SETS) ++ "."))).

End ClientConfig.
(** ** Vocabulary of the properties *)

Import Common Server Scenario.

(** A NIC targets a network when its ['net-id'] is that network. *)
Definition targets (management_network_id : value) (n : nic) : Prop :=
  exists v, n !! "net-id" = Some v /\ py_eq v management_network_id = true.

Definition is_detach_call (c : call) : bool :=
  match c with DeleteServerVolume _ _ => true | _ => false end.

(** The provider detach commands in a history. *)
Definition detach_calls (h : list call) : nat :=
  length (List.filter is_detach_call h).

(** The error of a failed wait for the in-use status: the error the wait
    raised, or the recoverable error raised when it gave up. *)
Definition wait_failure (IN_USE : string)
    (outcome : result (gmap string value * bool)) : option exn :=
  match outcome with
  | Raise e => if is_non_recoverable e then None else Some e
  | Ok (_, false) =>
      Some (RecoverableError (Text (
        "Waiting for volume status " ++ IN_USE ++
        " failed - detaching volume and retrying..")) None)
  | Ok (_, true) => None
  end.

(** Two contexts of the same node instance, apart from the runtime
    properties. *)
Definition same_node (c c' : node_ctx) : Prop :=
  node_id c' = node_id c /\
  node_properties c' = node_properties c /\
  instance_id c' = instance_id c /\
  relationships c' = relationships c /\
  deployment_id c' = deployment_id c /\
  provider_resources c' = provider_resources c /\
  resources_prefix c' = resources_prefix c /\
  retry_number c' = retry_number c.

Definition is_listing (c : call) : Prop :=
  match c with ListResources _ _ _ => True | _ => False end.

(** An operation that keeps the node and issues only calls in [P]. *)
Definition touches {A} (P : call -> Prop) (m : Op node_ctx A) : Prop :=
  forall w,
    same_node (ctx w) (ctx (snd (m w))) /\
    exists l, history (snd (m w)) = (history w ++ l)%list /\ Forall P l.

(** The world in which the body of a node operation runs, after its two
    client decorators have stored the resource id. *)
Definition clients_ready (kw : gmap string value) (w : world node_ctx)
    : world node_ctx :=
  snd (_handle_kw (base.delete "resource_id" kw) (snd (_handle_kw kw w))).


Import ServerOps ClientConfig.

(** [n] polls of a server, each followed by a sleep. *)
Definition polls (server_id : value) (sleep_interval : Z) (n : nat) : list call :=
  concat (replicate n [ServersGet server_id; Sleep sleep_interval]).

(** The error of a wait that gave up. *)
Definition timed_out_error (server_id : value) (timeout : Z) : exn :=
  RuntimeError ("Server " ++ py_str server_id ++
                " has not been deleted. waited for " ++
                pretty timeout ++ " seconds").

(** The collection a client lists for a resource type. *)
Definition listed_as (F : string) (client : client_kind) (t : string) : string :=
  match client with
  | NovaClientWithSugar => _get_nova_field_name_for_type F t
  | _ => cosmo_plural t
  end.

(** The world after further calls. *)
Definition after {C} (w : world C) (l : list call) : world C :=
  {| ctx := ctx w; history := (history w ++ l)%list;
     retry_request := retry_request w |}.

Definition is_quota_read (c : call) : Prop :=
  match c with GetQuota _ => True | _ => False end.

(** An operation that changes nothing of the context and issues only calls
    in [P]. *)
Definition reads_only {C A} (P : call -> Prop) (m : Op C A) : Prop :=
  forall w,
    ctx (snd (m w)) = ctx w /\
    retry_request (snd (m w)) = retry_request w /\
    exists l, history (snd (m w)) = (history w ++ l)%list /\ Forall P l.

(** A string of ASCII characters: on these [upper] is the [upper()] of
    the strings of the program, byte strings and unicode strings alike. *)
Definition is_ascii (s : string) : bool :=
  forallb (fun c => Nat.ltb (nat_of_ascii c) 128) (list_ascii_of_string s).

(** *** Further example worlds *)

(** A provider on which a volume gets in use at once and is attached as
    ["/dev/vdb"]. *)
Definition the_attachment : gmap string value :=
  <["id" := VStr "att-1"]> {["device" := VStr "/dev/vdb"]}.

Definition attached_cloud : cloud :=
  example_cloud nothing_listed ∅ no_port no_server wait_succeeds
                (fun _ => VDict the_attachment) (Ok tt).

(** A provider on which the volume never gets in use and for which no
    attachment record is found. *)
Definition unattached_volume_cloud : cloud :=
  example_cloud nothing_listed ∅ no_port no_server
    (fun _ status => Ok ({["status" := VStr "attaching"]}, false))
    (fun _ => VNone) (Ok tt).

(** The error raised when the wait for the in-use status gives up. *)
Definition gave_up : exn :=
  RecoverableError (Text (
    "Waiting for volume status " ++ VOLUME_STATUS_IN_USE ++
    " failed - detaching volume and retrying..")) None.

(** An external volume and the external server it is attached to. *)
Definition external_volume_to_server : rel_ctx :=
  {| source := node {[USE_EXTERNAL_RESOURCE_PROPERTY := VBool true]}
                    {[OPENSTACK_ID_PROPERTY := VStr "vol-1"]} [];
     target := node {[USE_EXTERNAL_RESOURCE_PROPERTY := VBool true]}
                    {[OPENSTACK_ID_PROPERTY := VStr "srv-1"]} [] |}.

Definition detach (os : cloud) (c : rel_ctx) :=
  detach_volume os VOLUME_STATUS_AVAILABLE 10 2 ∅ (start_of c).

(** [start] with the plugin's defaults, for a server without password. *)
Definition start_server (os : cloud) (c : node_ctx) :=
  start os is_the_ip never (fun _ => mret VNone) (fun _ _ => mret VNone)
        30 EmptyString ∅ (start_of c).

(** An external server that was adopted with id ["srv-1"]. *)
Definition external_server : node_ctx :=
  node {[USE_EXTERNAL_RESOURCE_PROPERTY := VBool true]}
       {[OPENSTACK_ID_PROPERTY := VStr "srv-1"]} [].

(** The names of the authentication parameters. *)
Definition auth_names : list string :=
  ["username"; "password"; "auth_url"; "tenant_name"; "project_id";
   "user_domain_name"; "project_name"; "project_domain_name";
   "insecure"; "ca_cert"].

(** The names that make up the sets of authentication parameters. *)
Definition required_names : list string :=
  ["username"; "password"; "auth_url"; "tenant_name"; "project_id";
   "user_domain_name"; "project_name"; "project_domain_name"].

(** The listing of the images with a name. *)
Definition images_listing (snapshot_name : string) : call :=
  ListResources GlanceClientWithSugar "images"
    {["filters" := VDict {["name" := VStr snapshot_name]}]}.

(** The backup ["nightly"] of the server ["srv-1"], and a provider that
    lists it until a delete command was issued. *)
Definition nightly_backup : gmap string value :=
  <["name" := VStr "vm-srv-1-nightly-backup"]>
    (<["image_type" := VStr "backup"]>
       (<["id" := VStr "img-1"]> {["status" := VStr "active"]})).

Definition is_delete_call (c : call) : bool :=
  match c with DeleteResource _ _ _ => true | _ => false end.

Definition image_cloud : cloud :=
  example_cloud
    (fun h client plural _ =>
       if bool_decide (client = GlanceClientWithSugar) &&
          bool_decide (plural = "images") && negb (existsb is_delete_call h)
       then [nightly_backup] else [])
    ∅ no_port
    (fun _ _ => Ok (server_object "srv-1" "ACTIVE" VNone))
    wait_succeeds (fun _ => VNone) (Ok tt).

(** A provider whose servers have the given interfaces. *)
Definition with_interfaces (os : cloud) (interfaces : list (gmap string value))
    : cloud :=
  {| list_resources := list_resources os;
     quotas := quotas os;
     delete_resource := delete_resource os;
     show_port := show_port os;
     servers_get := servers_get os;
     servers_stop := servers_stop os;
     servers_start := servers_start os;
     servers_reboot := servers_reboot os;
     servers_delete := servers_delete os;
     servers_create := servers_create os;
     interface_list := fun _ _ => Ok interfaces;
     interface_attach := interface_attach os;
     create_server_volume := create_server_volume os;
     delete_server_volume := delete_server_volume os;
     wait_until_status := wait_until_status os;
     get_attachment := get_attachment os |}.

(** The interface of port ["P"] on network ["D"]. *)
Definition interface_P : gmap string value :=
  <["port_id" := VStr "P"]> {["net_id" := VStr "D"]}.

(** The call that creates a server. *)
Definition creates_server (c : call) : Prop :=
  match c with ServersCreate _ => True | _ => False end.

(** The two entries of the server dictionary that a boot volume decides:
    the block device mapping and the availability zone. *)
Definition boot_entries (mapping : gmap string value) (zone : option value)
    (server : gmap string value) : Prop :=
  server !! "block_device_mapping" = Some (VDict mapping) /\
  server !! "availability_zone" = zone.

(** Two server dictionaries with the same two entries. *)
Definition keeps_boot_entries (server server' : gmap string value) : Prop :=
  server' !! "block_device_mapping" = server !! "block_device_mapping" /\
  server' !! "availability_zone" = server !! "availability_zone".

(** A call that creates a server creates one that satisfies [Q]. *)
Definition creates_only (Q : gmap string value -> Prop) (c : call) : Prop :=
  match c with ServersCreate server => Q server | _ => True end.

(** The results of an operation satisfy [Q]. *)
Definition returns {A} (Q : A -> Prop) (m : Op node_ctx A) : Prop :=
  forall w a, fst (m w) = Ok a -> Q a.

(** An operation that creates servers that satisfy [Q] only, and that
    has created one when it returns a result. *)
Definition creates_with {A} (Q : gmap string value -> Prop)
    (m : Op node_ctx A) : Prop :=
  forall w, exists l,
    history (snd (m w)) = (history w ++ l)%list /\
    Forall (creates_only Q) l /\
    (is_ok (fst (m w)) = true -> exists server, ServersCreate server ∈ l).

(** One bootable volume, in the availability zone ["az-1"]. *)
Definition one_boot_volume : list relationship :=
  [related VOLUME_OPENSTACK_TYPE "vol-1"
     (<[VOLUME_BOOTABLE := VBool true]> {[OPENSTACK_AZ_PROPERTY := VStr "az-1"]})].

Definition managed_one_boot : node_ctx :=
  node (<["resource_id" := VStr EmptyString]>
          (<["server" := VDict ∅]>
             (<["image" := VStr "img"]> {["flavor" := VStr "small"]})))
       ∅ one_boot_volume.
(** * Properties *)


(** ** Running operations *)

Lemma bind_run {W A B} (m : M W A) (f : A -> M W B) (w : W) :
  (m ≫= f) w = match m w with
               | (Ok a, w') => f a w'
               | (Raise e, w') => (Raise e, w')
               end.
Proof. reflexivity. Qed.

Lemma bind_ok_inv {W A B} (m : M W A) (f : A -> M W B) (w w' : W) (b : B) :
  (m ≫= f) w = (Ok b, w') ->
  exists a w1, m w = (Ok a, w1) /\ f a w1 = (Ok b, w').
Proof.
  rewrite bind_run. destruct (m w) as [[a|e] w1]; intros H.
  - exists a, w1. split; [reflexivity | exact H].
  - discriminate H.
Qed.

Lemma lift_ok_inv {W A} (r : result A) (w w' : W) (a : A) :
  lift r w = (Ok a, w') -> r = Ok a /\ w' = w.
Proof. unfold lift. intros H. injection H as -> ->. split; reflexivity. Qed.

(** ** Normalisation of NICs *)

Lemma normalize_keeps_other_keys (n : nic) (k : string) :
  k ≠ "net-id" -> _normalize n !! k = n !! k.
Proof.
  intros Hk. unfold _normalize.
  destruct (bool_decide _ && bool_decide _); [|reflexivity].
  apply lookup_delete_ne. congruence.
Qed.

Lemma normalize_port_without_net (n : nic) :
  is_Some (_normalize n !! "port-id") -> _normalize n !! "net-id" = None.
Proof.
  rewrite normalize_keeps_other_keys by discriminate.
  intros Hp. unfold _normalize.
  rewrite (bool_decide_eq_true_2 _ Hp). simpl.
  case_bool_decide as Hn.
  - apply lookup_delete_eq.
  - destruct (n !! "net-id") eqn:E; [|reflexivity].
    exfalso. apply Hn. eauto.
Qed.

Lemma normalize_unchanged (n : nic) :
  ¬ (is_Some (n !! "port-id") ∧ is_Some (n !! "net-id")) -> _normalize n = n.
Proof.
  intros H. unfold _normalize.
  case_bool_decide as Hp; [|reflexivity].
  case_bool_decide as Hn; [|reflexivity].
  exfalso. apply H. split; assumption.
Qed.


(** ** Unfolding of the operations *)

Ltac unfold_op :=
  unfold mbind, M_bind, bind, mret, M_ret, ret, lift, raise, gets, modify,
    get_ctx, modify_ctx, invoke, sleep, operation_retry, try_except,
    getattr, getitem.

(** ** The client decorators around an operation *)

Lemma handle_kw_stored (kw : gmap string value) (w : world node_ctx) :
  is_Some (runtime_properties (ctx w) !! OPENSTACK_ID_PROPERTY) ->
  _handle_kw kw w = (Ok (base.delete "resource_id" kw), w).
Proof.
  intros [id Hid]. unfold _handle_kw. unfold_op. simpl.
  rewrite (bool_decide_eq_false_2
             (runtime_properties (ctx w) !! OPENSTACK_ID_PROPERTY = None))
    by (rewrite Hid; discriminate).
  rewrite andb_false_r. destruct w; reflexivity.
Qed.

Lemma handle_kw_quiet (kw : gmap string value) (w : world node_ctx) :
  fst (_handle_kw kw w) = Ok (base.delete "resource_id" kw) /\
  same_node (ctx w) (ctx (snd (_handle_kw kw w))) /\
  history (snd (_handle_kw kw w)) = history w /\
  retry_request (snd (_handle_kw kw w)) = retry_request w.
Proof.
  unfold _handle_kw. unfold_op. simpl.
  destruct (truthy _ && bool_decide _); simpl; repeat split.
Qed.

Lemma with_client_run {A} (client : client_kind) (kw : gmap string value)
    (f : gmap string value -> Op node_ctx A) (w : world node_ctx) :
  with_client client kw f w =
    match f (base.delete "resource_id" kw) (snd (_handle_kw kw w)) with
    | (Ok a, w') => (Ok a, w')
    | (Raise e, w') => (Raise (translate client e), w')
    end.
Proof.
  unfold with_client. rewrite bind_run.
  pose proof (handle_kw_quiet kw w) as [Hr _].
  destruct (_handle_kw kw w) as [res w1]. simpl in Hr. subst res. cbn [snd].
  unfold try_except.
  destruct (f (base.delete "resource_id" kw) w1) as [[a|e] w']; reflexivity.
Qed.

Lemma is_external_same_node (c c' : node_ctx) :
  same_node c c' -> is_external_resource c' = is_external_resource c.
Proof.
  intros (_ & Hp & _). unfold is_external_resource. rewrite Hp. reflexivity.
Qed.

Lemma handle_kw_rel_stored (kw : gmap string value) (w : world rel_ctx) :
  is_Some (runtime_properties (source (ctx w)) !! OPENSTACK_ID_PROPERTY) ->
  _handle_kw_rel kw w = (Ok (base.delete "resource_id" kw), w).
Proof.
  intros [id Hid]. unfold _handle_kw_rel. unfold_op. simpl.
  rewrite (bool_decide_eq_false_2
             (runtime_properties (source (ctx w)) !! OPENSTACK_ID_PROPERTY = None))
    by (rewrite Hid; discriminate).
  rewrite andb_false_r. destruct w; reflexivity.
Qed.

Lemma with_client_rel_run {A} (client : client_kind) (kw : gmap string value)
    (f : gmap string value -> Op rel_ctx A) (w : world rel_ctx) :
  is_Some (runtime_properties (source (ctx w)) !! OPENSTACK_ID_PROPERTY) ->
  with_client_rel client kw f w =
    match f (base.delete "resource_id" kw) w with
    | (Ok a, w') => (Ok a, w')
    | (Raise e, w') => (Raise (translate client e), w')
    end.
Proof.
  intros Hid. unfold with_client_rel. rewrite bind_run.
  rewrite (handle_kw_rel_stored kw w Hid). unfold try_except.
  destruct (f (base.delete "resource_id" kw) w) as [[a|e] w']; reflexivity.
Qed.

(** The two decorators of a volume operation whose body succeeds or fails
    with a non-recoverable error. *)
Lemma volume_decorators_run {A} (kw : gmap string value)
    (body : Op rel_ctx A) (w : world rel_ctx) :
  is_Some (runtime_properties (source (ctx w)) !! OPENSTACK_ID_PROPERTY) ->
  match fst (body w) with
  | Ok _ => True
  | Raise e => is_non_recoverable e = true
  end ->
  with_client_rel NovaClientWithSugar kw (fun kw =>
    with_client_rel CinderClientWithSugar kw (fun _ => body)) w = body w.
Proof.
  intros Hid Hres. rewrite with_client_rel_run by exact Hid.
  rewrite with_client_rel_run by exact Hid.
  destruct (body w) as [[a|e] w']; [reflexivity|].
  cbn [fst] in Hres. destruct e; try discriminate Hres. reflexivity.
Qed.

(** ** stop *)

(** The three rows of the stop table, on a server that was read. *)
Lemma server_stop_rows {C} (os : cloud) (server : gmap string value)
    (task_state status id : value)
    (c : C) (h : list call) (r : option decision) :
  server !! OS_EXT_STS_TASK_STATE = Some task_state ->
  server !! "status" = Some status ->
  server !! "id" = Some id ->
  let w := {| ctx := c; history := h; retry_request := r |} in
  (eq_str task_state SERVER_TASK_STATE_POWERING_OFF = true ->
   _server_stop os server w =
     (Ok (OperationRetry "Server is stopping" (Some 30)),
      {| ctx := c; history := h;
         retry_request :=
           Some (OperationRetry "Server is stopping" (Some 30)) |})) /\
  (eq_str task_state SERVER_TASK_STATE_POWERING_OFF = false ->
   eq_str status SERVER_STATUS_SHUTOFF = true ->
   _server_stop os server w = (Ok Done, w)) /\
  (eq_str task_state SERVER_TASK_STATE_POWERING_OFF = false ->
   eq_str status SERVER_STATUS_SHUTOFF = false ->
   forall (server' : gmap string value) (status' : value),
     servers_stop os h id = Ok tt ->
     servers_get os (h ++ [ServersStop id; Sleep 10])%list id = Ok server' ->
     server' !! "status" = Some status' ->
     let h' := (h ++ [ServersStop id; Sleep 10; ServersGet id])%list in
     (eq_str status' SERVER_STATUS_SHUTOFF = true ->
      _server_stop os server w =
        (Ok Done, {| ctx := c; history := h'; retry_request := r |})) /\
     (eq_str status' SERVER_STATUS_SHUTOFF = false ->
      _server_stop os server w =
        (Ok (OperationRetry ("Server has " ++ py_str status' ++ " state.")
                            (Some 30)),
         {| ctx := c; history := h';
            retry_request :=
              Some (OperationRetry
                      ("Server has " ++ py_str status' ++ " state.")
                      (Some 30)) |}))).
Proof.
  intros Hts Hst Hid w. unfold _server_stop, servers_get_. unfold_op.
  rewrite Hts, Hst, Hid. simpl.
  split; [|split].
  - intros ->. reflexivity.
  - intros -> ->. reflexivity.
  - intros -> -> server' status' Hstop Hget Hst'. simpl.
    rewrite Hstop. simpl.
    rewrite <- !app_assoc. simpl. rewrite Hget, Hst'. simpl.
    split.
    + intros ->. reflexivity.
    + intros ->. reflexivity.
Qed.

(** C3: [stop] on a managed server, once the decorator has stored the
    resource id, reads the server and follows the stop table.  A server
    that is powering off gives a request for a retry in 30 seconds and no
    command; a server that is shut off, and not powering off, gives success
    and no command; any other server is sent one stop command, the
    operation sleeps for 10 seconds, reads the server again, and asks for a
    retry in 30 seconds unless the server is then shut off.  [stop] itself
    returns nothing: the decision is the retry that the context records. *)
Theorem stop_decision (os : cloud) (kw : gmap string value)
    (c : node_ctx) (h : list call) (r : option decision)
    (id server_id task_state status : value) (server : gmap string value) :
  let w := {| ctx := c; history := h; retry_request := r |} in
  let c0 := ctx (snd (_handle_kw kw w)) in
  let h1 := (h ++ [ServersGet id])%list in
  is_external_resource c = false ->
  runtime_properties c0 !! OPENSTACK_ID_PROPERTY = Some id ->
  servers_get os h id = Ok server ->
  server !! OS_EXT_STS_TASK_STATE = Some task_state ->
  server !! "status" = Some status ->
  server !! "id" = Some server_id ->
  (eq_str task_state SERVER_TASK_STATE_POWERING_OFF = true ->
   stop os kw w =
     (Ok tt,
      {| ctx := c0; history := h1;
         retry_request :=
           Some (OperationRetry "Server is stopping" (Some 30)) |})) /\
  (eq_str task_state SERVER_TASK_STATE_POWERING_OFF = false ->
   eq_str status SERVER_STATUS_SHUTOFF = true ->
   stop os kw w = (Ok tt, {| ctx := c0; history := h1; retry_request := r |})) /\
  (eq_str task_state SERVER_TASK_STATE_POWERING_OFF = false ->
   eq_str status SERVER_STATUS_SHUTOFF = false ->
   forall (server' : gmap string value) (status' : value),
     servers_stop os h1 server_id = Ok tt ->
     servers_get os (h1 ++ [ServersStop server_id; Sleep 10])%list server_id
       = Ok server' ->
     server' !! "status" = Some status' ->
     let h' := (h1 ++ [ServersStop server_id; Sleep 10;
                       ServersGet server_id])%list in
     (eq_str status' SERVER_STATUS_SHUTOFF = true ->
      stop os kw w =
        (Ok tt, {| ctx := c0; history := h'; retry_request := r |})) /\
     (eq_str status' SERVER_STATUS_SHUTOFF = false ->
      stop os kw w =
        (Ok tt,
         {| ctx := c0; history := h';
            retry_request :=
              Some (OperationRetry
                      ("Server has " ++ py_str status' ++ " state.")
                      (Some 30)) |}))).
Proof.
  intros w c0 h1 Hmanaged Hid Hget Hts Hst Hsid.
  pose proof (handle_kw_quiet kw w) as (_ & Hsame & Hhist & Hretry).
  pose proof (is_external_same_node _ _ Hsame) as Hext.
  cbn [ctx w] in Hext. fold c0 in Hext. rewrite Hmanaged in Hext.
  assert (Hw0 : snd (_handle_kw kw w) =
                {| ctx := c0; history := h; retry_request := r |}).
  { unfold c0. destruct (snd (_handle_kw kw w)) as [c1 h0 r0].
    cbn [history retry_request ctx w] in *. subst. reflexivity. }
  assert (Hstop : stop os kw w =
    match _server_stop os server
            {| ctx := c0; history := h1; retry_request := r |} with
    | (Ok _, w') => (Ok tt, w')
    | (Raise e, w') => (Raise (translate NovaClientWithSugar e), w')
    end).
  { unfold stop. rewrite with_client_run, Hw0.
    unfold stop_body, get_server_by_context, get_openstack_id, servers_get_.
    unfold mbind, M_bind, bind, mret, M_ret, ret, get_ctx, gets, lift, invoke,
      getitem.
    cbn [ctx history retry_request]. rewrite Hext. cbv beta iota.
    cbn [ctx history retry_request]. rewrite Hid. cbv beta iota.
    cbn [ctx history retry_request]. rewrite Hget. cbv beta iota.
    cbn [ctx history retry_request]. fold h1.
    destruct (_server_stop os server
                {| ctx := c0; history := h1; retry_request := r |})
      as [[d|e] w']; reflexivity. }
  destruct (server_stop_rows os server task_state status server_id c0 h1 r
              Hts Hst Hsid) as (Hoff & Hshut & Hother).
  split; [|split].
  - intros Hp. rewrite Hstop, (Hoff Hp). reflexivity.
  - intros Hp Hs. rewrite Hstop, (Hshut Hp Hs). reflexivity.
  - intros Hp Hs server' status' Hcmd Hget' Hst' h'.
    destruct (Hother Hp Hs server' status' Hcmd Hget' Hst') as [Hdone Hretry'].
    split; intros Hs'; rewrite Hstop.
    + rewrite (Hdone Hs'). reflexivity.
    + rewrite (Hretry' Hs'). reflexivity.
Qed.

(** ** Resolution of external resources *)

Lemma cosmo_list_run {C} os F client t kw (w : world C) :
  cosmo_list os F client t kw w =
    (list_resources os (history w) client
       (match client with
        | NovaClientWithSugar => _get_nova_field_name_for_type F t
        | _ => cosmo_plural t
        end) kw,
     {| ctx := ctx w;
        history := (history w ++
          [ListResources client
             (match client with
              | NovaClientWithSugar => _get_nova_field_name_for_type F t
              | _ => cosmo_plural t
              end) kw])%list;
        retry_request := retry_request w |}).
Proof. reflexivity. Qed.


(** ** The quota gate *)

(** C6: when the resource is to be newly created (it is not external, or it
    is external with create-if-missing and the lookup fails), validation
    with the nova client returns without listing or asking for a quota;
    with any other client it fails with the quota error exactly when the
    number of existing resources is at least the quota and the quota is not
    -1. *)
Theorem validate_resource_quota_gate
    (os : cloud) (F : string) (client : client_kind)
    (openstack_type name_field_name : string)
    (c : node_ctx) (h : list call) (r : option decision)
    (w1 : world node_ctx) :
  let w := {| ctx := c; history := h; retry_request := r |} in
  (is_external_resource c = false /\ w1 = w) \/
  (is_external_resource c = true /\ is_create_if_missing c = true /\
   exists a,
     _get_resource_by_name_or_id_from_ctx os F name_field_name openstack_type
       client w = (Raise (NonRecoverableError a), w1)) ->
  (client = NovaClientWithSugar ->
   validate_resource os F client openstack_type name_field_name w = (Ok tt, w1)) /\
  (client <> NovaClientWithSugar ->
   forall (ls : list (gmap string value)) (quota : Z) (w2 w3 : world node_ctx),
     cosmo_list os F client openstack_type ∅ w1 = (Ok ls, w2) ->
     get_quota os client openstack_type w2 = (Ok quota, w3) ->
     let amount := Z.of_nat (length ls) in
     (quota <= amount /\ quota <> -1 ->
      validate_resource os F client openstack_type name_field_name w =
        (Raise (NonRecoverableError (Text (
           openstack_type ++ " (node " ++ node_id c ++
           ") cannot be created due to quota limitations. provisioned " ++
           cosmo_plural openstack_type ++ ": " ++ pretty amount ++
           ", quota: " ++ pretty quota))), w3)) /\
     (amount < quota \/ quota = -1 ->
      validate_resource os F client openstack_type name_field_name w =
        (Ok tt, w3))).
Proof.
  intros w Hnew.
  assert (Hstage : forall k : option (gmap string value) -> Op node_ctx unit,
    ((if is_external_resource c
      then try_except
             (_get_resource_by_name_or_id_from_ctx os F name_field_name
                openstack_type client)
             (fun e =>
                if is_non_recoverable e then
                  if negb (is_create_if_missing c) then
                    resource_list ← cosmo_list os F client openstack_type ∅;
                    forM_ resource_list (fun resource =>
                      _ ← lift (get_id_from_resource client resource);
                      _ ← lift (get_name_from_resource client resource);
                      mret tt);;
                    raise e
                  else mret None
                else raise e)
      else mret None) ≫= k) w = k None w1).
  { intros k. destruct Hnew as [[Hext ->] | (Hext & Hmiss & a & Hlook)].
    - rewrite Hext. reflexivity.
    - rewrite Hext, bind_run. unfold try_except. rewrite Hlook. simpl.
      rewrite Hmiss. reflexivity. }
  split.
  - intros ->. unfold validate_resource.
    rewrite bind_run. unfold get_ctx, gets at 1. cbv beta iota.
    rewrite Hstage. reflexivity.
  - intros Hclient ls quota w2 w3 Hls Hq amount.
    assert (Hrun :
      validate_resource os F client openstack_type name_field_name w =
        (if (amount <? quota) || (quota =? INFINITE_RESOURCE_QUOTA)
         then Ok tt
         else Raise (NonRecoverableError (Text (
           openstack_type ++ " (node " ++ node_id c ++
           ") cannot be created due to quota limitations. provisioned " ++
           cosmo_plural openstack_type ++ ": " ++ pretty amount ++
           ", quota: " ++ pretty quota))), w3)).
    { unfold validate_resource.
      rewrite bind_run. unfold get_ctx, gets at 1. cbv beta iota.
      rewrite Hstage.
      destruct (decide (client = NovaClientWithSugar)) as [E|_]; [contradiction|].
      rewrite bind_run, Hls, bind_run, Hq.
      fold amount.
      destruct ((amount <? quota) || (quota =? INFINITE_RESOURCE_QUOTA));
        reflexivity. }
    rewrite Hrun. unfold INFINITE_RESOURCE_QUOTA. split.
    + intros [Hge Hne].
      destruct (Z.ltb_spec amount quota) as [?|_]; [lia|].
      destruct (Z.eqb_spec quota (-1)) as [?|_]; [lia|]. reflexivity.
    + intros [Hlt | ->].
      * apply Z.ltb_lt in Hlt. rewrite Hlt. reflexivity.
      * rewrite orb_true_r. reflexivity.
Qed.

(** ** Composition of the NIC list *)

Lemma any_targets_false (id : value) (merged : list nic) :
  any_targets id merged = Ok false -> Forall (fun n => ¬ targets id n) merged.
Proof.
  induction merged as [|n rest IH]; simpl; [constructor|].
  unfold getitem. destruct (n !! "net-id") as [v|] eqn:Hn; simpl; [|discriminate].
  destruct (py_eq v id) eqn:Hv; [discriminate|].
  intros H. constructor; [|apply IH, H].
  intros (v' & Hv' & Heq). congruence.
Qed.

Lemma any_targets_true (id : value) (merged : list nic) :
  any_targets id merged = Ok true -> Exists (targets id) merged.
Proof.
  induction merged as [|n rest IH]; simpl; [discriminate|].
  unfold getitem. destruct (n !! "net-id") as [v|] eqn:Hn; simpl; [|discriminate].
  destruct (py_eq v id) eqn:Hv.
  - intros _. left. exists v. split; assumption.
  - intros H. right. apply IH, H.
Qed.

(** The management network is prepended exactly when no merged entry
    targets it. *)
Lemma merge_nics_prepend (id : value) (sources : list (list nic))
    (merged : list nic) :
  is_none id = false ->
  _merge_nics id sources = Ok merged ->
  (merged = {["net-id" := id]} :: concat sources /\
   Forall (fun n => ¬ targets id n) (concat sources)) \/
  (merged = concat sources /\ Exists (targets id) (concat sources)).
Proof.
  intros Hid. unfold _merge_nics. rewrite Hid. simpl.
  destruct (any_targets id (concat sources)) as [[|]|e] eqn:Hany; simpl;
    intros [= <-].
  - right. split; [reflexivity|]. apply any_targets_true, Hany.
  - left. split; [reflexivity|]. apply any_targets_false, Hany.
Qed.

Lemma py_eq_str (a b : string) : py_eq (VStr a) (VStr b) = bool_decide (a = b).
Proof. reflexivity. Qed.

Lemma normalize_net_only (v : value) :
  _normalize {["net-id" := v]} = {["net-id" := v]}.
Proof.
  apply normalize_unchanged. intros [[x Hx] _].
  rewrite lookup_singleton_ne in Hx by discriminate. discriminate.
Qed.

Lemma normalize_port_on_net (net port : value) :
  _normalize (<["net-id" := net]> {["port-id" := port]}) = {["port-id" := port]}.
Proof.
  unfold _normalize.
  rewrite lookup_insert_ne by discriminate.
  rewrite lookup_singleton_eq, lookup_insert_eq.
  rewrite !bool_decide_eq_true_2 by eauto. simpl.
  rewrite delete_insert_eq.
  apply delete_id, lookup_singleton_ne. discriminate.
Qed.

Ltac step := rewrite bind_run; try unfold lift at 1; cbv beta iota.


(** ** Attach and its rollback *)

Lemma detach_calls_app (h1 h2 : list call) :
  detach_calls (h1 ++ h2) = (detach_calls h1 + detach_calls h2)%nat.
Proof. unfold detach_calls. rewrite List.filter_app, length_app. reflexivity. Qed.

Ltac count_detach :=
  unfold detach_calls; rewrite ?List.filter_app, ?length_app; simpl; lia.

(** The compensating routine issues at most one detach command, and none
    when there is no attachment record. *)
Lemma detach_volume_calls (os : cloud) (AVAILABLE : string)
    (server_id volume_id : value) (attempts timeout : Z) (w : world rel_ctx) :
  let out := _detach_volume os AVAILABLE server_id volume_id attempts timeout w in
  (detach_calls (history (snd out)) <= detach_calls (history w) + 1)%nat /\
  (forall attachment,
     get_attachment os (history w) volume_id server_id = Ok attachment ->
     truthy attachment = false ->
     out = (Ok tt, {| ctx := ctx w;
                      history := (history w ++ [GetAttachment volume_id server_id])%list;
                      retry_request := retry_request w |})).
Proof.
  unfold _detach_volume, volume_get_attachment, volume_wait_until_status.
  unfold_op. simpl. split.
  - destruct (get_attachment os (history w) volume_id server_id) as [a|e]; simpl;
      [|count_detach].
    destruct (truthy a); simpl; [|count_detach].
    destruct (as_dict a) as [d|e]; simpl; [|count_detach].
    destruct (d !! "id") as [i|]; simpl; [|count_detach].
    destruct (delete_server_volume os _ server_id i) as [[]|e]; simpl;
      [|count_detach].
    destruct (wait_until_status os _ volume_id AVAILABLE attempts timeout)
      as [[vol ok]|e]; simpl; count_detach.
  - intros attachment -> Hfalse. simpl. rewrite Hfalse. reflexivity.
Qed.

(** The body of the attach on a managed relationship, when the attach
    command succeeds and the wait for the in-use status fails with an error
    that is not non-recoverable: the compensating routine runs once; then
    the original error is raised again, unless the routine itself failed,
    in which case the error is a non-recoverable error that wraps the error
    of the routine. *)
Lemma attach_volume_body_rollback
    (os : cloud) (DEVICE_NAME IN_USE AVAILABLE : string)
    (c : rel_ctx) (h : list call) (r : option decision)
    (server_id volume_id device : value) (attempts timeout : Z)
    (original : exn) :
  let w := {| ctx := c; history := h; retry_request := r |} in
  let requested := if negb (eq_str device "auto") then device else VNone in
  let attach := CreateServerVolume server_id volume_id requested in
  let wait := WaitUntilStatus volume_id IN_USE attempts timeout in
  runtime_properties (target c) !! OPENSTACK_ID_PROPERTY = Some server_id ->
  runtime_properties (source c) !! OPENSTACK_ID_PROPERTY = Some volume_id ->
  node_properties (source c) !! DEVICE_NAME = Some device ->
  is_external_relationship_not_conditionally_created c = false ->
  create_server_volume os h server_id volume_id requested = Ok tt ->
  wait_failure IN_USE
    (wait_until_status os (h ++ [attach])%list volume_id IN_USE attempts timeout)
    = Some original ->
  let w2 := {| ctx := c; history := (h ++ [attach; wait])%list;
               retry_request := r |} in
  let cleanup := _detach_volume os AVAILABLE server_id volume_id attempts timeout w2 in
  attach_volume_body os DEVICE_NAME IN_USE AVAILABLE attempts timeout w =
    (match fst cleanup with
     | Ok _ => Raise original
     | Raise e => Raise (NonRecoverableError (Exc e))
     end, snd cleanup) /\
  (detach_calls (history (snd cleanup)) <= detach_calls h + 1)%nat.
Proof.
  intros w requested attach wait Hsid Hvid Hdev Hmanaged Hattach Hfail w2 cleanup.
  split.
  - unfold attach_volume_body.
    rewrite bind_run. unfold get_ctx, gets at 1. cbv beta iota.
    step. simpl ctx. unfold getitem at 1. rewrite Hsid. cbv beta iota.
    step. unfold getitem at 1. rewrite Hvid. cbv beta iota.
    rewrite Hmanaged.
    step. unfold getitem at 1. rewrite Hdev. cbv beta iota zeta.
    fold requested. fold attach.
    rewrite bind_run. unfold invoke at 1. simpl history. simpl ctx.
    simpl retry_request. rewrite Hattach. cbv beta iota.
    unfold try_except at 1.
    rewrite bind_run. unfold volume_wait_until_status at 1, invoke at 1.
    simpl history. simpl ctx. simpl retry_request.
    fold wait. rewrite <- app_assoc. simpl app.
    fold w2.
    unfold wait_failure in Hfail.
    destruct (wait_until_status os (h ++ [attach]) volume_id IN_USE attempts timeout)
      as [[vol [|]]|e]; cbv beta iota.
    + discriminate Hfail.
    + injection Hfail as <-.
      cbv beta iota delta [negb raise is_non_recoverable].
      rewrite bind_run. unfold _prepare_attach_volume_to_be_repeated, try_except.
      fold cleanup. destruct cleanup as [[[]|e2] w3]; reflexivity.
    + destruct (is_non_recoverable e) eqn:He; [discriminate Hfail|].
      injection Hfail as <-.
      cbv beta iota delta [negb].
      rewrite bind_run. unfold _prepare_attach_volume_to_be_repeated, try_except.
      fold cleanup. destruct cleanup as [[[]|e2] w3]; reflexivity.
  - pose proof (detach_volume_calls os AVAILABLE server_id volume_id attempts
                  timeout w2) as [Hle _].
    fold cleanup in Hle. simpl in Hle.
    rewrite detach_calls_app in Hle.
    change (detach_calls [attach; wait]) with 0%nat in Hle. lia.
Qed.

(** The rows of the compensating routine: the attachment is read; without
    an attachment record nothing else is done; with one, the detach command
    is issued and the volume is awaited. *)
Lemma detach_volume_rows (os : cloud) (AVAILABLE : string)
    (server_id volume_id : value) (attempts timeout : Z)
    (c : rel_ctx) (h : list call) (r : option decision) :
  let w := {| ctx := c; history := h; retry_request := r |} in
  let h1 := (h ++ [GetAttachment volume_id server_id])%list in
  let run := _detach_volume os AVAILABLE server_id volume_id attempts timeout w in
  (forall e,
     get_attachment os h volume_id server_id = Raise e ->
     run = (Raise e, {| ctx := c; history := h1; retry_request := r |})) /\
  (forall attachment,
     get_attachment os h volume_id server_id = Ok attachment ->
     truthy attachment = false ->
     run = (Ok tt, {| ctx := c; history := h1; retry_request := r |})) /\
  (forall a id,
     get_attachment os h volume_id server_id = Ok (VDict a) ->
     a !! "id" = Some id ->
     let detach := DeleteServerVolume server_id id in
     let settle := WaitUntilStatus volume_id AVAILABLE attempts timeout in
     (forall e,
        delete_server_volume os h1 server_id id = Raise e ->
        run = (Raise e, {| ctx := c; history := (h1 ++ [detach])%list;
                           retry_request := r |})) /\
     (delete_server_volume os h1 server_id id = Ok tt ->
      (forall e,
         wait_until_status os (h1 ++ [detach])%list volume_id AVAILABLE
           attempts timeout = Raise e ->
         run = (Raise e, {| ctx := c; history := (h1 ++ [detach; settle])%list;
                            retry_request := r |})) /\
      (forall vol ok,
         wait_until_status os (h1 ++ [detach])%list volume_id AVAILABLE
           attempts timeout = Ok (vol, ok) ->
         run = (Ok tt, {| ctx := c; history := (h1 ++ [detach; settle])%list;
                          retry_request := r |})))).
Proof.
  intros w h1 run. subst run.
  unfold _detach_volume, volume_get_attachment, volume_wait_until_status.
  unfold_op. cbn [ctx history retry_request w]. fold h1.
  split; [|split].
  - intros e ->. reflexivity.
  - intros attachment -> ->. reflexivity.
  - intros a id -> Hid.
    assert (Ht : truthy (VDict a) = true).
    { simpl. apply negb_true_iff, bool_decide_eq_false_2.
      intros ->. rewrite lookup_empty in Hid. discriminate Hid. }
    rewrite Ht. cbn [as_dict]. cbv beta iota. rewrite Hid. cbv beta iota.
    cbn [ctx history retry_request].
    split.
    + intros e ->. reflexivity.
    + intros ->. cbv beta iota. cbn [ctx history retry_request].
      split.
      * intros e ->. unfold h1. rewrite <- !app_assoc. reflexivity.
      * intros vol ok ->. unfold h1. rewrite <- !app_assoc. reflexivity.
Qed.

(** C2, as the code has it: on a managed relationship, when the attach
    command succeeds and the wait for the in-use status fails with an error
    that is not non-recoverable, the attachment is read once.  Without an
    attachment record no detach command is issued and the original error is
    raised again, as the client decorators translate it.  With an
    attachment record exactly one detach command is issued, for that
    record, and the volume is awaited; then the original error is raised
    again.  When the read of the attachment, the detach command or the wait
    after it fails, the operation fails with a non-recoverable error that
    wraps that failure, and the original error is lost. *)
Theorem attach_volume_rollback
    (os : cloud) (DEVICE_NAME IN_USE AVAILABLE : string)
    (kw : gmap string value)
    (c : rel_ctx) (h : list call) (r : option decision)
    (server_id volume_id device : value) (attempts timeout : Z)
    (original : exn) :
  let w := {| ctx := c; history := h; retry_request := r |} in
  let requested := if negb (eq_str device "auto") then device else VNone in
  let attach := CreateServerVolume server_id volume_id requested in
  let wait := WaitUntilStatus volume_id IN_USE attempts timeout in
  let h2 := (h ++ [attach; wait])%list in
  let h3 := (h2 ++ [GetAttachment volume_id server_id])%list in
  let run := attach_volume os DEVICE_NAME IN_USE AVAILABLE attempts timeout kw w in
  let raised :=
    translate NovaClientWithSugar (translate CinderClientWithSugar original) in
  runtime_properties (target c) !! OPENSTACK_ID_PROPERTY = Some server_id ->
  runtime_properties (source c) !! OPENSTACK_ID_PROPERTY = Some volume_id ->
  node_properties (source c) !! DEVICE_NAME = Some device ->
  is_external_relationship_not_conditionally_created c = false ->
  create_server_volume os h server_id volume_id requested = Ok tt ->
  wait_failure IN_USE
    (wait_until_status os (h ++ [attach])%list volume_id IN_USE attempts timeout)
    = Some original ->
  (forall e,
     get_attachment os h2 volume_id server_id = Raise e ->
     run = (Raise (NonRecoverableError (Exc e)),
            {| ctx := c; history := h3; retry_request := r |})) /\
  (forall attachment,
     get_attachment os h2 volume_id server_id = Ok attachment ->
     truthy attachment = false ->
     run = (Raise raised, {| ctx := c; history := h3; retry_request := r |})) /\
  (forall a id,
     get_attachment os h2 volume_id server_id = Ok (VDict a) ->
     a !! "id" = Some id ->
     let detach := DeleteServerVolume server_id id in
     let settle := WaitUntilStatus volume_id AVAILABLE attempts timeout in
     (forall e,
        delete_server_volume os h3 server_id id = Raise e ->
        run = (Raise (NonRecoverableError (Exc e)),
               {| ctx := c; history := (h3 ++ [detach])%list;
                  retry_request := r |})) /\
     (delete_server_volume os h3 server_id id = Ok tt ->
      (forall e,
         wait_until_status os (h3 ++ [detach])%list volume_id AVAILABLE
           attempts timeout = Raise e ->
         run = (Raise (NonRecoverableError (Exc e)),
                {| ctx := c; history := (h3 ++ [detach; settle])%list;
                   retry_request := r |})) /\
      (forall vol ok,
         wait_until_status os (h3 ++ [detach])%list volume_id AVAILABLE
           attempts timeout = Ok (vol, ok) ->
         run = (Raise raised,
                {| ctx := c; history := (h3 ++ [detach; settle])%list;
                   retry_request := r |})))).
Proof.
  intros w requested attach wait h2 h3 run raised
         Hsid Hvid Hdev Hmanaged Hattach Hfail.
  assert (Hstored : is_Some (runtime_properties (source (ctx w))
                               !! OPENSTACK_ID_PROPERTY))
    by (exists volume_id; exact Hvid).
  pose proof (attach_volume_body_rollback os DEVICE_NAME IN_USE AVAILABLE c h r
                server_id volume_id device attempts timeout original
                Hsid Hvid Hdev Hmanaged Hattach Hfail) as Hbody.
  cbv zeta in Hbody. destruct Hbody as [Hbody _].
  fold w requested attach wait h2 in Hbody.
  assert (Hrun : forall res w',
            _detach_volume os AVAILABLE server_id volume_id attempts timeout
              {| ctx := c; history := h2; retry_request := r |} = (res, w') ->
            run = (match res with
                   | Ok _ => Raise raised
                   | Raise e => Raise (NonRecoverableError (Exc e))
                   end, w')).
  { intros res w' Hclean. subst run. unfold attach_volume.
    rewrite with_client_rel_run by exact Hstored.
    rewrite with_client_rel_run by exact Hstored.
    rewrite Hbody, Hclean. cbn [fst snd]. destruct res; reflexivity. }
  destruct (detach_volume_rows os AVAILABLE server_id volume_id attempts
              timeout c h2 r) as (Hread & Hnone & Hsome).
  fold h3 in Hread, Hnone, Hsome.
  split; [|split].
  - intros e He. exact (Hrun _ _ (Hread e He)).
  - intros attachment Ha Hf. exact (Hrun _ _ (Hnone attachment Ha Hf)).
  - intros a id Ha Hid detach settle.
    destruct (Hsome a id Ha Hid) as [Hcmd Hwait].
    split.
    + intros e He. exact (Hrun _ _ (Hcmd e He)).
    + intros Hok. destruct (Hwait Hok) as [Hwf Hws]. split.
      * intros e He. exact (Hrun _ _ (Hwf e He)).
      * intros vol ok He. exact (Hrun _ _ (Hws vol ok He)).
Qed.

(** ** What an operation touches *)

Lemma same_node_refl c : same_node c c.
Proof. repeat split. Qed.

Lemma same_node_trans c1 c2 c3 :
  same_node c1 c2 -> same_node c2 c3 -> same_node c1 c3.
Proof.
  unfold same_node. intros H1 H2.
  destruct H1 as (?&?&?&?&?&?&?&?), H2 as (?&?&?&?&?&?&?&?).
  repeat split; congruence.
Qed.

Lemma same_node_set_runtime f c : same_node c (set_runtime_properties f c).
Proof. repeat split. Qed.

Lemma touches_pure {A} P (r : result A) : touches P (fun w => (r, w)).
Proof.
  intros w. split; [apply same_node_refl|].
  exists []. rewrite app_nil_r. split; [reflexivity | constructor].
Qed.

Lemma touches_bind {A B} P (m : Op node_ctx A) (f : A -> Op node_ctx B) :
  touches P m -> (forall a, touches P (f a)) -> touches P (m ≫= f).
Proof.
  intros Hm Hf w. rewrite bind_run.
  destruct (Hm w) as [Hs (l & Hl & HP)].
  destruct (m w) as [[a|e] w1]; simpl in *.
  - destruct (Hf a w1) as [Hs' (l' & Hl' & HP')].
    split; [eapply same_node_trans; eassumption|].
    exists (l ++ l')%list. rewrite Hl', Hl, app_assoc.
    split; [reflexivity | apply Forall_app; split; assumption].
  - split; [assumption|]. exists l. split; assumption.
Qed.

Lemma touches_try_except {A} P (m : Op node_ctx A) (hdl : exn -> Op node_ctx A) :
  touches P m -> (forall e, touches P (hdl e)) -> touches P (try_except m hdl).
Proof.
  intros Hm Hh w. unfold try_except.
  destruct (Hm w) as [Hs (l & Hl & HP)].
  destruct (m w) as [[a|e] w1]; simpl in *.
  - split; [assumption|]. exists l. split; assumption.
  - destruct (Hh e w1) as [Hs' (l' & Hl' & HP')].
    split; [eapply same_node_trans; eassumption|].
    exists (l ++ l')%list. rewrite Hl', Hl, app_assoc.
    split; [reflexivity | apply Forall_app; split; assumption].
Qed.

Lemma touches_invoke {A} (P : call -> Prop) (c : call)
    (answer : list call -> result A) :
  P c -> touches P (invoke c answer).
Proof.
  intros Hc w. split; [apply same_node_refl|].
  exists [c]. split; [reflexivity | repeat constructor; assumption].
Qed.

Lemma touches_set_runtime P f :
  touches P (modify_ctx (set_runtime_properties f)).
Proof.
  intros w. split; [apply same_node_set_runtime|].
  exists []. rewrite app_nil_r. split; [reflexivity | constructor].
Qed.

Lemma touches_gets {A} P (f : world node_ctx -> A) : touches P (gets f).
Proof.
  intros w. split; [apply same_node_refl|].
  exists []. rewrite app_nil_r. split; [reflexivity | constructor].
Qed.

Ltac touches_tac :=
  repeat first
    [ apply touches_bind; [|intros ?]
    | apply touches_gets
    | apply touches_try_except; [|intros ?]
    | apply touches_set_runtime
    | apply touches_invoke; exact I
    | apply touches_pure
    | match goal with
      | |- touches _ (if ?b then _ else _) => destruct b
      | |- touches _ (match ?x with _ => _ end) => destruct x
      end ].

Lemma cosmo_list_touches os F client t kw :
  touches is_listing (cosmo_list os F client t kw).
Proof. unfold cosmo_list. apply touches_invoke. exact I. Qed.

Lemma use_external_resource_touches os F client t nfn :
  touches is_listing (use_external_resource os F client t nfn).
Proof.
  unfold use_external_resource, _get_resource_by_name_or_id_from_ctx,
    get_resource_by_name_or_id, cosmo_get_if_exists, _cosmo_get,
    set_runtime_property, get_ctx, lift, raise, mret, M_ret, ret.
  touches_tac; try apply cosmo_list_touches; touches_tac.
Qed.

Lemma handle_kw_touches kw : touches (fun _ => False) (_handle_kw kw).
Proof.
  unfold _handle_kw, get_ctx, mret, M_ret, ret. touches_tac.
Qed.

(** ** Boot volumes *)

Lemma handle_kw_result kw w :
  fst (_handle_kw kw w) = Ok (base.delete "resource_id" kw).
Proof.
  unfold _handle_kw. unfold_op. simpl.
  destruct (truthy _ && bool_decide _); reflexivity.
Qed.

Lemma clients_ready_same kw w :
  same_node (ctx w) (ctx (clients_ready kw w)) /\
  history (clients_ready kw w) = history w.
Proof.
  unfold clients_ready.
  destruct (handle_kw_touches kw w) as [Hs (l & Hl & HP)].
  destruct (handle_kw_touches (base.delete "resource_id" kw)
              (snd (_handle_kw kw w))) as [Hs' (l' & Hl' & HP')].
  split; [eapply same_node_trans; eassumption|].
  rewrite Hl', Hl.
  destruct l; [|inversion HP; contradiction].
  destruct l'; [|inversion HP'; contradiction].
  rewrite !app_nil_r. reflexivity.
Qed.

Lemma translate_non_recoverable client a :
  translate client (NonRecoverableError a) = NonRecoverableError a.
Proof. reflexivity. Qed.

(** [create] is its body, run once the clients are ready, with the errors
    of the two clients translated. *)
Lemma create_run os N P F VT VB K SG SEC img ud v4 v6 args kw w :
  create os N P F VT VB K SG SEC img ud v4 v6 args kw w =
    match create_body os N P F VT VB K SG SEC img ud v4 v6 args
            (clients_ready kw w) with
    | (Ok d, w') => (Ok d, w')
    | (Raise e, w') =>
        (Raise (translate NovaClientWithSugar
                  (translate NeutronClientWithSugar e)), w')
    end.
Proof.
  unfold create, with_client, clients_ready.
  rewrite bind_run.
  pose proof (handle_kw_result kw w) as H1.
  destruct (_handle_kw kw w) as [r1 wa]. simpl in H1. subst r1. cbn [snd].
  unfold try_except at 1. rewrite bind_run.
  pose proof (handle_kw_result (base.delete "resource_id" kw) wa) as H2.
  destruct (_handle_kw (base.delete "resource_id" kw) wa) as [r2 wb].
  simpl in H2. subst r2. cbn [snd].
  unfold try_except.
  destruct (create_body os N P F VT VB K SG SEC img ud v4 v6 args wb)
    as [[d|e] w']; reflexivity.
Qed.

Lemma boot_volume_relationships_many VB type_name c :
  (1 < length (List.filter (is_boot_volume VB type_name) (relationships c)))%nat ->
  _get_boot_volume_relationships VB type_name c =
    Raise (NonRecoverableError (Text "2 boot volumes not supported")).
Proof.
  unfold _get_boot_volume_relationships.
  destruct (List.filter _ _) as [|a [|b l]]; simpl; intros H;
    [lia | lia | reflexivity].
Qed.

(** What [_handle_boot_volume] does with one bootable volume: it maps the
    device ['vda'] to the volume id in the block device mapping and adopts
    the availability zone of the volume when the server names none. *)
Lemma handle_boot_volume_one VT VB
    (server : gmap string value) (c : node_ctx)
    (volume : relationship) (bdm : gmap string value) (id : value) :
  List.filter (is_boot_volume VB VT) (relationships c) = [volume] ->
  target_runtime_properties volume !! OPENSTACK_ID_PROPERTY = Some id ->
  as_dict (default (VDict ∅) (server !! "block_device_mapping")) = Ok bdm ->
  truthy_get server "availability_zone" = true \/
  is_Some (target_runtime_properties volume !! OPENSTACK_AZ_PROPERTY) ->
  exists server',
    _handle_boot_volume VT VB server c = Ok server' /\
    server' !! "block_device_mapping" =
      Some (VDict (<["vda" := VStr (py_str id ++ ":::0")]> bdm)) /\
    server' !! "availability_zone" =
      if truthy_get server "availability_zone"
      then server !! "availability_zone"
      else target_runtime_properties volume !! OPENSTACK_AZ_PROPERTY.
Proof.
  intros Hone Hid Hbdm Haz.
  unfold _handle_boot_volume, _get_boot_volume_relationships.
  rewrite Hone.
  unfold OPENSTACK_ID_PROPERTY, OPENSTACK_AZ_PROPERTY in *.
  simpl. unfold getitem. rewrite Hid. simpl. rewrite Hbdm. simpl.
  assert (Htg : truthy_get
            (<["block_device_mapping" :=
                 VDict (<["vda" := VStr (py_str id ++ ":::0")]> bdm)]> server)
            "availability_zone" = truthy_get server "availability_zone").
  { unfold truthy_get. rewrite lookup_insert_ne by discriminate. reflexivity. }
  rewrite Htg.
  destruct (truthy_get server "availability_zone") eqn:Htruthy; simpl.
  + eexists. split; [reflexivity|]. split.
    * apply lookup_insert_eq.
    * rewrite lookup_insert_ne by discriminate. reflexivity.
  + destruct Haz as [Haz | [az Haz]]; [discriminate|].
    rewrite Haz. simpl.
    eexists. split; [reflexivity|]. split.
    * rewrite lookup_insert_ne by discriminate. apply lookup_insert_eq.
    * apply lookup_insert_eq.
Qed.

(** *** What the creation sends *)

Lemma returns_pure {A} (Q : A -> Prop) (r : result A) :
  (forall a, r = Ok a -> Q a) -> returns Q (fun w => (r, w)).
Proof. intros H w a Ha. apply H. exact Ha. Qed.

Lemma returns_bind {A B} (Q : B -> Prop)
    (m : Op node_ctx A) (f : A -> Op node_ctx B) :
  (forall a, returns Q (f a)) -> returns Q (m ≫= f).
Proof.
  intros Hf w b. rewrite bind_run.
  destruct (m w) as [[a|e] w1]; [apply Hf | discriminate].
Qed.

Lemma returns_bind_post {A B} (Q1 : A -> Prop) (Q : B -> Prop)
    (m : Op node_ctx A) (f : A -> Op node_ctx B) :
  returns Q1 m -> (forall a, Q1 a -> returns Q (f a)) -> returns Q (m ≫= f).
Proof.
  intros Hm Hf w b. rewrite bind_run. specialize (Hm w).
  destruct (m w) as [[a|e] w1]; [|discriminate].
  apply Hf. apply Hm. reflexivity.
Qed.

Lemma returns_true {A} (m : Op node_ctx A) : returns (fun _ => True) m.
Proof. intros w a _. exact I. Qed.

Lemma creates_with_bind {A B} Q (R : A -> Prop)
    (m : Op node_ctx A) (f : A -> Op node_ctx B) :
  touches (creates_only Q) m -> returns R m ->
  (forall a, R a -> creates_with Q (f a)) ->
  creates_with Q (m ≫= f).
Proof.
  intros Hm HR Hf w. rewrite bind_run.
  destruct (Hm w) as [_ (l & Hl & HP)]. specialize (HR w).
  destruct (m w) as [[a|e] w1]; simpl in *.
  - destruct (Hf a (HR a eq_refl) w1) as (l' & Hl' & HP' & Hlive).
    exists (l ++ l')%list. rewrite Hl', Hl, app_assoc.
    split; [reflexivity|]. split; [apply Forall_app; split; assumption|].
    intros Hok. destruct (Hlive Hok) as [server Hin].
    exists server. apply elem_of_app. right. exact Hin.
  - exists l. split; [exact Hl|]. split; [exact HP | discriminate].
Qed.

Lemma touches_mapM {A B} P (f : A -> Op node_ctx B) (l : list A) :
  (forall a, touches P (f a)) -> touches P (mapM f l).
Proof.
  intros Hf. induction l as [|a l IH]; cbn [mapM].
  - apply touches_pure.
  - apply touches_bind; [apply Hf|]. intros b.
    apply touches_bind; [exact IH|]. intros k. apply touches_pure.
Qed.

Section BootEntries.
Variable mapping : gmap string value.
Variable zone : option value.

Lemma boot_entries_insert (k : string) (v : value) (server : gmap string value) :
  k <> "block_device_mapping" -> k <> "availability_zone" ->
  boot_entries mapping zone server ->
  boot_entries mapping zone (<[k := v]> server).
Proof.
  intros H1 H2 [Hm Hz]. split.
  - rewrite lookup_insert_ne by exact H1. exact Hm.
  - rewrite lookup_insert_ne by exact H2. exact Hz.
Qed.

Lemma boot_entries_delete (k : string) (server : gmap string value) :
  k <> "block_device_mapping" -> k <> "availability_zone" ->
  boot_entries mapping zone server ->
  boot_entries mapping zone (base.delete k server).
Proof.
  intros H1 H2 [Hm Hz]. split.
  - rewrite lookup_delete_ne by exact H1. exact Hm.
  - rewrite lookup_delete_ne by exact H2. exact Hz.
Qed.

Lemma boot_entries_keeps (server server' : gmap string value) :
  keeps_boot_entries server server' ->
  boot_entries mapping zone server -> boot_entries mapping zone server'.
Proof. intros [H1 H2] [Hm Hz]. split; congruence. Qed.
End BootEntries.

Ltac boot_entries_tac :=
  repeat first
    [ assumption
    | apply boot_entries_insert; [discriminate | discriminate |]
    | apply boot_entries_delete; [discriminate | discriminate |] ].

Ltac returns_tac :=
  repeat first
    [ apply returns_bind; intros ?
    | apply returns_pure; intros ? ?
    | match goal with
      | |- returns _ (if ?b then _ else _) => destruct b
      | |- returns _ (match ?x with _ => _ end) => destruct x
      | |- returns _ (let '(_, _) := ?x in _) => destruct x
      end ].

Ltac pure_tac :=
  repeat first
    [ apply touches_bind; [|intros ?]
    | apply touches_gets
    | apply touches_try_except; [|intros ?]
    | apply touches_set_runtime
    | apply touches_mapM; intros ?
    | apply touches_invoke; exact I
    | apply touches_pure
    | match goal with
      | |- touches _ (if ?b then _ else _) => destruct b
      | |- touches _ (match ?x with _ => _ end) => destruct x
      | |- touches _ (let '(_, _) := ?x in _) => destruct x
      end ].

Lemma transform_resource_name_boot mapping zone c server name server' :
  boot_entries mapping zone server ->
  transform_resource_name c (VDict server) = Ok (name, server') ->
  boot_entries mapping zone server'.
Proof.
  intros Hb. unfold transform_resource_name. simpl.
  destruct (negb (truthy (resources_prefix c))).
  - unfold getitem. destruct (server !! "name"); simpl; [|discriminate].
    intros [= _ <-]. exact Hb.
  - unfold getitem. destruct (server !! "name") as [n|]; simpl; [|discriminate].
    destruct (as_str (resources_prefix c)) as [pfx|]; simpl; [|discriminate].
    destruct (as_str n) as [n'|]; simpl; [|discriminate].
    intros [= _ <-]. boot_entries_tac.
Qed.

Lemma handle_image_or_flavor_touches os F Q server prop_name :
  touches (creates_only Q) (_handle_image_or_flavor os F server prop_name).
Proof.
  unfold _handle_image_or_flavor, nova_find, cosmo_get_if_exists, _cosmo_get,
    cosmo_list, get_ctx, lift, raise, mret, M_ret, ret.
  pure_tac.
Qed.

Lemma handle_image_or_flavor_boot os F mapping zone server prop_name :
  prop_name = "image" \/ prop_name = "flavor" ->
  boot_entries mapping zone server ->
  returns (boot_entries mapping zone)
    (_handle_image_or_flavor os F server prop_name).
Proof.
  intros Hp Hb.
  unfold _handle_image_or_flavor, nova_find, cosmo_get_if_exists, _cosmo_get,
    cosmo_list, get_ctx, lift, raise, mret, M_ret, ret.
  destruct Hp as [-> | ->]; returns_tac;
    try discriminate;
    match goal with H : Ok _ = Ok _ |- _ => injection H as <- end;
    boot_entries_tac.
Qed.

Lemma handle_security_groups_boot SG mapping zone c server server' :
  boot_entries mapping zone server ->
  handle_security_groups SG server c = Ok server' ->
  boot_entries mapping zone server'.
Proof.
  intros Hb. unfold handle_security_groups. cbv zeta.
  destruct (truthy (provider_resource c "agents_security_group")).
  - destruct (as_list _) as [sgs|]; simpl; [|discriminate].
    destruct (as_dict _) as [asg|]; simpl; [|discriminate].
    destruct (getitem asg "name") as [n|]; simpl; [|discriminate].
    intros [= <-]. boot_entries_tac.
  - destruct (negb _).
    + destruct (get_openstack_names_of_connected_nodes_by_openstack_type c SG)
        as [names|]; simpl; [|discriminate].
      intros [= <-]. boot_entries_tac.
    + intros [= <-]. exact Hb.
Qed.

Lemma handle_keypair_touches os F K Q server :
  touches (creates_only Q) (handle_keypair os F K server).
Proof.
  unfold handle_keypair, _get_keypair_name_by_id, cosmo_get_named, cosmo_get,
    _cosmo_get, cosmo_list, get_ctx, lift, raise, mret, M_ret, ret.
  pure_tac.
Qed.

Lemma handle_keypair_boot os F K mapping zone server :
  boot_entries mapping zone server ->
  returns (boot_entries mapping zone) (handle_keypair os F K server).
Proof.
  intros Hb.
  unfold handle_keypair, _get_keypair_name_by_id, cosmo_get_named, cosmo_get,
    _cosmo_get, cosmo_list, get_ctx, lift, raise, mret, M_ret, ret.
  returns_tac; try discriminate;
    match goal with H : Ok _ = Ok _ |- _ => injection H as <- end;
    boot_entries_tac.
Qed.

Lemma prepare_server_nics_touches os N P F Q server :
  touches (creates_only Q) (_prepare_server_nics os N P F server).
Proof.
  unfold _prepare_server_nics, _get_management_network_id_and_name,
    get_port_networks, get_network, cosmo_get_named, cosmo_get,
    _cosmo_get, cosmo_list, get_ctx, lift, raise, mret, M_ret, ret.
  pure_tac.
Qed.

Lemma prepare_server_nics_boot os N P F mapping zone server :
  boot_entries mapping zone server ->
  returns (boot_entries mapping zone) (_prepare_server_nics os N P F server).
Proof.
  intros Hb.
  unfold _prepare_server_nics, lift, raise, mret, M_ret, ret.
  do 3 (apply returns_bind; intros ?).
  apply returns_bind; intros [management_network_id management_network_name].
  do 5 (apply returns_bind; intros ?). cbv zeta.
  apply (returns_bind_post (boot_entries mapping zone)).
  - returns_tac; try discriminate;
      match goal with H : Ok _ = Ok _ |- _ => injection H as <- end;
      boot_entries_tac.
  - intros server' Hb'.
    returns_tac; try discriminate;
      match goal with H : Ok _ = Ok _ |- _ => injection H as <- end;
      boot_entries_tac.
Qed.

Lemma touches_retry {A} P (message : string) (retry_after : option Z)
    (k : decision -> Op node_ctx A) :
  (forall d, touches P (k d)) ->
  touches P (operation_retry message retry_after ≫= k).
Proof.
  intros Hk w. rewrite bind_run. unfold operation_retry. cbv beta iota.
  destruct (Hk (OperationRetry message retry_after)
              {| ctx := ctx w; history := history w;
                 retry_request := Some (OperationRetry message retry_after) |})
    as [Hs Hl].
  split; [exact Hs | exact Hl].
Qed.

(** The call that creates the server, and what follows it. *)
Lemma create_call_creates {A B} (Q : gmap string value -> Prop)
    (server : gmap string value)
    (answer : list call -> result (gmap string value))
    (hdl : exn -> Op node_ctx (gmap string value + A))
    (k : gmap string value + A -> Op node_ctx B) :
  Q server ->
  (forall e, touches (creates_only Q) (hdl e)) ->
  (forall a, touches (creates_only Q) (k a)) ->
  creates_with Q
    (created ← try_except
       (s ← invoke (ServersCreate server) answer; mret (inl s)) hdl;
     k created).
Proof.
  intros HQ Hh Hk w.
  set (w' := {| ctx := ctx w; history := (history w ++ [ServersCreate server])%list;
                retry_request := retry_request w |}).
  assert (Hrun :
    (created ← try_except
       (s ← invoke (ServersCreate server) answer; mret (inl s)) hdl;
     k created) w =
    match answer (history w) with
    | Ok s => k (inl s) w'
    | Raise e => (hdl e ≫= k) w'
    end).
  { rewrite bind_run. unfold try_except. rewrite bind_run. unfold invoke.
    cbv beta iota. fold w'.
    destruct (answer (history w)) as [s|e]; cbv beta iota.
    - reflexivity.
    - rewrite bind_run. reflexivity. }
  rewrite Hrun.
  assert (Hrest : forall m : Op node_ctx B,
            touches (creates_only Q) m ->
            exists l,
              history (snd (m w')) = (history w ++ l)%list /\
              Forall (creates_only Q) l /\
              (is_ok (fst (m w')) = true -> exists server, ServersCreate server ∈ l)).
  { intros m Hm. destruct (Hm w') as [_ (l & Hl & HP)].
    exists (ServersCreate server :: l). split; [|split].
    - rewrite Hl. unfold w'. cbn [history]. rewrite <- app_assoc. reflexivity.
    - constructor; [exact HQ | exact HP].
    - intros _. exists server. left. }
  destruct (answer (history w)) as [s|e].
  - apply Hrest, Hk.
  - apply Hrest. apply touches_bind; [apply Hh | apply Hk].
Qed.

(** What [_handle_boot_volume] returns for one bootable volume. *)
Lemma handle_boot_volume_result VT VB
    (server : gmap string value) (c : node_ctx)
    (volume : relationship) (bdm : gmap string value) (id : value)
    (server' : gmap string value) :
  List.filter (is_boot_volume VB VT) (relationships c) = [volume] ->
  target_runtime_properties volume !! OPENSTACK_ID_PROPERTY = Some id ->
  as_dict (default (VDict ∅) (server !! "block_device_mapping")) = Ok bdm ->
  _handle_boot_volume VT VB server c = Ok server' ->
  boot_entries (<["vda" := VStr (py_str id ++ ":::0")]> bdm)
    (if truthy_get server "availability_zone"
     then server !! "availability_zone"
     else target_runtime_properties volume !! OPENSTACK_AZ_PROPERTY)
    server'.
Proof.
  intros Hone Hid Hbdm.
  unfold _handle_boot_volume, _get_boot_volume_relationships.
  rewrite Hone.
  unfold OPENSTACK_ID_PROPERTY, OPENSTACK_AZ_PROPERTY in *.
  simpl. unfold getitem. rewrite Hid. simpl. rewrite Hbdm. simpl.
  assert (Htg : truthy_get
            (<["block_device_mapping" :=
                 VDict (<["vda" := VStr (py_str id ++ ":::0")]> bdm)]> server)
            "availability_zone" = truthy_get server "availability_zone").
  { unfold truthy_get. rewrite lookup_insert_ne by discriminate. reflexivity. }
  rewrite Htg.
  destruct (truthy_get server "availability_zone") eqn:Htruthy; simpl.
  - intros [= <-]. split.
    + apply lookup_insert_eq.
    + rewrite lookup_insert_ne by discriminate. reflexivity.
  - destruct (target_runtime_properties volume !! "availability_zone")
      as [az|]; simpl; [|discriminate].
    intros [= <-]. split.
    + rewrite lookup_insert_ne by discriminate. apply lookup_insert_eq.
    + apply lookup_insert_eq.
Qed.

(** The branch of [create] that creates the server, with one bootable
    volume. *)
Lemma create_managed_boot
    (os : cloud) (N P F VT VB K SG SEC : string)
    (img : gmap string value -> string -> node_ctx -> result (gmap string value))
    (ud : gmap string value -> node_ctx -> result (gmap string value))
    (args : gmap string value) (w : world node_ctx)
    (volume : relationship) (id : value)
    (properties_server bdm : gmap string value) :
  (forall server k c server',
     img server k c = Ok server' -> keeps_boot_entries server server') ->
  (forall server c server',
     ud server c = Ok server' -> keeps_boot_entries server server') ->
  List.filter (is_boot_volume VB VT) (relationships (ctx w)) = [volume] ->
  target_runtime_properties volume !! OPENSTACK_ID_PROPERTY = Some id ->
  node_properties (ctx w) !! "server" = Some (VDict properties_server) ->
  let declared := args ∪ properties_server in
  as_dict (default (VDict ∅) (declared !! "block_device_mapping")) = Ok bdm ->
  let zone :=
    if truthy_get declared "availability_zone"
    then declared !! "availability_zone"
    else target_runtime_properties volume !! OPENSTACK_AZ_PROPERTY in
  let Q := boot_entries (<["vda" := VStr (py_str id ++ ":::0")]> bdm) zone in
  let out := create_managed os N P F VT VB K SG SEC img ud args w in
  exists l,
    history (snd out) = (history w ++ l)%list /\
    Forall (creates_only Q) l /\
    (is_ok (fst out) = true -> exists server, ServersCreate server ∈ l).
Proof.
  intros Himg Hud Hone Hid Hps declared Hbdm zone Q out. subst out.
  set (G := fun out : result decision * world node_ctx =>
    exists l,
      history (snd out) = (history w ++ l)%list /\
      Forall (creates_only Q) l /\
      (is_ok (fst out) = true -> exists server, ServersCreate server ∈ l)).
  change (G (create_managed os N P F VT VB K SG SEC img ud args w)).
  assert (Hnothing : forall (e : exn), G (Raise e, w)).
  { intros e. exists []. cbn [fst snd is_ok]. rewrite app_nil_r.
    split; [reflexivity|]. split; [constructor | discriminate]. }
  unfold create_managed.
  rewrite bind_run. unfold get_ctx, gets at 1. cbv beta iota.
  set (c := ctx w) in *.
  step. destruct (get_resource_id c SERVER_OPENSTACK_TYPE) as [name|e];
    cbv beta iota; [|apply Hnothing].
  step. unfold getitem at 1. rewrite Hps. cbv beta iota.
  step. simpl as_dict. cbv beta iota zeta.
  step.
  set (server0 := args ∪ (properties_server ∪ {["name" := name]})).
  assert (Hlook : forall k, k <> "name" -> server0 !! k = declared !! k).
  { intros k Hk. unfold server0, declared.
    rewrite !lookup_union, lookup_singleton_ne by congruence.
    destruct (args !! k), (properties_server !! k); reflexivity. }
  assert (Hb0 : forall server1,
            _handle_boot_volume VT VB server0 c = Ok server1 -> Q server1).
  { intros server1 H1.
    pose proof (handle_boot_volume_result VT VB server0 c volume bdm id server1
                  Hone Hid) as Hr.
    rewrite (Hlook "block_device_mapping") in Hr by discriminate.
    specialize (Hr Hbdm H1).
    unfold truthy_get in Hr.
    rewrite (Hlook "availability_zone") in Hr by discriminate.
    exact Hr. }
  destruct (_handle_boot_volume VT VB server0 c) as [server1|e];
    cbv beta iota; [|apply Hnothing].
  specialize (Hb0 server1 eq_refl). clearbody c. clear Hnothing.
  lazymatch goal with
  | |- G (?m w) => cut (creates_with Q m); [intros Hcw; exact (Hcw w)|]
  end.
  clear G w Hone Hps.
  (* the image of a relationship *)
  apply (creates_with_bind Q Q); [apply touches_pure| |].
  { apply returns_pure. intros s Hs.
    exact (boot_entries_keeps _ _ _ _ (Himg _ _ _ _ Hs) Hb0). }
  intros server2 Hb2. cbv zeta.
  set (server3 := if bool_decide (server2 !! "meta" = None)
                  then <["meta" := VDict ∅]> server2 else server2).
  assert (Hb3 : Q server3).
  { unfold server3. destruct (bool_decide _); [|exact Hb2].
    apply boot_entries_insert; [discriminate | discriminate | exact Hb2]. }
  clearbody server3.
  (* the name of the server *)
  apply (creates_with_bind Q (fun p => Q (snd p))); [apply touches_pure| |].
  { apply returns_pure. intros [n s] Hs.
    exact (transform_resource_name_boot _ _ _ _ _ _ Hb3 Hs). }
  intros [n server4] Hb4. cbn [snd] in Hb4.
  (* image and flavor *)
  apply (creates_with_bind Q Q).
  { destruct (_ && _); [apply touches_pure|].
    apply handle_image_or_flavor_touches. }
  { destruct (_ && _).
    - apply returns_pure. intros s [= <-].
      apply boot_entries_insert; [discriminate | discriminate | exact Hb4].
    - apply handle_image_or_flavor_boot; [left; reflexivity | exact Hb4]. }
  intros server5 Hb5.
  apply (creates_with_bind Q Q);
    [apply handle_image_or_flavor_touches
    |apply handle_image_or_flavor_boot; [right; reflexivity | exact Hb5]|].
  intros server6 Hb6.
  (* security groups and key pair *)
  apply (creates_with_bind Q Q); [apply touches_pure| |].
  { apply returns_pure. intros s Hs.
    exact (handle_security_groups_boot _ _ _ _ _ _ Hb6 Hs). }
  intros server7 Hb7.
  apply (creates_with_bind Q Q);
    [apply handle_keypair_touches | apply handle_keypair_boot; exact Hb7|].
  intros server8 Hb8.
  apply (creates_with_bind Q (fun _ => True));
    [apply touches_pure | apply returns_true|].
  intros _ _.
  (* the NICs *)
  apply (creates_with_bind Q Q);
    [apply prepare_server_nics_touches
    |apply prepare_server_nics_boot; exact Hb8|].
  intros server9 Hb9.
  (* the server group *)
  apply (creates_with_bind Q (fun _ => True));
    [apply touches_pure | apply returns_true|].
  intros server_group_id _.
  apply (creates_with_bind Q Q).
  { unfold lift, mret, M_ret, ret. pure_tac. }
  { unfold lift, mret, M_ret, ret.
    returns_tac; try discriminate;
      match goal with H : Ok _ = Ok _ |- _ => injection H as <- end;
      boot_entries_tac. }
  intros server10 Hb10.
  (* the user data *)
  apply (creates_with_bind Q Q); [apply touches_pure| |].
  { apply returns_pure. intros s Hs.
    exact (boot_entries_keeps _ _ _ _ (Hud _ _ _ Hs) Hb10). }
  intros server11 Hb11.
  apply (creates_with_bind Q (fun _ => True)); [|apply returns_true|].
  { unfold assign_payload_as_runtime_properties, get_ctx, lift. pure_tac. }
  intros _ _.
  (* the call *)
  apply create_call_creates; [exact Hb11| |].
  - intros e. unfold raise, mret, M_ret, ret.
    repeat first
      [ apply touches_pure
      | apply touches_retry; intros ?
      | match goal with
        | |- touches _ (if ?b then _ else _) => destruct b
        | |- touches _ (match ?x with _ => _ end) => destruct x
        end ].
  - intros [s|d]; [|apply touches_pure].
    unfold set_runtime_property, lift, mret, M_ret, ret. pure_tac.
Qed.

Lemma listing_creates_only Q (c : call) : is_listing c -> creates_only Q c.
Proof. destruct c; intros H; try contradiction; exact I. Qed.


(** ** The scenarios *)


(** [stop] of the managed server that is running and still running after
    the stop command and the settle delay. *)
Lemma stop_decision_witness :
  stop (cloud_with_server "ACTIVE") ∅ (start_of (managed_server 0)) =
    (Ok tt,
     {| ctx := managed_server 0;
        history := [ServersGet (VStr "srv-1"); ServersStop (VStr "srv-1");
                    Sleep 10; ServersGet (VStr "srv-1")];
        retry_request :=
          Some (OperationRetry "Server has ACTIVE state." (Some 30)) |}).
Proof.
  pose proof (stop_decision (cloud_with_server "ACTIVE") ∅ (managed_server 0)
                [] None (VStr "srv-1") (VStr "srv-1") VNone (VStr "ACTIVE")
                (server_object "srv-1" "ACTIVE" VNone)) as H.
  cbv zeta in H.
  specialize (H ltac:(vm_compute; reflexivity) ltac:(vm_compute; reflexivity)
                ltac:(vm_compute; reflexivity) ltac:(vm_compute; reflexivity)
                ltac:(vm_compute; reflexivity) ltac:(vm_compute; reflexivity)).
  destruct H as (_ & _ & H).
  specialize (H ltac:(vm_compute; reflexivity) ltac:(vm_compute; reflexivity)
                (server_object "srv-1" "ACTIVE" VNone) (VStr "ACTIVE")
                ltac:(vm_compute; reflexivity) ltac:(vm_compute; reflexivity)
                ltac:(vm_compute; reflexivity)).
  destruct H as [_ H]. unfold start_of.
  rewrite (H ltac:(vm_compute; reflexivity)). vm_compute. reflexivity.
Defined.


(** The quota gate with five networks and a quota of five. *)
Lemma validate_resource_quota_gate_witness :
  exists msg,
    fst (validate_network (network_cloud 5 5) (start_of managed_network)) =
      Raise (NonRecoverableError (Text msg)).
Proof.
  destruct (validate_resource_quota_gate (network_cloud 5 5)
              FLOATINGIP_OPENSTACK_TYPE NeutronClientWithSugar "network" "name"
              managed_network [] None (start_of managed_network)
              (or_introl (conj eq_refl eq_refl))) as [_ H].
  assert (Hclient : NeutronClientWithSugar <> NovaClientWithSugar)
    by discriminate.
  destruct (H Hclient
              (replicate 5 ({["id" := VStr "n"]} : gmap string value)) 5
              {| ctx := managed_network;
                 history := [ListResources NeutronClientWithSugar "networks" ∅];
                 retry_request := None |}
              {| ctx := managed_network;
                 history := [ListResources NeutronClientWithSugar "networks" ∅;
                             GetQuota NeutronClientWithSugar];
                 retry_request := None |})
    as [Hfail _]; try (vm_compute; reflexivity).
  eexists. unfold validate_network, start_of.
  rewrite Hfail by (simpl; lia). reflexivity.
Defined.

(** The quota gate on the three cases of the specification. *)
Example quota_five_with_five_existing :
  is_ok (fst (validate_network (network_cloud 5 5) (start_of managed_network)))
    = false.
Proof. vm_compute. reflexivity. Qed.

Example quota_five_with_four_existing :
  fst (validate_network (network_cloud 4 5) (start_of managed_network)) = Ok tt.
Proof. vm_compute. reflexivity. Qed.

Example quota_unlimited :
  fst (validate_network (network_cloud 7 (-1)) (start_of managed_network)) = Ok tt.
Proof. vm_compute. reflexivity. Qed.



(** C5 (the code departs from it): with two network relationships to the
    network ["D"] and a port on ["D"], one network entry for ["D"] stays in
    the composed list next to the port entry. *)
Theorem duplicate_network_relationship_survives :
  composed_nics
    (compose [related NETWORK_OPENSTACK_TYPE "D" ∅;
              related NETWORK_OPENSTACK_TYPE "D" ∅;
              related PORT_OPENSTACK_TYPE "P" ∅]) =
  Some (VList [net "E"; net "A"; net "D"; VDict {["port-id" := VStr "P"]}]).
Proof. vm_compute. reflexivity. Qed.

(** The same loop drops a network whose id merely occurs in the id of the
    port's network, and then keeps the next one. *)
Example substring_network_relationship :
  remove_port_network (<["net-id" := VStr "net-10"]> {["port-id" := VStr "P"]})
    [VStr "net-1"; VStr "net-10"] = Ok [VStr "net-10"].
Proof. vm_compute. reflexivity. Qed.

(** C1 (the code departs from it): a server declared external with
    create-if-missing and absent from the provider is created and flagged;
    the delete operation that follows issues no call to the provider, and
    only clears the runtime properties, whereas the common delete path
    issues the delete call in the same world. *)
Theorem delete_keeps_conditionally_created_server :
  let created :=
    create_server empty_cloud ∅ ∅ (start_of conditional_server) in
  let deleted := delete empty_cloud ∅ (snd created) in
  let common :=
    delete_resource_and_runtime_properties empty_cloud FLOATINGIP_OPENSTACK_TYPE
      NovaClientWithSugar RUNTIME_PROPERTIES_KEYS (snd created) in
  fst created = Ok Done /\
  last (history (snd created)) =
    Some (ServersCreate
            (<["name" := VStr "web"]>
               (<["image" := VStr "img"]>
                  (<["flavor" := VStr "small"]>
                     (<["meta" := VDict ∅]>
                        (<["nics" := VList []]>
                           (<["security_groups" := VList []]>
                              {["key_name" := VNone]}))))))) /\
  runtime_properties (ctx (snd created)) !! OPENSTACK_ID_PROPERTY
    = Some (VStr "srv-1") /\
  runtime_properties (ctx (snd created)) !! CONDITIONALLY_CREATED
    = Some (VBool true) /\
  fst deleted = Ok tt /\
  history (snd deleted) = history (snd created) /\
  runtime_properties (ctx (snd deleted)) !! OPENSTACK_ID_PROPERTY = None /\
  history (snd common) =
    (history (snd created) ++
     [DeleteResource NovaClientWithSugar "servers" (VStr "srv-1")])%list.
Proof. vm_compute. repeat split. Qed.

(** C8 (the code departs from it): a server found in a status outside the
    table makes [reboot] fail with an attribute error, for the server
    object has no attribute [state]. *)
Theorem reboot_other_status_is_attribute_error :
  reboot (cloud_with_server "SHUTOFF") "soft" ∅ (start_of (managed_server 0)) =
    (Raise (AttributeError "state"),
     {| ctx := managed_server 0;
        history := [ServersGet (VStr "srv-1");
                    ServersReboot (VStr "srv-1") "SOFT";
                    ServersGet (VStr "srv-1")];
        retry_request := None |}).
Proof. vm_compute. reflexivity. Qed.

(** C2: an attach whose volume never gets in use.  Without an attachment
    record the original error comes back and no detach command was issued;
    with a detach command that fails, the error is a non-recoverable error
    that wraps the failure of the detach, not the original error. *)
Lemma attach_rollback_no_detach_and_lost_error :
  (attach unattached_volume_cloud =
     (Raise gave_up,
      {| ctx := volume_to_server;
         history :=
           [CreateServerVolume (VStr "srv-1") (VStr "vol-1") VNone;
            WaitUntilStatus (VStr "vol-1") VOLUME_STATUS_IN_USE 10 2;
            GetAttachment (VStr "vol-1") (VStr "srv-1")];
         retry_request := None |}) /\
   detach_calls (history (snd (attach unattached_volume_cloud))) = 0%nat) /\
  (fst (attach (slow_volume_cloud (Raise detach_refused))) =
     Raise (NonRecoverableError (Exc detach_refused)) /\
   fst (attach (slow_volume_cloud (Raise detach_refused))) <>
     Raise (NonRecoverableError (Exc gave_up))).
Proof. vm_compute. repeat split; discriminate. Qed.

(** The rollback when the volume never gets in use and the detach
    succeeds: the error of the wait is raised after one detach command. *)
Lemma attach_volume_rollback_witness :
  attach (slow_volume_cloud (Ok tt)) =
    (Raise gave_up,
     {| ctx := volume_to_server;
        history :=
          [CreateServerVolume (VStr "srv-1") (VStr "vol-1") VNone;
           WaitUntilStatus (VStr "vol-1") VOLUME_STATUS_IN_USE 10 2;
           GetAttachment (VStr "vol-1") (VStr "srv-1");
           DeleteServerVolume (VStr "srv-1") (VStr "att-1");
           WaitUntilStatus (VStr "vol-1") VOLUME_STATUS_AVAILABLE 10 2];
        retry_request := None |}).
Proof.
  pose proof (attach_volume_rollback (slow_volume_cloud (Ok tt))
                DEVICE_NAME_PROPERTY VOLUME_STATUS_IN_USE
                VOLUME_STATUS_AVAILABLE ∅ volume_to_server [] None
                (VStr "srv-1") (VStr "vol-1") (VStr "auto") 10 2 gave_up) as H.
  cbv zeta in H.
  specialize (H ltac:(vm_compute; reflexivity) ltac:(vm_compute; reflexivity)
                ltac:(vm_compute; reflexivity) ltac:(vm_compute; reflexivity)
                ltac:(vm_compute; reflexivity) ltac:(vm_compute; reflexivity)).
  destruct H as (_ & _ & H).
  specialize (H (<["id" := VStr "att-1"]> {["device" := VStr "/dev/vdb"]})
                (VStr "att-1")
                ltac:(reflexivity) ltac:(vm_compute; reflexivity)).
  destruct H as [_ H].
  specialize (H ltac:(vm_compute; reflexivity)).
  destruct H as [_ H].
  specialize (H {["status" := VStr "attaching"]} false ltac:(reflexivity)).
  unfold attach, start_of. rewrite H. vm_compute. reflexivity.
Defined.



(** The rows of the reboot table that the code follows: on a retry of the
    operation, a server read in status REBOOT, HARD_REBOOT or UNKNOWN gives
    a retry in 30 seconds, one in status ACTIVE gives success, and one in
    status ERROR a non-recoverable error. *)
Lemma reboot_table_rows (os : cloud) (reboot_type : string)
    (c : node_ctx) (h : list call) (r : option decision)
    (id status : value) (server server' : gmap string value) :
  let w := {| ctx := c; history := h; retry_request := r |} in
  let h' := (h ++ [ServersGet id; ServersGet id])%list in
  retry_number c <> 0%nat ->
  runtime_properties c !! OPENSTACK_ID_PROPERTY = Some id ->
  servers_get os h id = Ok server ->
  server !! "id" = Some id ->
  servers_get os (h ++ [ServersGet id])%list id = Ok server' ->
  server' !! "status" = Some status ->
  (eq_str status SERVER_STATUS_REBOOT
   || eq_str status SERVER_STATUS_HARD_REBOOT
   || eq_str status SERVER_STATUS_UNKNOWN = true ->
   exists msg,
     reboot_body os reboot_type w =
       (Ok (OperationRetry msg (Some 30)),
        {| ctx := c; history := h';
           retry_request := Some (OperationRetry msg (Some 30)) |})) /\
  (status = VStr SERVER_STATUS_ACTIVE ->
   reboot_body os reboot_type w =
     (Ok Done, {| ctx := c; history := h'; retry_request := r |})) /\
  (status = VStr SERVER_STATUS_ERROR ->
   exists msg,
     reboot_body os reboot_type w =
       (Raise (NonRecoverableError (Text msg)),
        {| ctx := c; history := h'; retry_request := r |})).
Proof.
  intros w h' Hretry Hid Hget Hsid Hget' Hstatus.
  unfold reboot_body, get_server_by_context, get_openstack_id, servers_get_.
  unfold_op. simpl. rewrite Hid. simpl. rewrite Hget. simpl.
  rewrite (bool_decide_eq_false_2 _ Hretry). simpl.
  rewrite Hsid. simpl. rewrite Hget'. simpl. rewrite Hstatus. simpl.
  rewrite <- app_assoc. simpl. fold h'.
  split; [|split].
  - intros ->. eexists. reflexivity.
  - intros ->. reflexivity.
  - intros ->. eexists. reflexivity.
Qed.

(** * Further properties *)

(** ** Clearing the stored state *)

Lemma delete_runtime_properties_run (keys : list string) (w : world node_ctx) :
  delete_runtime_properties keys w =
    (Ok tt,
     {| ctx := set_runtime_properties
                 (fun rt => foldl (fun rt k => base.delete k rt) rt keys) (ctx w);
        history := history w;
        retry_request := retry_request w |}).
Proof.
  unfold delete_runtime_properties. revert w.
  induction keys as [|k keys IH]; intros [c h r]; simpl.
  - unfold mret, M_ret, ret. destruct c; reflexivity.
  - unfold bind at 1, modify_ctx at 1, modify at 1. cbv beta iota.
    rewrite IH. destruct c; reflexivity.
Qed.

Lemma foldl_delete_lookup (keys : list string) (rt : gmap string value)
    (k : string) :
  foldl (fun rt k => base.delete k rt) rt keys !! k =
    if bool_decide (k ∈ keys) then None else rt !! k.
Proof.
  revert rt. induction keys as [|k' keys IH]; intros rt; simpl.
  - reflexivity.
  - rewrite IH. destruct (decide (k = k')) as [->|Hne].
    + rewrite lookup_delete_eq.
      rewrite (bool_decide_eq_true_2 (k' ∈ k' :: keys)) by (left).
      destruct (bool_decide (k' ∈ keys)); reflexivity.
    + rewrite lookup_delete_ne by congruence.
      destruct (bool_decide (k ∈ keys)) eqn:Hin.
      * apply bool_decide_eq_true in Hin.
        rewrite bool_decide_eq_true_2 by (right; exact Hin). reflexivity.
      * apply bool_decide_eq_false in Hin.
        rewrite bool_decide_eq_false_2; [reflexivity|].
        intros Hc. apply elem_of_cons in Hc. destruct Hc; [congruence | contradiction].
Qed.

(** X1: [delete_runtime_properties] never fails and issues no call; after
    it none of the listed keys is stored, and every other runtime property
    is as before. *)
Theorem delete_runtime_properties_clears (keys : list string)
    (w : world node_ctx) :
  let out := delete_runtime_properties keys w in
  fst out = Ok tt /\
  history (snd out) = history w /\
  same_node (ctx w) (ctx (snd out)) /\
  forall k : string,
    runtime_properties (ctx (snd out)) !! k =
      if bool_decide (k ∈ keys) then None else runtime_properties (ctx w) !! k.
Proof.
  cbv zeta. rewrite delete_runtime_properties_run. simpl.
  split; [reflexivity|]. split; [reflexivity|].
  split; [apply same_node_set_runtime|].
  intros k. apply foldl_delete_lookup.
Qed.

(** The plural under which a client deletes a resource of a type. *)
Lemma cosmo_delete_resource_run {C} os F client t id (w : world C) :
  cosmo_delete_resource os F client t id w =
    let plural :=
      match client with
      | NovaClientWithSugar => _get_nova_field_name_for_type F t
      | NeutronClientWithSugar => t
      | _ => cosmo_plural t
      end in
    (delete_resource os (history w) client plural id,
     {| ctx := ctx w;
        history := (history w ++ [DeleteResource client plural id])%list;
        retry_request := retry_request w |}).
Proof. reflexivity. Qed.

(** X2: the common delete path honours the ownership: for a resource that
    is external and not conditionally created it issues no call and clears
    the listed runtime properties; otherwise it issues exactly one delete
    call for the stored id, clears the properties when the call succeeds,
    and keeps them, raising the error of the provider, when it fails. *)
Theorem common_delete_honours_ownership
    (os : cloud) (F : string) (client : client_kind) (keys : list string)
    (c : node_ctx) (h : list call) (r : option decision)
    (t : string) (id : value) :
  runtime_properties c !! OPENSTACK_TYPE_PROPERTY = Some (VStr t) ->
  runtime_properties c !! OPENSTACK_ID_PROPERTY = Some id ->
  let w := {| ctx := c; history := h; retry_request := r |} in
  let plural :=
    match client with
    | NovaClientWithSugar => _get_nova_field_name_for_type F t
    | NeutronClientWithSugar => t
    | _ => cosmo_plural t
    end in
  let cleared :=
    set_runtime_properties
      (fun rt => foldl (fun rt k => base.delete k rt) rt keys) c in
  delete_resource_and_runtime_properties os F client keys w =
    if is_external_resource_not_conditionally_created c then
      (Ok tt, {| ctx := cleared; history := h; retry_request := r |})
    else
      match delete_resource os h client plural id with
      | Ok _ =>
          (Ok tt, {| ctx := cleared;
                     history := (h ++ [DeleteResource client plural id])%list;
                     retry_request := r |})
      | Raise e =>
          (Raise e, {| ctx := c;
                       history := (h ++ [DeleteResource client plural id])%list;
                       retry_request := r |})
      end.
Proof.
  intros Ht Hid w plural cleared.
  unfold delete_resource_and_runtime_properties.
  rewrite bind_run. unfold get_ctx, gets at 1. cbv beta iota.
  step. simpl ctx. unfold getitem at 1. rewrite Ht. cbv beta iota.
  destruct (is_external_resource_not_conditionally_created c);
    cbv beta iota delta [negb].
  - rewrite bind_run. unfold mret, M_ret, ret at 1. cbv beta iota.
    rewrite delete_runtime_properties_run. reflexivity.
  - rewrite bind_run.
    rewrite bind_run. unfold lift at 1. cbv beta iota.
    unfold getitem at 1. rewrite Hid. cbv beta iota.
    rewrite bind_run. unfold lift at 1. simpl as_str. cbv beta iota.
    rewrite cosmo_delete_resource_run. cbv zeta. simpl history. simpl ctx.
    simpl retry_request. fold plural.
    destruct (delete_resource os h client plural id) as [[]|e].
    + rewrite delete_runtime_properties_run. reflexivity.
    + reflexivity.
Qed.

(** X3: for a server declared external, [stop] and [delete] succeed without
    any call to the provider, whatever the provider and whether or not the
    server was conditionally created; [delete] leaves none of the server's
    runtime property keys stored. *)
Theorem external_server_is_never_stopped_or_deleted
    (os : cloud) (kw : gmap string value)
    (c : node_ctx) (h : list call) (r : option decision) :
  is_external_resource c = true ->
  let w := {| ctx := c; history := h; retry_request := r |} in
  let stopped := stop os kw w in
  let deleted := delete os kw w in
  fst stopped = Ok tt /\ history (snd stopped) = h /\
  fst deleted = Ok tt /\ history (snd deleted) = h /\
  forall k, k ∈ RUNTIME_PROPERTIES_KEYS ->
            runtime_properties (ctx (snd deleted)) !! k = None.
Proof.
  intros Hext w stopped deleted.
  pose proof (handle_kw_quiet kw w) as (_ & Hsame & Hhist & _).
  pose proof (is_external_same_node _ _ Hsame) as Hext'.
  simpl ctx in Hext'. rewrite Hext in Hext'.
  assert (Hstop : stopped = (Ok tt, snd (_handle_kw kw w))).
  { unfold stopped, stop. rewrite with_client_run.
    unfold stop_body. rewrite bind_run. unfold get_ctx, gets at 1.
    cbv beta iota. rewrite Hext'. reflexivity. }
  assert (Hdel : deleted =
    delete_runtime_properties RUNTIME_PROPERTIES_KEYS (snd (_handle_kw kw w))).
  { unfold deleted, delete. rewrite with_client_run.
    unfold delete_body. rewrite bind_run. unfold get_ctx, gets at 1.
    cbv beta iota. rewrite Hext'. cbv beta iota delta [negb].
    rewrite bind_run. unfold mret, M_ret, ret at 1. cbv beta iota.
    rewrite delete_runtime_properties_run. reflexivity. }
  rewrite Hstop, Hdel, delete_runtime_properties_run.
  cbn [fst snd ctx history].
  repeat split; try exact Hhist.
  intros k Hk. unfold set_runtime_properties. cbn [runtime_properties].
  rewrite foldl_delete_lookup.
  rewrite bool_decide_eq_true_2 by exact Hk. reflexivity.
Qed.

(** ** reboot *)

(** X4: on its first invocation [reboot] rejects a reboot type written in
    ASCII characters that is neither hard nor soft (in any letter case)
    with a non-recoverable error: the server has been read once, and no
    reboot command is issued. *)
Theorem reboot_rejects_unknown_type
    (os : cloud) (reboot_type : string) (kw : gmap string value)
    (c : node_ctx) (h : list call) (r : option decision)
    (id : value) (server : gmap string value) :
  retry_number c = 0%nat ->
  is_ascii reboot_type = true ->
  upper reboot_type <> "HARD" -> upper reboot_type <> "SOFT" ->
  runtime_properties c !! OPENSTACK_ID_PROPERTY = Some id ->
  servers_get os h id = Ok server ->
  reboot os reboot_type kw {| ctx := c; history := h; retry_request := r |} =
    (Raise (NonRecoverableError (Text (
       "Unexpected reboot type: " ++ reboot_type ++
       ". Valid values: SOFT or HARD."))),
     {| ctx := c; history := (h ++ [ServersGet id])%list; retry_request := r |}).
Proof.
  intros Hretry _ Hhard Hsoft Hid Hget.
  unfold reboot. rewrite with_client_run.
  rewrite handle_kw_stored by (simpl; eauto). cbn [snd].
  unfold reboot_body, get_server_by_context, get_openstack_id, servers_get_.
  unfold_op. simpl. rewrite Hid. simpl. rewrite Hget. simpl.
  rewrite Hretry. simpl.
  rewrite (bool_decide_eq_false_2 (upper reboot_type ∈ ["HARD"; "SOFT"])).
  - reflexivity.
  - intros Hin. apply elem_of_cons in Hin. destruct Hin as [?|Hin]; [contradiction|].
    apply elem_of_cons in Hin. destruct Hin as [?|Hin]; [contradiction|].
    inversion Hin.
Qed.

(** The common delete path on the managed server ["srv-1"]: one delete call
    and no stored id afterwards. *)
Lemma common_delete_honours_ownership_witness :
  let out := delete_resource_and_runtime_properties empty_cloud
               FLOATINGIP_OPENSTACK_TYPE NovaClientWithSugar
               COMMON_RUNTIME_PROPERTIES_KEYS (start_of (managed_server 0)) in
  fst out = Ok tt /\
  history (snd out) =
    [DeleteResource NovaClientWithSugar "servers" (VStr "srv-1")] /\
  runtime_properties (ctx (snd out)) !! OPENSTACK_ID_PROPERTY = None.
Proof.
  pose proof (common_delete_honours_ownership empty_cloud
                FLOATINGIP_OPENSTACK_TYPE NovaClientWithSugar
                COMMON_RUNTIME_PROPERTIES_KEYS (managed_server 0) [] None
                SERVER_OPENSTACK_TYPE (VStr "srv-1")) as H.
  cbv zeta in H. cbv zeta. unfold start_of.
  rewrite H by (vm_compute; reflexivity).
  vm_compute. repeat split.
Defined.

(** [stop] and [delete] on an external server that exists at the provider. *)
Lemma external_server_is_never_stopped_or_deleted_witness :
  history (snd (stop cloud_with_web ∅ (start_of external_two_boot))) = [] /\
  history (snd (delete cloud_with_web ∅ (start_of external_two_boot))) = [].
Proof.
  destruct (external_server_is_never_stopped_or_deleted cloud_with_web ∅
              external_two_boot [] None)
    as (_ & Hs & _ & Hd & _); [vm_compute; reflexivity|].
  exact (conj Hs Hd).
Defined.

(** A reboot of type ["warm"] of the managed server. *)
Lemma reboot_rejects_unknown_type_witness :
  reboot (cloud_with_server "ACTIVE") "warm" ∅ (start_of (managed_server 0)) =
    (Raise (NonRecoverableError (Text
       "Unexpected reboot type: warm. Valid values: SOFT or HARD.")),
     {| ctx := managed_server 0;
        history := [ServersGet (VStr "srv-1")];
        retry_request := None |}).
Proof.
  apply (reboot_rejects_unknown_type (cloud_with_server "ACTIVE") "warm" ∅
           (managed_server 0) [] None (VStr "srv-1")
           (server_object "srv-1" "ACTIVE" VNone));
    try (vm_compute; reflexivity); vm_compute; discriminate.
Defined.

(** ** Waiting for a deleted server *)

Lemma elapsed_app (h l : list call) : elapsed (h ++ l) = elapsed h + elapsed l.
Proof.
  unfold elapsed. induction h as [|c h IH]; simpl.
  - reflexivity.
  - destruct c; rewrite IH; lia.
Qed.

Lemma elapsed_polls (server_id : value) (sleep_interval : Z) (n : nat) :
  elapsed (polls server_id sleep_interval n) = Z.of_nat n * sleep_interval.
Proof.
  unfold polls. induction n as [|n IH].
  - reflexivity.
  - change (replicate (S n) ?x) with (x :: replicate n x).
    cbn [concat]. rewrite elapsed_app, IH. unfold elapsed. simpl. lia.
Qed.

Lemma wait_loop_step {C} (os : cloud) (fuel : nat) (wait_time : Z)
    (server_id : value) (timeout sleep_interval : Z) (w : world C) :
  wait_loop os fuel wait_time server_id timeout sleep_interval w =
    if elapsed (history w) <? wait_time then
      match fuel with
      | O => (Raise (timed_out_error server_id timeout), w)
      | S fuel' =>
          let w1 := {| ctx := ctx w;
                       history := (history w ++ [ServersGet server_id])%list;
                       retry_request := retry_request w |} in
          match servers_get os (history w) server_id with
          | Raise e => (if is_not_found e then Ok tt else Raise e, w1)
          | Ok server =>
              match server !! "id", server !! "status" with
              | Some _, Some _ =>
                  wait_loop os fuel' wait_time server_id timeout sleep_interval
                    {| ctx := ctx w;
                       history := ((history w ++ [ServersGet server_id]) ++
                                   [Sleep sleep_interval])%list;
                       retry_request := retry_request w |}
              | None, _ => (Raise (AttributeError "id"), w1)
              | Some _, None => (Raise (AttributeError "status"), w1)
              end
          end
      end
    else (Raise (timed_out_error server_id timeout), w).
Proof.
  destruct fuel as [|fuel'].
  - simpl. unfold_op. simpl.
    destruct (elapsed (history w) <? wait_time); reflexivity.
  - cbn [wait_loop]. rewrite bind_run. unfold gets at 1. cbv beta iota.
    destruct (elapsed (history w) <? wait_time); [|reflexivity].
    rewrite bind_run. unfold try_except at 1.
    rewrite bind_run. unfold servers_get_ at 1, invoke at 1. cbv beta iota.
    cbn [history ctx retry_request].
    destruct (servers_get os (history w) server_id) as [server|e].
    + rewrite bind_run. unfold lift at 1, getattr at 1. cbv beta iota.
      destruct (server !! "id") as [i|].
      * rewrite bind_run. unfold lift at 1, getattr at 1. cbv beta iota.
        destruct (server !! "status") as [s|]; reflexivity.
      * destruct (server !! "status"); reflexivity.
    + destruct (is_not_found e); reflexivity.
Qed.

Lemma wait_loop_polls {C} (os : cloud) (server_id : value)
    (timeout sleep_interval : Z) (fuel : nat) :
  0 < sleep_interval ->
  forall (wait_time : Z) (w : world C),
  wait_time - elapsed (history w) <= Z.of_nat fuel ->
  let out := wait_loop os fuel wait_time server_id timeout sleep_interval w in
  exists (n : nat) (tail : list call),
    snd out = {| ctx := ctx w;
                 history := (history w ++ polls server_id sleep_interval n
                               ++ tail)%list;
                 retry_request := retry_request w |} /\
    ((tail = [] /\
      fst out = Raise (timed_out_error server_id timeout) /\
      wait_time <= elapsed (history w) + Z.of_nat n * sleep_interval /\
      (n = 0%nat \/
       elapsed (history w) + (Z.of_nat n - 1) * sleep_interval < wait_time)) \/
     (tail = [ServersGet server_id] /\
      elapsed (history w) + Z.of_nat n * sleep_interval < wait_time /\
      ((fst out = Ok tt /\
        exists e, servers_get os
                    (history w ++ polls server_id sleep_interval n)
                    server_id = Raise e /\ is_not_found e = true) \/
       (exists e, fst out = Raise e /\ is_not_found e = false)))).
Proof.
  intros Hpos. induction fuel as [|fuel IH]; intros wait_time w Hfuel out;
    subst out; rewrite wait_loop_step.
  - destruct (elapsed (history w) <? wait_time) eqn:Hlt.
    + apply Z.ltb_lt in Hlt. lia.
    + apply Z.ltb_ge in Hlt. exists 0%nat, []. cbn [polls fst snd].
      split; [unfold polls; simpl; rewrite app_nil_r; destruct w; reflexivity|].
      left. repeat split; lia.
  - destruct (elapsed (history w) <? wait_time) eqn:Hlt.
    2:{ apply Z.ltb_ge in Hlt. exists 0%nat, []. cbn [fst snd].
        split; [unfold polls; simpl; rewrite app_nil_r; destruct w; reflexivity|].
        left. repeat split; lia. }
    apply Z.ltb_lt in Hlt. cbv zeta.
    destruct (servers_get os (history w) server_id) as [server|e] eqn:Hget.
    + destruct (server !! "id") as [i|] eqn:Hi.
      * destruct (server !! "status") as [s|] eqn:Hs.
        -- set (w2 := {| ctx := ctx w;
                         history := ((history w ++ [ServersGet server_id]) ++
                                     [Sleep sleep_interval])%list;
                         retry_request := retry_request w |}).
           assert (He : elapsed (history w2) = elapsed (history w) + sleep_interval).
           { unfold w2. cbn [history]. rewrite !elapsed_app. unfold elapsed.
             simpl. lia. }
           destruct (IH wait_time w2) as (n & tail & Hsnd & Hcase); [lia|].
           exists (S n), tail.
           assert (Hh : (history w2 ++ polls server_id sleep_interval n ++ tail =
                         history w ++ polls server_id sleep_interval (S n) ++ tail)%list).
           { unfold w2, polls. cbn [history].
             change (replicate (S n) ?x) with (x :: replicate n x).
             cbn [concat]. rewrite <- !app_assoc. reflexivity. }
           split.
           { rewrite Hsnd, Hh. reflexivity. }
           destruct Hcase as [(Ht & Hr & Hge & Hleast)|(Ht & Hlt' & Hr)].
           ++ left. split; [exact Ht|]. split; [exact Hr|]. split; [lia|].
              right. destruct Hleast as [->|Hl]; lia.
           ++ right. split; [exact Ht|]. split; [lia|].
              destruct Hr as [(Hok & e & Hnf & Hisnf)|Herr].
              ** left. split; [exact Hok|]. exists e. split; [|exact Hisnf].
                 rewrite <- Hnf. f_equal. unfold w2, polls. cbn [history].
                 change (replicate (S n) ?x) with (x :: replicate n x).
                 cbn [concat]. rewrite <- !app_assoc. reflexivity.
              ** right. exact Herr.
        -- exists 0%nat, [ServersGet server_id]. cbn [fst snd].
           split; [reflexivity|]. right. split; [reflexivity|]. split; [lia|].
           right. eexists. split; reflexivity.
      * exists 0%nat, [ServersGet server_id].
        destruct (server !! "status"); cbn [fst snd];
          (split; [reflexivity|]; right; split; [reflexivity|]; split; [lia|];
           right; eexists; split; reflexivity).
    + exists 0%nat, [ServersGet server_id]. cbn [fst snd].
      split; [reflexivity|]. right. split; [reflexivity|]. split; [lia|].
      destruct (is_not_found e) eqn:Hnf.
      * left. split; [reflexivity|]. exists e. unfold polls. simpl.
        rewrite app_nil_r. split; assumption.
      * right. exists e. split; [reflexivity | exact Hnf].
Qed.

(** X5: with the clock advancing by the sleeps only,
    [_wait_for_server_to_be_deleted] reads the server, sleeps and reads
    again, and keeps the context: it returns when a read says the server
    is not found, fails with the error of a read that fails otherwise, and
    gives up with a [RuntimeError] after the first number [n] of polls with
    [timeout <= n * sleep_interval], reading the server [n] times. *)
Theorem wait_for_server_to_be_deleted_polls {C} (os : cloud)
    (server_id : value) (timeout sleep_interval : Z) (w : world C) :
  0 < sleep_interval ->
  let out := _wait_for_server_to_be_deleted os server_id timeout
               sleep_interval w in
  exists (n : nat) (tail : list call),
    snd out = {| ctx := ctx w;
                 history := (history w ++ polls server_id sleep_interval n
                               ++ tail)%list;
                 retry_request := retry_request w |} /\
    ((tail = [] /\
      fst out = Raise (timed_out_error server_id timeout) /\
      timeout <= Z.of_nat n * sleep_interval /\
      (n = 0%nat \/ (Z.of_nat n - 1) * sleep_interval < timeout)) \/
     (tail = [ServersGet server_id] /\
      Z.of_nat n * sleep_interval < timeout /\
      ((fst out = Ok tt /\
        exists e, servers_get os
                    (history w ++ polls server_id sleep_interval n)
                    server_id = Raise e /\ is_not_found e = true) \/
       (exists e, fst out = Raise e /\ is_not_found e = false)))).
Proof.
  intros Hpos out. subst out. unfold _wait_for_server_to_be_deleted.
  rewrite bind_run. unfold gets at 1. cbv beta iota.
  destruct (wait_loop_polls os server_id timeout sleep_interval
              (Z.to_nat timeout) Hpos (elapsed (history w) + timeout) w)
    as (n & tail & Hsnd & Hcase); [lia|].
  exists n, tail. split; [exact Hsnd|].
  destruct Hcase as [(Ht & Hr & Hge & Hleast)|(Ht & Hlt & Hr)].
  - left. split; [exact Ht|]. split; [exact Hr|]. split; [lia|].
    destruct Hleast; [left; assumption | right; lia].
  - right. split; [exact Ht|]. split; [lia|]. exact Hr.
Qed.

(** The wait of [delete] on a server that stays visible: 24 polls, five
    seconds apart. *)
Lemma wait_for_server_to_be_deleted_polls_witness :
  exists (n : nat) (tail : list call),
    snd (_wait_for_server_to_be_deleted (cloud_with_server "ACTIVE")
           (VStr "srv-1") 120 5 (start_of (managed_server 0))) =
    {| ctx := managed_server 0;
       history := ([] ++ polls (VStr "srv-1") 5 n ++ tail)%list;
       retry_request := None |} /\
    n = 24%nat /\ tail = [].
Proof.
  assert (Hlast : last (history (snd (_wait_for_server_to_be_deleted
            (cloud_with_server "ACTIVE") (VStr "srv-1") 120 5
            (start_of (managed_server 0))))) = Some (Sleep 5))
    by (vm_compute; reflexivity).
  destruct (wait_for_server_to_be_deleted_polls (cloud_with_server "ACTIVE")
              (VStr "srv-1") 120 5 (start_of (managed_server 0)))
    as (n & tail & Hsnd & Hcase); [lia|].
  exists n, tail. split; [exact Hsnd|].
  destruct Hcase as [(Ht & Hr & Hge & Hleast)|(Ht & _)].
  - split; [lia | exact Ht].
  - exfalso. rewrite Hsnd, Ht in Hlast. cbn [history app start_of] in Hlast.
    rewrite last_snoc in Hlast. discriminate Hlast.
Defined.

(** ** Lookup of a resource by name or id *)

Lemma cosmo_get_if_exists_run {C} os F client t kw (w : world C) :
  cosmo_get_if_exists os F client t kw w =
    let plural := match client with
                  | NovaClientWithSugar => _get_nova_field_name_for_type F t
                  | _ => cosmo_plural t
                  end in
    let w1 := {| ctx := ctx w;
                 history := (history w ++ [ListResources client plural kw])%list;
                 retry_request := retry_request w |} in
    match list_resources os (history w) client plural kw with
    | Raise e => (Raise e, w1)
    | Ok ls =>
        if bool_decide (1 < length ls)%nat then
          (Raise (NonRecoverableError (Text (
             "Expected at most one object of type " ++ t ++
             " with match {...} but there are " ++ pretty (length ls)))), w1)
        else (Ok (head ls), w1)
    end.
Proof.
  unfold cosmo_get_if_exists, _cosmo_get. rewrite bind_run, cosmo_list_run.
  cbv zeta. destruct (list_resources _ _ _ _ _) as [ls|e]; [|reflexivity].
  destruct (bool_decide (1 < length ls)%nat); reflexivity.
Qed.



Lemma lookup_by_name_run {C} (os : cloud) (F : string)
    (resource_id : value) (openstack_type : string) (client : client_kind)
    (raise_if_not_found : bool) (name_field_name : string) (w : world C)
    (resource : gmap string value) :
  list_resources os (history w) client (listed_as F client openstack_type)
    {[name_field_name := resource_id]} = Ok [resource] ->
  get_resource_by_name_or_id os F resource_id openstack_type client
    raise_if_not_found name_field_name w =
  (Ok (Some resource),
   after w [ListResources client (listed_as F client openstack_type)
              {[name_field_name := resource_id]}]).
Proof.
  intros Hname. unfold get_resource_by_name_or_id.
  rewrite bind_run, cosmo_get_if_exists_run. cbv zeta.
  fold (listed_as F client openstack_type). rewrite Hname.
  rewrite bool_decide_eq_false_2 by (simpl; lia). reflexivity.
Qed.

(** ** Adoption of an external resource *)

Lemma get_id_from_resource_some client (resource : gmap string value) id :
  resource !! "id" = Some id -> get_id_from_resource client resource = Ok id.
Proof.
  intros H. unfold get_id_from_resource, getitem, getattr. rewrite H.
  destruct client; reflexivity.
Qed.

Lemma get_name_from_resource_some client (resource : gmap string value) name :
  resource !! "name" = Some name ->
  get_name_from_resource client resource = Ok name.
Proof.
  intros H. unfold get_name_from_resource, getitem, getattr. rewrite H.
  destruct client; reflexivity.
Qed.



(** ** Operations that only read *)

Lemma reads_only_pure {C A} P (r : result A) :
  reads_only (C := C) P (fun w => (r, w)).
Proof.
  intros w. cbn. repeat split. exists []. rewrite app_nil_r. split; constructor.
Qed.

Lemma reads_only_gets {C A} P (f : world C -> A) :
  reads_only P (gets f).
Proof.
  intros w. cbn. repeat split. exists []. rewrite app_nil_r. split; constructor.
Qed.

Lemma reads_only_bind {C A B} P (m : Op C A) (f : A -> Op C B) :
  reads_only P m -> (forall a, reads_only P (f a)) -> reads_only P (m ≫= f).
Proof.
  intros Hm Hf w. rewrite bind_run.
  destruct (Hm w) as (Hc & Hr & l & Hh & Hl).
  destruct (m w) as [[a|e] w1]; cbn [snd] in *.
  - destruct (Hf a w1) as (Hc' & Hr' & l' & Hh' & Hl').
    rewrite Hc', Hr', Hh', Hc, Hr, Hh. repeat split.
    exists (l ++ l')%list. rewrite app_assoc. split; [reflexivity|].
    apply Forall_app; split; assumption.
  - repeat split; try assumption. exists l. split; assumption.
Qed.

Lemma reads_only_try_except {C A} P (m : Op C A) (hdl : exn -> Op C A) :
  reads_only P m -> (forall e, reads_only P (hdl e)) ->
  reads_only P (try_except m hdl).
Proof.
  intros Hm Hh w. unfold try_except.
  destruct (Hm w) as (Hc & Hr & l & Hhist & Hl).
  destruct (m w) as [[a|e] w1]; cbn [snd] in *.
  - repeat split; try assumption. exists l. split; assumption.
  - destruct (Hh e w1) as (Hc' & Hr' & l' & Hh' & Hl').
    rewrite Hc', Hr', Hh', Hc, Hr, Hhist. repeat split.
    exists (l ++ l')%list. rewrite app_assoc. split; [reflexivity|].
    apply Forall_app; split; assumption.
Qed.

Lemma reads_only_invoke {C A} (P : call -> Prop) (c : call)
    (answer : list call -> result A) :
  P c -> reads_only (C := C) P (invoke c answer).
Proof.
  intros Hc w. cbn. repeat split. exists [c]. split; [reflexivity|].
  constructor; [exact Hc | constructor].
Qed.

Lemma reads_only_forM {C A} P (l : list A) (f : A -> Op C unit) :
  (forall a, reads_only P (f a)) -> reads_only P (forM_ l f).
Proof.
  intros Hf. induction l as [|a l IH]; cbn [forM_].
  - apply reads_only_pure.
  - apply (reads_only_bind P (f a) (fun _ => forM_ l f)); [apply Hf | intros _; exact IH].
Qed.

Lemma reads_only_weaken {C A} (P Q : call -> Prop) (m : Op C A) :
  (forall c, P c -> Q c) -> reads_only P m -> reads_only Q m.
Proof.
  intros HPQ Hm w. destruct (Hm w) as (Hc & Hr & l & Hh & Hl).
  repeat split; try assumption. exists l. split; [assumption|].
  eapply Forall_impl; eassumption.
Qed.

Ltac reads_only_tac :=
  repeat first
    [ apply reads_only_pure
    | apply reads_only_gets
    | apply reads_only_invoke
    | apply reads_only_forM; intros
    | apply reads_only_try_except; [|intros]
    | apply reads_only_bind; [|intros]
    | match goal with
      | |- reads_only _ (match ?x with _ => _ end) => destruct x
      | |- reads_only _ (if ?b then _ else _) => destruct b
      end ].

Lemma cosmo_list_reads_only {C} os F client t kw :
  reads_only (C := C) is_listing (cosmo_list os F client t kw).
Proof. unfold cosmo_list. apply reads_only_invoke. exact I. Qed.

Lemma get_resource_from_ctx_reads_only os F nfn t client :
  reads_only is_listing (_get_resource_by_name_or_id_from_ctx os F nfn t client).
Proof.
  unfold _get_resource_by_name_or_id_from_ctx, get_resource_by_name_or_id,
    cosmo_get_if_exists, _cosmo_get, get_ctx, lift, raise, mret, M_ret, ret.
  reads_only_tac; exact I.
Qed.

(** X8: [validate_resource] only reads: it leaves the context as it is,
    asks for no retry, and issues nothing but listings and reads of the
    quotas; with the Nova client it never reads the quotas. *)
Theorem validate_resource_reads_only (os : cloud) (F : string)
    (client : client_kind) (openstack_type name_field_name : string) :
  reads_only
    (fun c => is_listing c \/
              (client <> NovaClientWithSugar /\ c = GetQuota client))
    (validate_resource os F client openstack_type name_field_name).
Proof.
  unfold validate_resource.
  apply reads_only_bind; [apply reads_only_gets|]. intros c. cbv zeta.
  apply reads_only_bind.
  - apply (reads_only_weaken is_listing); [intros; left; assumption|].
    destruct (is_external_resource c); [|apply reads_only_pure].
    apply reads_only_try_except; [apply get_resource_from_ctx_reads_only|].
    intros e. unfold lift, raise, mret, M_ret, ret.
    reads_only_tac; exact I.
  - intros [resource|]; [apply reads_only_pure|].
    destruct (decide (client = NovaClientWithSugar)) as [Heq|Hne];
      [apply reads_only_pure|].
    apply reads_only_bind.
    + apply (reads_only_weaken is_listing); [intros; left; assumption|].
      apply cosmo_list_reads_only.
    + intros ls. cbv zeta. apply reads_only_bind.
      * unfold get_quota, lift, raise, mret, M_ret, ret.
        destruct client; try contradiction; reads_only_tac;
          right; (split; [assumption | reflexivity]).
      * intros q. unfold raise, mret, M_ret, ret.
        destruct (_ || _); apply reads_only_pure.
Qed.

(** ** Errors of a decorated operation *)

Lemma translate_classified (client : client_kind) (e0 : exn) :
  (forall code msg, translate client e0 = ClientException client code msg ->
                    code ∉ _non_recoverable_error_codes) /\
  (client = NovaClientWithSugar ->
   forall msg retry_after, translate client e0 <> OverLimit msg retry_after).
Proof.
  destruct e0; cbn [translate]; try (split; [discriminate | intros _ ? ?; discriminate]).
  - destruct (decide (client = NovaClientWithSugar)) as [->|Hne].
    + unfold _re_raise. split; [discriminate | intros _ ? ?; discriminate].
    + split; [discriminate | intros Hc; contradiction].
  - destruct (decide (client0 = client)) as [->|Hne].
    + destruct (bool_decide (code ∈ _non_recoverable_error_codes)) eqn:Hcode.
      * unfold _re_raise. split; [discriminate | intros _ ? ?; discriminate].
      * apply bool_decide_eq_false in Hcode.
        split; [|intros _ ? ?; discriminate].
        intros code' msg' Heq. injection Heq as <- _. exact Hcode.
    + split; [|intros _ ? ?; discriminate].
      intros code' msg' Heq. injection Heq as ? _ _. contradiction.
Qed.



(** ** The payload kept in the runtime properties *)

(** X10: [assign_payload_as_runtime_properties] never stores the
    [user_data] or [adminPass] of the payload: under the resource name it
    keeps what was stored, overridden by every other key of the payload;
    it issues no call and changes no other runtime property. *)
Theorem assign_payload_leaves_out_secrets
    (resource_name : string) (payload stored : gmap string value)
    (c : node_ctx) (h : list call) (r : option decision) :
  runtime_properties c !! resource_name = Some (VDict stored) \/
  (runtime_properties c !! resource_name = None /\ stored = ∅) ->
  let out := assign_payload_as_runtime_properties resource_name payload
               {| ctx := c; history := h; retry_request := r |} in
  fst out = Ok tt /\ history (snd out) = h /\
  same_node c (ctx (snd out)) /\
  (forall k, k <> resource_name ->
             runtime_properties (ctx (snd out)) !! k = runtime_properties c !! k) /\
  exists d,
    runtime_properties (ctx (snd out)) !! resource_name = Some (VDict d) /\
    d !! "user_data" = stored !! "user_data" /\
    d !! "adminPass" = stored !! "adminPass" /\
    forall k, k <> "user_data" -> k <> "adminPass" ->
              d !! k = match payload !! k with
                       | Some v => Some v
                       | None => stored !! k
                       end.
Proof.
  intros Hstored out.
  assert (Hd : as_dict (default (VDict ∅) (runtime_properties c !! resource_name))
               = Ok stored).
  { destruct Hstored as [->|[-> ->]]; reflexivity. }
  assert (Hrun : out =
    (Ok tt, {| ctx := set_runtime_properties
                 (<[resource_name :=
                      VDict (base.delete "user_data"
                               (base.delete "adminPass" payload) ∪ stored)]>) c;
               history := h; retry_request := r |})).
  { unfold out, assign_payload_as_runtime_properties.
    rewrite bind_run. unfold get_ctx, gets at 1. cbv beta iota. cbn [ctx].
    rewrite bind_run. unfold lift at 1. rewrite Hd. reflexivity. }
  rewrite Hrun. cbn [fst snd ctx history].
  split; [reflexivity|]. split; [reflexivity|].
  split; [apply same_node_set_runtime|].
  unfold set_runtime_properties. cbn [runtime_properties].
  split.
  - intros k Hk. apply lookup_insert_ne. congruence.
  - eexists. split; [apply lookup_insert_eq|].
    split; [|split].
    + rewrite lookup_union_r; [reflexivity|]. apply lookup_delete_eq.
    + rewrite lookup_union_r; [reflexivity|].
      rewrite lookup_delete_ne by discriminate. apply lookup_delete_eq.
    + intros k Hu Ha. rewrite lookup_union.
      rewrite !lookup_delete_ne by congruence.
      destruct (payload !! k), (stored !! k); reflexivity.
Qed.

(** A payload with a password, stored for a server without stored
    payload. *)
Lemma assign_payload_leaves_out_secrets_witness :
  exists d,
    runtime_properties
      (ctx (snd (assign_payload_as_runtime_properties SERVER_OPENSTACK_TYPE
                   (<["adminPass" := VStr "s3cret"]> {["name" := VStr "web"]})
                   (start_of (managed_server 0)))))
      !! SERVER_OPENSTACK_TYPE = Some (VDict d) /\
    d !! "adminPass" = None /\ d !! "name" = Some (VStr "web").
Proof.
  destruct (assign_payload_leaves_out_secrets SERVER_OPENSTACK_TYPE
              (<["adminPass" := VStr "s3cret"]> {["name" := VStr "web"]}) ∅
              (managed_server 0) [] None)
    as (_ & _ & _ & _ & d & Hd & _ & Hpass & Hrest).
  - right. split; [vm_compute; reflexivity | reflexivity].
  - exists d. split; [exact Hd|]. split.
    + rewrite Hpass. reflexivity.
    + rewrite (Hrest "name") by discriminate. vm_compute. reflexivity.
Defined.

(** ** Networks that a port already covers *)

Lemma prefix_refl (s : string) : String.prefix s s = true.
Proof.
  induction s as [|a s IH]; [reflexivity|]. cbn.
  destruct (Ascii.ascii_dec a a); [exact IH | contradiction].
Qed.

Lemma str_contains_refl (s : string) : str_contains s s = true.
Proof.
  destruct s as [|a s]; [reflexivity|].
  change (str_contains (String a s) (String a s))
    with (String.prefix (String a s) (String a s) ||
          str_contains (String a s) s).
  rewrite prefix_refl. reflexivity.
Qed.

Lemma list_remove_at (pn : string) (names : list string) (i : nat) :
  NoDup names -> names !! i = Some pn ->
  list_remove (VStr pn) (VStr <$> names) =
    VStr <$> (take i names ++ drop (S i) names)%list.
Proof.
  revert i. induction names as [|n names IH]; intros i Hnd Hi; [discriminate|].
  apply NoDup_cons in Hnd as [Hnotin Hnd].
  cbn [fmap list_fmap list_remove]. rewrite py_eq_str.
  destruct i as [|i]; cbn in Hi.
  - injection Hi as ->. rewrite bool_decide_eq_true_2 by reflexivity.
    reflexivity.
  - rewrite bool_decide_eq_false_2.
    + cbn [take drop app fmap list_fmap]. f_equal. apply IH; assumption.
    + intros ->. apply Hnotin. eapply list_elem_of_lookup_2. exact Hi.
Qed.

Lemma remove_loop_distinct (pn : string) (fuel : nat) :
  forall (i : nat) (names : list string),
  (length names <= fuel + i)%nat ->
  NoDup names ->
  (forall n, n ∈ names -> str_contains n pn = true -> n = pn) ->
  remove_loop fuel i (VStr pn) (VStr <$> names) =
    Ok (VStr <$> (take i names ++ filter (fun n => n <> pn) (drop i names))%list).
Proof.
  induction fuel as [|fuel IH]; intros i names Hlen Hnd Hsub.
  - cbn [remove_loop]. rewrite take_ge, drop_ge by lia.
    rewrite app_nil_r. reflexivity.
  - cbn [remove_loop]. rewrite list_lookup_fmap.
    destruct (names !! i) as [n|] eqn:Hi; cbn [fmap option_fmap option_map].
    2:{ apply lookup_ge_None in Hi. rewrite take_ge, drop_ge by lia.
        rewrite app_nil_r. reflexivity. }
    pose proof (lookup_lt_Some _ _ _ Hi) as Hlt.
    change (py_in (VStr n) (VStr pn)) with (Ok (A := bool) (str_contains n pn)).
    change (Ok (str_contains n pn) ≫= ?f) with (f (str_contains n pn)).
    cbv beta.
    rewrite (drop_S _ _ _ Hi).
    destruct (str_contains n pn) eqn:Hc.
    + assert (n = pn) as -> by (apply Hsub; [eapply list_elem_of_lookup_2; exact Hi | exact Hc]).
      rewrite (list_remove_at pn names i Hnd Hi).
      assert (Hsubl : (take i names ++ drop (S i) names)%list ⊆ names).
      { intros x Hx. apply elem_of_app in Hx as [Hx|Hx].
        - exact (subseteq_take _ _ _ Hx).
        - exact (subseteq_drop _ _ _ Hx). }
      rewrite IH.
      * f_equal. f_equal.
        rewrite filter_cons_False by (intros H; apply H; reflexivity).
        assert (Hti : length (take i names) = i) by (rewrite length_take; lia).
        replace (S i) with (i + 1)%nat by lia.
        rewrite take_app_add', drop_app_add' by (symmetry; exact Hti).
        rewrite <- app_assoc. f_equal.
        replace (i + 1)%nat with (S i) by lia.
        destruct (drop (S i) names) as [|x rest] eqn:Hrest; [reflexivity|].
        cbn [take drop app].
        rewrite filter_cons_True; [reflexivity|].
        intros ->.
        assert (Hx : names !! (S i) = Some pn).
        { replace (S i) with (S i + 0)%nat by lia. rewrite <- lookup_drop, Hrest.
          reflexivity. }
        pose proof (NoDup_lookup _ _ _ _ Hnd Hi Hx). lia.
      * rewrite length_app, length_take, length_drop. lia.
      * apply (sublist_NoDup _ names); [exact Hnd|].
        rewrite <- (take_drop i names) at 3.
        apply sublist_app; [reflexivity|].
        rewrite (drop_S _ _ _ Hi). apply sublist_cons. reflexivity.
      * intros x Hx. apply Hsub. apply Hsubl. exact Hx.
    + rewrite IH by (try assumption; lia).
      f_equal. f_equal.
      rewrite (take_S_r _ _ _ Hi), <- app_assoc. f_equal.
      rewrite filter_cons_True; [reflexivity|].
      intros ->. rewrite str_contains_refl in Hc. discriminate.
Qed.

(** X11: when the ids of the related networks are pairwise distinct and
    none of them occurs inside the network id of a port without being that
    id, the loop over the network ids removes the network of the port, if
    it is there, and keeps every other id in its place. *)
Theorem remove_port_network_distinct (port_network : nic) (pn : string)
    (names : list string) :
  port_network !! "net-id" = Some (VStr pn) ->
  NoDup names ->
  (forall n, n ∈ names -> str_contains n pn = true -> n = pn) ->
  remove_port_network port_network (VStr <$> names) =
    Ok (VStr <$> filter (fun n => n <> pn) names).
Proof.
  intros Hnet Hnd Hsub. unfold remove_port_network. rewrite Hnet.
  change (default VNone (Some (VStr pn))) with (VStr pn).
  rewrite remove_loop_distinct; try assumption.
  - reflexivity.
  - rewrite length_fmap. lia.
Qed.

(** The networks ["B"], ["D"], ["C"] and a port on ["D"]. *)
Lemma remove_port_network_distinct_witness :
  remove_port_network
    (<["net-id" := VStr "D"]> {["port-id" := VStr "P"]})
    [VStr "B"; VStr "D"; VStr "C"] =
  Ok [VStr "B"; VStr "C"].
Proof.
  apply (remove_port_network_distinct
           (<["net-id" := VStr "D"]> {["port-id" := VStr "P"]}) "D"
           ["B"; "D"; "C"]).
  - vm_compute. reflexivity.
  - apply (bool_decide_unpack (NoDup ["B"; "D"; "C"])). vm_compute. exact I.
  - intros n Hn Hc.
    apply elem_of_cons in Hn as [->|Hn]; [vm_compute in Hc; discriminate Hc|].
    apply elem_of_cons in Hn as [->|Hn]; [reflexivity|].
    apply elem_of_cons in Hn as [->|Hn]; [vm_compute in Hc; discriminate Hc|].
    inversion Hn.
Defined.

(** ** Volumes *)

(** X12: an attach on a managed relationship whose attach command succeeds
    and whose volume gets in use succeeds: with the device ['auto'] no
    device is requested, the attachment is read and the device the provider
    chose is stored in the runtime properties of the volume; with any other
    device that device is requested, nothing is read and nothing stored. *)
Theorem attach_volume_stores_device
    (os : cloud) (DEVICE_NAME_PROPERTY IN_USE AVAILABLE : string)
    (attempts timeout : Z) (kw : gmap string value)
    (c : rel_ctx) (h : list call) (r : option decision)
    (server_id volume_id device : value) (vol : gmap string value) :
  let requested := if eq_str device "auto" then VNone else device in
  let h1 := (h ++ [CreateServerVolume server_id volume_id requested])%list in
  let h2 := (h1 ++ [WaitUntilStatus volume_id IN_USE attempts timeout])%list in
  let run := attach_volume os DEVICE_NAME_PROPERTY IN_USE AVAILABLE
               attempts timeout kw
               {| ctx := c; history := h; retry_request := r |} in
  runtime_properties (target c) !! OPENSTACK_ID_PROPERTY = Some server_id ->
  runtime_properties (source c) !! OPENSTACK_ID_PROPERTY = Some volume_id ->
  is_external_relationship_not_conditionally_created c = false ->
  node_properties (source c) !! DEVICE_NAME_PROPERTY = Some device ->
  create_server_volume os h server_id volume_id requested = Ok tt ->
  wait_until_status os h1 volume_id IN_USE attempts timeout = Ok (vol, true) ->
  if eq_str device "auto" then
    forall (a : gmap string value) (device_name : value),
      get_attachment os h2 volume_id server_id = Ok (VDict a) ->
      a !! "device" = Some device_name ->
      run = (Ok tt,
             {| ctx := set_source (set_runtime_properties
                         (<[DEVICE_NAME_PROPERTY := device_name]>)) c;
                history := (h2 ++ [GetAttachment volume_id server_id])%list;
                retry_request := r |})
  else
    run = (Ok tt, {| ctx := c; history := h2; retry_request := r |}).
Proof.
  intros requested h1 h2 run Hsrv Hvol Hext Hdev Hcreate Hwait.
  assert (Hbody : forall out,
    attach_volume_body os DEVICE_NAME_PROPERTY IN_USE AVAILABLE attempts timeout
      {| ctx := c; history := h; retry_request := r |} = (Ok tt, out) ->
    run = (Ok tt, out)).
  { intros out Hout. unfold run, attach_volume.
    rewrite volume_decorators_run; [exact Hout | cbn [ctx]; eauto |].
    rewrite Hout. exact I. }
  assert (Hstart :
    attach_volume_body os DEVICE_NAME_PROPERTY IN_USE AVAILABLE attempts timeout
      {| ctx := c; history := h; retry_request := r |} =
    try_except
      ('(vol, wait_succeeded) ←
         volume_wait_until_status os volume_id IN_USE attempts timeout;
       if negb wait_succeeded then
         raise (RecoverableError (Text (
           "Waiting for volume status " ++ IN_USE ++
           " failed - detaching volume and retrying..")) None)
       else if eq_str device "auto" then
         attachment ← volume_get_attachment os volume_id server_id;
         a ← lift (match attachment with
                   | VDict a => Ok a
                   | _ => Raise (TypeError "object is not subscriptable")
                   end);
         device_name ← lift (getitem a "device");
         modify_ctx (set_source (set_runtime_properties
                                   (<[DEVICE_NAME_PROPERTY := device_name]>)))
       else mret tt)
      (fun e =>
         (if negb (is_non_recoverable e) then
            _prepare_attach_volume_to_be_repeated os AVAILABLE server_id
              volume_id attempts timeout
          else mret tt);;
         raise e)
      {| ctx := c; history := h1; retry_request := r |}).
  { unfold attach_volume_body.
    rewrite bind_run. unfold get_ctx, gets at 1. cbv beta iota. cbn [ctx].
    rewrite bind_run. unfold lift at 1, getitem at 1. rewrite Hsrv. cbv beta iota.
    rewrite bind_run. unfold lift at 1, getitem at 1. rewrite Hvol. cbv beta iota.
    rewrite Hext.
    rewrite bind_run. unfold lift at 1, getitem at 1. rewrite Hdev. cbv beta iota.
    cbv zeta.
    replace (if negb (eq_str device "auto") then device else VNone)
      with requested by (unfold requested; destruct (eq_str device "auto"); reflexivity).
    rewrite bind_run. unfold invoke at 1. cbv beta iota.
    cbn [history ctx retry_request]. rewrite Hcreate. reflexivity. }
  unfold try_except in Hstart. rewrite bind_run in Hstart.
  unfold volume_wait_until_status at 1, invoke at 1 in Hstart.
  cbn [history ctx retry_request] in Hstart. fold h1 in Hstart.
  rewrite Hwait in Hstart. cbv beta iota delta [negb] in Hstart.
  fold h2 in Hstart.
  destruct (eq_str device "auto").
  - intros a device_name Hatt Ha. apply Hbody. rewrite Hstart.
    rewrite bind_run. unfold volume_get_attachment at 1, invoke at 1.
    cbn [history ctx retry_request]. rewrite Hatt. cbv beta iota.
    rewrite bind_run. unfold lift at 1. cbv beta iota.
    rewrite bind_run. unfold lift at 1, getitem at 1. rewrite Ha. cbv beta iota.
    reflexivity.
  - apply Hbody. rewrite Hstart. reflexivity.
Qed.

(** X13: on a relationship between an external volume and an external
    server that were not conditionally created, [attach_volume] attaches
    nothing: it reads the attachment once, succeeds when there is one and
    fails with a non-recoverable error when there is none. *)
Theorem attach_volume_external_is_validated
    (os : cloud) (DEVICE_NAME_PROPERTY IN_USE AVAILABLE : string)
    (attempts timeout : Z) (kw : gmap string value)
    (c : rel_ctx) (h : list call) (r : option decision)
    (server_id volume_id attachment : value) :
  runtime_properties (target c) !! OPENSTACK_ID_PROPERTY = Some server_id ->
  runtime_properties (source c) !! OPENSTACK_ID_PROPERTY = Some volume_id ->
  is_external_relationship_not_conditionally_created c = true ->
  get_attachment os h volume_id server_id = Ok attachment ->
  attach_volume os DEVICE_NAME_PROPERTY IN_USE AVAILABLE attempts timeout kw
    {| ctx := c; history := h; retry_request := r |} =
  (if truthy attachment then Ok tt
   else Raise (NonRecoverableError (Text (
          "Expected external resources server " ++ py_str server_id ++
          " and volume " ++ py_str volume_id ++ " to be connected"))),
   {| ctx := c;
      history := (h ++ [GetAttachment volume_id server_id])%list;
      retry_request := r |}).
Proof.
  intros Hsrv Hvol Hext Hatt.
  assert (Hbody :
    attach_volume_body os DEVICE_NAME_PROPERTY IN_USE AVAILABLE attempts timeout
      {| ctx := c; history := h; retry_request := r |} =
    (if truthy attachment then Ok tt
     else Raise (NonRecoverableError (Text (
            "Expected external resources server " ++ py_str server_id ++
            " and volume " ++ py_str volume_id ++ " to be connected"))),
     {| ctx := c;
        history := (h ++ [GetAttachment volume_id server_id])%list;
        retry_request := r |})).
  { unfold attach_volume_body.
    rewrite bind_run. unfold get_ctx, gets at 1. cbv beta iota. cbn [ctx].
    rewrite bind_run. unfold lift at 1, getitem at 1. rewrite Hsrv. cbv beta iota.
    rewrite bind_run. unfold lift at 1, getitem at 1. rewrite Hvol. cbv beta iota.
    rewrite Hext.
    rewrite bind_run. unfold volume_get_attachment at 1, invoke at 1.
    cbn [history ctx retry_request]. rewrite Hatt. cbv beta iota.
    destruct (truthy attachment); reflexivity. }
  unfold attach_volume. rewrite volume_decorators_run.
  - exact Hbody.
  - cbn [ctx]. eauto.
  - rewrite Hbody. cbn [fst]. destruct (truthy attachment); reflexivity.
Qed.

(** X14: [detach_volume] issues no call at all on a relationship between
    an external volume and an external server, conditionally created or
    not; otherwise it reads the attachment and, when there is one, issues
    one detach command for it and waits for the volume to be available. *)
Theorem detach_volume_table
    (os : cloud) (AVAILABLE : string)
    (attempts timeout : Z) (kw : gmap string value)
    (c : rel_ctx) (h : list call) (r : option decision)
    (server_id volume_id attachment : value) :
  let w := {| ctx := c; history := h; retry_request := r |} in
  let run := detach_volume os AVAILABLE attempts timeout kw w in
  let read := GetAttachment volume_id server_id in
  runtime_properties (target c) !! OPENSTACK_ID_PROPERTY = Some server_id ->
  runtime_properties (source c) !! OPENSTACK_ID_PROPERTY = Some volume_id ->
  get_attachment os h volume_id server_id = Ok attachment ->
  if is_external_relationship c then run = (Ok tt, w)
  else if negb (truthy attachment) then run = (Ok tt, after w [read])
  else
    forall (a : gmap string value) (id : value) waited,
      attachment = VDict a -> a !! "id" = Some id ->
      delete_server_volume os (h ++ [read]) server_id id = Ok tt ->
      wait_until_status os (h ++ [read; DeleteServerVolume server_id id])
        volume_id AVAILABLE attempts timeout = Ok waited ->
      run = (Ok tt,
             after w [read; DeleteServerVolume server_id id;
                      WaitUntilStatus volume_id AVAILABLE attempts timeout]).
Proof.
  intros w run read Hsrv Hvol Hatt.
  assert (Hbody : forall out,
    detach_volume_body os AVAILABLE attempts timeout w = (Ok tt, out) ->
    run = (Ok tt, out)).
  { intros out Hout. unfold run, detach_volume.
    rewrite volume_decorators_run; [exact Hout | cbn [ctx]; eauto |].
    rewrite Hout. exact I. }
  assert (Hstart : detach_volume_body os AVAILABLE attempts timeout w =
    if is_external_relationship c then (Ok tt, w)
    else _detach_volume os AVAILABLE server_id volume_id attempts timeout w).
  { unfold detach_volume_body.
    rewrite bind_run. unfold get_ctx, gets at 1. cbv beta iota.
    change (ctx w) with c.
    destruct (is_external_relationship c); [reflexivity|].
    rewrite bind_run. unfold lift at 1, getitem at 1. rewrite Hsrv. cbv beta iota.
    rewrite bind_run. unfold lift at 1, getitem at 1. rewrite Hvol. cbv beta iota.
    reflexivity. }
  destruct (is_external_relationship c).
  - apply Hbody. exact Hstart.
  - unfold _detach_volume in Hstart. rewrite bind_run in Hstart.
    unfold volume_get_attachment at 1, invoke at 1 in Hstart.
    cbn [history ctx retry_request w] in Hstart. rewrite Hatt in Hstart.
    cbv beta iota in Hstart.
    destruct (truthy attachment); cbv beta iota delta [negb].
    + intros a id waited -> Ha Hdel Hw. apply Hbody. rewrite Hstart.
      rewrite bind_run. unfold lift at 1. cbn [as_dict]. cbv beta iota.
      rewrite bind_run. unfold lift at 1, getitem at 1. rewrite Ha. cbv beta iota.
      rewrite bind_run. unfold invoke at 1. cbn [history ctx retry_request].
      fold read. rewrite Hdel. cbv beta iota.
      rewrite bind_run. unfold volume_wait_until_status at 1, invoke at 1.
      cbn [history ctx retry_request]. rewrite <- app_assoc. cbn [app].
      rewrite Hw. cbv beta iota. unfold after, w. cbn [history ctx retry_request].
      unfold mret, M_ret, ret. rewrite <- !app_assoc. reflexivity.
    + apply Hbody. rewrite Hstart. reflexivity.
Qed.

(** The attach of a volume with the device ['auto']. *)
Lemma attach_volume_stores_device_witness :
  fst (attach attached_cloud) = Ok tt /\
  runtime_properties (source (ctx (snd (attach attached_cloud))))
    !! DEVICE_NAME_PROPERTY = Some (VStr "/dev/vdb") /\
  history (snd (attach attached_cloud)) =
    [CreateServerVolume (VStr "srv-1") (VStr "vol-1") VNone;
     WaitUntilStatus (VStr "vol-1") VOLUME_STATUS_IN_USE 10 2;
     GetAttachment (VStr "vol-1") (VStr "srv-1")].
Proof.
  pose proof (attach_volume_stores_device attached_cloud DEVICE_NAME_PROPERTY
                VOLUME_STATUS_IN_USE VOLUME_STATUS_AVAILABLE 10 2 ∅
                volume_to_server [] None (VStr "srv-1") (VStr "vol-1")
                (VStr "auto") {["status" := VStr VOLUME_STATUS_IN_USE]}) as H.
  cbv zeta in H.
  specialize (H ltac:(vm_compute; reflexivity) ltac:(vm_compute; reflexivity)
                ltac:(vm_compute; reflexivity) ltac:(vm_compute; reflexivity)
                ltac:(vm_compute; reflexivity) ltac:(vm_compute; reflexivity)).
  change (eq_str (VStr "auto") "auto") with true in H. cbv iota in H.
  specialize (H the_attachment (VStr "/dev/vdb")
                ltac:(vm_compute; reflexivity) ltac:(vm_compute; reflexivity)).
  unfold attach, start_of. rewrite H. vm_compute. repeat split.
Defined.

(** The attach of an external volume that is not attached to its external
    server. *)
Lemma attach_volume_external_is_validated_witness :
  attach_volume empty_cloud DEVICE_NAME_PROPERTY VOLUME_STATUS_IN_USE
    VOLUME_STATUS_AVAILABLE 10 2 ∅ (start_of external_volume_to_server) =
  (Raise (NonRecoverableError (Text
     "Expected external resources server srv-1 and volume vol-1 to be connected")),
   {| ctx := external_volume_to_server;
      history := [GetAttachment (VStr "vol-1") (VStr "srv-1")];
      retry_request := None |}).
Proof.
  exact (attach_volume_external_is_validated empty_cloud DEVICE_NAME_PROPERTY
           VOLUME_STATUS_IN_USE VOLUME_STATUS_AVAILABLE 10 2 ∅
           external_volume_to_server [] None (VStr "srv-1") (VStr "vol-1")
           VNone eq_refl eq_refl eq_refl eq_refl).
Defined.

(** The detach of a managed volume that is attached, and of an external
    one. *)
Lemma detach_volume_table_witness :
  detach attached_cloud volume_to_server =
    (Ok tt,
     after (start_of volume_to_server)
       [GetAttachment (VStr "vol-1") (VStr "srv-1");
        DeleteServerVolume (VStr "srv-1") (VStr "att-1");
        WaitUntilStatus (VStr "vol-1") VOLUME_STATUS_AVAILABLE 10 2]) /\
  detach attached_cloud external_volume_to_server =
    (Ok tt, start_of external_volume_to_server).
Proof.
  split.
  - pose proof (detach_volume_table attached_cloud VOLUME_STATUS_AVAILABLE
                  10 2 ∅ volume_to_server [] None (VStr "srv-1") (VStr "vol-1")
                  (VDict the_attachment)) as H.
    cbv zeta in H.
    specialize (H ltac:(vm_compute; reflexivity) ltac:(vm_compute; reflexivity)
                  ltac:(vm_compute; reflexivity)).
    change (is_external_relationship volume_to_server) with false in H.
    change (truthy (VDict the_attachment)) with true in H.
    cbv iota beta delta [negb] in H.
    exact (H the_attachment (VStr "att-1")
             ({["status" := VStr VOLUME_STATUS_AVAILABLE]}, true)
             eq_refl ltac:(vm_compute; reflexivity)
             ltac:(vm_compute; reflexivity) ltac:(vm_compute; reflexivity)).
  - pose proof (detach_volume_table attached_cloud VOLUME_STATUS_AVAILABLE
                  10 2 ∅ external_volume_to_server [] None
                  (VStr "srv-1") (VStr "vol-1") (VDict the_attachment)) as H.
    cbv zeta in H.
    specialize (H ltac:(vm_compute; reflexivity) ltac:(vm_compute; reflexivity)
                  ltac:(vm_compute; reflexivity)).
    change (is_external_relationship external_volume_to_server) with true in H.
    exact H.
Defined.

(** ** start *)

Section StartProperties.
Variable os : cloud.
Variable valid_ipv4 valid_ipv6 : value -> bool.
Variable _get_private_key : string -> Op node_ctx value.
Variable get_password : gmap string value -> value -> Op node_ctx value.

Lemma start_run (interval : Z) (path : string) (kw : gmap string value)
    (c : node_ctx) (h : list call) (r : option decision) (id : value) :
  runtime_properties c !! OPENSTACK_ID_PROPERTY = Some id ->
  start os valid_ipv4 valid_ipv6 _get_private_key get_password interval path kw
    {| ctx := c; history := h; retry_request := r |} =
  match start_body os valid_ipv4 valid_ipv6 _get_private_key get_password
          interval path {| ctx := c; history := h; retry_request := r |} with
  | (Ok a, w') => (Ok a, w')
  | (Raise e, w') => (Raise (translate NovaClientWithSugar e), w')
  end.
Proof.
  intros Hid. unfold start. rewrite with_client_run.
  rewrite handle_kw_stored by (cbn [ctx]; eauto). reflexivity.
Qed.

Lemma start_body_read (interval : Z) (path : string)
    (c : node_ctx) (h : list call) (r : option decision) (id : value)
    (server : gmap string value) (status : value) :
  runtime_properties c !! OPENSTACK_ID_PROPERTY = Some id ->
  servers_get os h id = Ok server ->
  server !! "status" = Some status ->
  start_body os valid_ipv4 valid_ipv6 _get_private_key get_password
    interval path {| ctx := c; history := h; retry_request := r |} =
  let w1 := {| ctx := c; history := (h ++ [ServersGet id])%list;
               retry_request := r |} in
  if is_external_resource_not_conditionally_created c then
    (if negb (eq_str status SERVER_STATUS_ACTIVE) then
       id ← lift (getattr server "id");
       raise (NonRecoverableError (Text (
         "Expected external resource server " ++ py_str id ++ " to be in " ++
         quote ++ SERVER_STATUS_ACTIVE ++ quote ++ " status")))
     else mret Done) w1
  else if eq_str status SERVER_STATUS_ACTIVE then
    (use_password ← lift (getitem (node_properties c) "use_password");
     if truthy use_password then
       private_key ← _get_private_key path;
       password ← get_password server private_key;
       if negb (truthy password) then
         operation_retry "Waiting for server to post generated password"
                         (Some interval)
       else
         modify_ctx (set_runtime_properties
                       (<[ADMIN_PASSWORD_PROPERTY := password]>));;
         _set_network_and_ip_runtime_properties valid_ipv4 valid_ipv6 server;;
         mret Done
     else
       _set_network_and_ip_runtime_properties valid_ipv4 valid_ipv6 server;;
       mret Done) w1
  else
    (server_task_state ← lift (getattr server OS_EXT_STS_TASK_STATE);
     server_task_state ←
       (if eq_str status SERVER_STATUS_SHUTOFF &&
           negb (eq_str server_task_state SERVER_TASK_STATE_POWERING_ON)
        then
          invoke (ServersStart (getid server))
                 (fun h => servers_start os h (getid server));;
          mret (VStr SERVER_TASK_STATE_POWERING_ON)
        else mret server_task_state);
     if eq_str status SERVER_STATUS_BUILD ||
        eq_str server_task_state SERVER_TASK_STATE_POWERING_ON
     then
       operation_retry
         ("Waiting for server to be in " ++ SERVER_STATUS_ACTIVE ++
          " state but is in " ++ py_str status ++ ":" ++
          py_str server_task_state ++ " state. Retrying...")
         (Some interval)
     else
       fault ← lift (server_state_fault server server_task_state);
       raise (NonRecoverableError (Text (
         "Unexpected server state " ++ py_str status ++ ". Reason: " ++
         fault)))) w1.
Proof.
  intros Hid Hget Hstatus. unfold start_body.
  rewrite bind_run. unfold get_server_by_context at 1.
  rewrite bind_run. unfold get_openstack_id at 1.
  rewrite bind_run. unfold get_ctx at 1, gets at 1. cbv beta iota. cbn [ctx].
  unfold lift at 1, getitem at 1. rewrite Hid. cbv beta iota.
  unfold servers_get_ at 1, invoke at 1. cbn [history ctx retry_request].
  rewrite Hget. cbv beta iota.
  rewrite bind_run. unfold get_ctx at 1, gets at 1. cbv beta iota. cbn [ctx].
  cbv zeta.
  destruct (is_external_resource_not_conditionally_created c).
  - rewrite bind_run. unfold lift at 1, getattr at 1. rewrite Hstatus.
    reflexivity.
  - rewrite bind_run. unfold lift at 1, getattr at 1. rewrite Hstatus.
    cbv beta iota. destruct (eq_str status SERVER_STATUS_ACTIVE); reflexivity.
Qed.

(** X15: [start] of a managed server that is not active yet.  A server
    that is shut off and not powering on is sent one start command, and the
    operation asks for a retry; a server that is building or powering on
    gives the retry without a command; any other server is a
    non-recoverable error, again without a command. *)
Theorem start_table (interval : Z) (path : string) (kw : gmap string value)
    (c : node_ctx) (h : list call) (r : option decision) (id : value)
    (server : gmap string value) (status task_state : value) :
  let run := start os valid_ipv4 valid_ipv6 _get_private_key get_password
               interval path kw
               {| ctx := c; history := h; retry_request := r |} in
  let waiting (state : value) :=
    OperationRetry
      ("Waiting for server to be in ACTIVE state but is in " ++
       py_str status ++ ":" ++ py_str state ++ " state. Retrying...")
      (Some interval) in
  runtime_properties c !! OPENSTACK_ID_PROPERTY = Some id ->
  is_external_resource_not_conditionally_created c = false ->
  servers_get os h id = Ok server ->
  server !! "status" = Some status ->
  eq_str status SERVER_STATUS_ACTIVE = false ->
  server !! OS_EXT_STS_TASK_STATE = Some task_state ->
  if eq_str status SERVER_STATUS_SHUTOFF &&
     negb (eq_str task_state SERVER_TASK_STATE_POWERING_ON)
  then
    servers_start os (h ++ [ServersGet id]) (getid server) = Ok tt ->
    run = (Ok (waiting (VStr SERVER_TASK_STATE_POWERING_ON)),
           {| ctx := c;
              history := (h ++ [ServersGet id; ServersStart (getid server)])%list;
              retry_request :=
                Some (waiting (VStr SERVER_TASK_STATE_POWERING_ON)) |})
  else if eq_str status SERVER_STATUS_BUILD ||
          eq_str task_state SERVER_TASK_STATE_POWERING_ON
  then
    run = (Ok (waiting task_state),
           {| ctx := c; history := (h ++ [ServersGet id])%list;
              retry_request := Some (waiting task_state) |})
  else
    forall fault, server_state_fault server task_state = Ok fault ->
    run = (Raise (NonRecoverableError (Text (
             "Unexpected server state " ++ py_str status ++ ". Reason: " ++
             fault))),
           {| ctx := c; history := (h ++ [ServersGet id])%list;
              retry_request := r |}).
Proof.
  intros run waiting Hid Hext Hget Hstatus Hactive Hts. subst run.
  rewrite (start_run _ _ _ _ _ _ _ Hid).
  rewrite (start_body_read _ _ _ _ _ _ _ _ Hid Hget Hstatus).
  cbv zeta. rewrite Hext, Hactive. cbv beta iota.
  unfold mbind, M_bind, bind, mret, M_ret, ret, lift, getattr.
  rewrite Hts. cbv beta iota.
  destruct (eq_str status SERVER_STATUS_SHUTOFF &&
            negb (eq_str task_state SERVER_TASK_STATE_POWERING_ON)) eqn:Hoff.
  - intros Hstart. unfold invoke.
    cbn [history ctx retry_request]. rewrite Hstart. cbv beta iota.
    change (eq_str (VStr SERVER_TASK_STATE_POWERING_ON)
                   SERVER_TASK_STATE_POWERING_ON) with true.
    rewrite orb_true_r. unfold operation_retry.
    cbn [history ctx retry_request]. rewrite <- app_assoc. reflexivity.
  - destruct (eq_str status SERVER_STATUS_BUILD ||
              eq_str task_state SERVER_TASK_STATE_POWERING_ON).
    + unfold operation_retry. reflexivity.
    + intros fault Hfault. rewrite Hfault. reflexivity.
Qed.

(** X16: [start] of an external server that was not conditionally created
    only validates it: the server is read once and never sent a command;
    the operation succeeds when the server is active and fails with a
    non-recoverable error otherwise. *)
Theorem start_external_is_validated (interval : Z) (path : string)
    (kw : gmap string value)
    (c : node_ctx) (h : list call) (r : option decision) (id : value)
    (server : gmap string value) (status server_id : value) :
  runtime_properties c !! OPENSTACK_ID_PROPERTY = Some id ->
  is_external_resource_not_conditionally_created c = true ->
  servers_get os h id = Ok server ->
  server !! "status" = Some status ->
  server !! "id" = Some server_id ->
  start os valid_ipv4 valid_ipv6 _get_private_key get_password interval path kw
    {| ctx := c; history := h; retry_request := r |} =
  (if eq_str status SERVER_STATUS_ACTIVE then Ok Done
   else Raise (NonRecoverableError (Text (
          "Expected external resource server " ++ py_str server_id ++
          " to be in " ++ quote ++ "ACTIVE" ++ quote ++ " status"))),
   {| ctx := c; history := (h ++ [ServersGet id])%list; retry_request := r |}).
Proof.
  intros Hid Hext Hget Hstatus Hsid.
  rewrite (start_run _ _ _ _ _ _ _ Hid).
  rewrite (start_body_read _ _ _ _ _ _ _ _ Hid Hget Hstatus).
  cbv zeta. rewrite Hext. cbv beta iota.
  destruct (eq_str status SERVER_STATUS_ACTIVE); cbv beta iota delta [negb].
  - reflexivity.
  - rewrite bind_run. unfold lift at 1, getattr at 1. rewrite Hsid. reflexivity.
Qed.

End StartProperties.

(** [start] of the managed server when it is shut off. *)
Lemma start_table_witness :
  exists msg,
    start_server (cloud_with_server "SHUTOFF") (managed_server 0) =
    (Ok (OperationRetry msg (Some 30)),
     {| ctx := managed_server 0;
        history := [ServersGet (VStr "srv-1"); ServersStart (VStr "srv-1")];
        retry_request := Some (OperationRetry msg (Some 30)) |}).
Proof.
  pose proof (start_table (cloud_with_server "SHUTOFF") is_the_ip never
                (fun _ => mret VNone) (fun _ _ => mret VNone) 30 EmptyString ∅
                (managed_server 0) [] None (VStr "srv-1")
                (server_object "srv-1" "SHUTOFF" VNone)
                (VStr "SHUTOFF") VNone) as H.
  cbv zeta in H.
  specialize (H ltac:(vm_compute; reflexivity) ltac:(vm_compute; reflexivity)
                ltac:(vm_compute; reflexivity) ltac:(vm_compute; reflexivity)
                ltac:(vm_compute; reflexivity) ltac:(vm_compute; reflexivity)).
  change (eq_str (VStr "SHUTOFF") SERVER_STATUS_SHUTOFF &&
          negb (eq_str VNone SERVER_TASK_STATE_POWERING_ON)) with true in H.
  cbv iota in H.
  specialize (H ltac:(vm_compute; reflexivity)).
  eexists. unfold start_server, start_of. rewrite H.
  change (getid (server_object "srv-1" "SHUTOFF" VNone)) with (VStr "srv-1").
  reflexivity.
Defined.

(** [start] of an external server that is shut off. *)
Lemma start_external_is_validated_witness :
  exists msg,
    start_server (cloud_with_server "SHUTOFF") external_server =
    (Raise (NonRecoverableError (Text msg)),
     {| ctx := external_server;
        history := [ServersGet (VStr "srv-1")];
        retry_request := None |}).
Proof.
  eexists. unfold start_server, start_of.
  rewrite (start_external_is_validated (cloud_with_server "SHUTOFF")
             is_the_ip never (fun _ => mret VNone) (fun _ _ => mret VNone)
             30 EmptyString ∅ external_server [] None (VStr "srv-1")
             (server_object "srv-1" "SHUTOFF" VNone)
             (VStr "SHUTOFF") (VStr "srv-1"));
    vm_compute; reflexivity.
Defined.

(** ** The configuration of a client *)

(** X17: [Config.update_config] overrides a key by every value of the
    overriding configuration that is not empty and by nothing else: an
    empty value neither replaces a value nor adds a key; applying the same
    overriding configuration again changes nothing. *)
Theorem update_config_overrides (overridden_cfg overriding_cfg : gmap string value) :
  (forall k,
     update_config overridden_cfg overriding_cfg !! k =
       match overriding_cfg !! k with
       | Some v => if truthy v then Some v else overridden_cfg !! k
       | None => overridden_cfg !! k
       end) /\
  update_config (update_config overridden_cfg overriding_cfg) overriding_cfg =
    update_config overridden_cfg overriding_cfg.
Proof.
  assert (Hlookup : forall a b k,
    update_config a b !! k =
      match b !! k with
      | Some v => if truthy v then Some v else a !! k
      | None => a !! k
      end).
  { intros a b. unfold update_config.
    apply (map_fold_weak_ind
             (fun r m => forall k,
                r !! k = match m !! k with
                         | Some v => if truthy v then Some v else a !! k
                         | None => a !! k
                         end)).
    - intros k. rewrite lookup_empty. reflexivity.
    - intros i x m r Hi IH k. destruct (decide (k = i)) as [->|Hne].
      + rewrite lookup_insert_eq. destruct (truthy x).
        * apply lookup_insert_eq.
        * rewrite IH, Hi. reflexivity.
      + rewrite (lookup_insert_ne m) by congruence.
        destruct (truthy x); [rewrite lookup_insert_ne by congruence|]; apply IH. }
  split; [apply Hlookup|].
  apply map_eq. intros k. rewrite !Hlookup.
  destruct (overriding_cfg !! k) as [v|]; [|reflexivity].
  destruct (truthy v); reflexivity.
Qed.

Lemma all_auth_names (k : string) :
  k ∈ reduce_union AUTH_SETS ∪ OPTIONAL_AUTH_PARAMS <-> k ∈ auth_names.
Proof.
  unfold reduce_union, AUTH_SETS, COMMON, OPTIONAL_AUTH_PARAMS, auth_names,
    AUTH_PARAM_INSECURE, AUTH_PARM_CA_CERT.
  cbn [foldl]. rewrite !elem_of_union, !elem_of_singleton.
  rewrite !elem_of_cons, elem_of_nil. tauto.
Qed.

Lemma split_config_lookup (cfg : gmap string value) (k : string) :
  (_split_config cfg).1 !! k =
    (if bool_decide (k ∈ auth_names) then cfg !! k else None) /\
  (_split_config cfg).2 !! k =
    (if bool_decide (k ∈ auth_names) then None else cfg !! k).
Proof.
  unfold _split_config. cbv zeta. revert k.
  apply (map_fold_weak_ind
           (fun (r : gmap string value * gmap string value) m => forall k,
              r.1 !! k = (if bool_decide (k ∈ auth_names) then m !! k else None) /\
              r.2 !! k = (if bool_decide (k ∈ auth_names) then None else m !! k))).
  - intros k. cbn [fst snd]. rewrite !lookup_empty.
    destruct (bool_decide _); split; reflexivity.
  - intros i x m [auth misc] Hi IH k. specialize (IH k). cbn [fst snd] in IH.
    destruct IH as [Ha Hm].
    rewrite (bool_decide_ext _ _ (all_auth_names i)).
    destruct (decide (k = i)) as [->|Hne].
    + rewrite lookup_insert_eq.
      destruct (bool_decide (i ∈ auth_names)); cbn [fst snd].
      * split; [apply lookup_insert_eq|]. exact Hm.
      * split; [|apply lookup_insert_eq]. exact Ha.
    + rewrite (lookup_insert_ne m) by congruence.
      destruct (bool_decide (i ∈ auth_names)); cbn [fst snd];
        rewrite lookup_insert_ne by congruence; split; assumption.
Qed.

(** X18: [_split_config] splits a configuration in two parts that have no
    key in common and together are the configuration: the keys of the
    first part are among the ten names of authentication parameters, and
    no key of the second part is. *)
Theorem split_config_partition (cfg : gmap string value) :
  let '(auth, misc) := _split_config cfg in
  auth ∪ misc = cfg /\ auth ##ₘ misc /\
  (forall k, is_Some (auth !! k) -> k ∈ auth_names) /\
  (forall k, is_Some (misc !! k) -> k ∉ auth_names).
Proof.
  pose proof (split_config_lookup cfg) as H.
  destruct (_split_config cfg) as [auth misc]. cbn [fst snd] in H.
  split; [|split; [|split]].
  - apply map_eq. intros k. destruct (H k) as [Ha Hm].
    rewrite lookup_union, Ha, Hm.
    destruct (bool_decide (k ∈ auth_names)), (cfg !! k); reflexivity.
  - apply map_disjoint_spec. intros k x y Hx Hy. destruct (H k) as [Ha Hm].
    rewrite Hx in Ha. rewrite Hy in Hm.
    destruct (bool_decide (k ∈ auth_names)); discriminate.
  - intros k [x Hx]. destruct (H k) as [Ha _]. rewrite Hx in Ha.
    destruct (bool_decide (k ∈ auth_names)) eqn:Hk; [|discriminate].
    apply bool_decide_eq_true in Hk. exact Hk.
  - intros k [x Hx]. destruct (H k) as [_ Hm]. rewrite Hx in Hm.
    destruct (bool_decide (k ∈ auth_names)) eqn:Hk; [discriminate|].
    apply bool_decide_eq_false in Hk. exact Hk.
Qed.

Lemma auth_set_required (s : gset string) (k : string) :
  s ∈ AUTH_SETS -> k ∈ s -> k ∈ required_names.
Proof.
  unfold AUTH_SETS, COMMON, required_names. rewrite !elem_of_cons, elem_of_nil.
  intros [->|[->|[->|[->|[]]]]]; rewrite !elem_of_union, !elem_of_singleton;
    tauto.
Qed.

Lemma required_spec (k : string) :
  k ∈ required_names <-> k ∈ auth_names /\ k ∉ OPTIONAL_AUTH_PARAMS.
Proof.
  unfold required_names, auth_names, OPTIONAL_AUTH_PARAMS,
    AUTH_PARAM_INSECURE, AUTH_PARM_CA_CERT.
  rewrite !elem_of_cons, elem_of_nil, elem_of_union, !elem_of_singleton.
  split.
  - intros H. split; [tauto|].
    intros [->| ->]; repeat (destruct H as [H|H]; [discriminate H|]); exact H.
  - intros [H Hn]. tauto.
Qed.

(** X19: the authentication parameters that [_split_config] takes from a
    configuration pass [_validate_auth_params] exactly when the names that
    the configuration has among the eight names that make up the sets of
    authentication parameters are one of the four sets: the other keys of
    the configuration, [insecure] and [ca_cert] included, do not count. *)
Theorem auth_params_validation (cfg : gmap string value) :
  _validate_auth_params (_split_config cfg).1 = Ok tt <->
  exists s, s ∈ AUTH_SETS /\
            forall name, name ∈ required_names ->
                         (is_Some (cfg !! name) <-> name ∈ s).
Proof.
  assert (Hdom : forall k,
    k ∈ dom (_split_config cfg).1 ∖ OPTIONAL_AUTH_PARAMS <->
    k ∈ required_names /\ is_Some (cfg !! k)).
  { intros k. rewrite elem_of_difference, elem_of_dom, required_spec.
    destruct (split_config_lookup cfg k) as [-> _].
    destruct (bool_decide (k ∈ auth_names)) eqn:Hk.
    - apply bool_decide_eq_true in Hk. tauto.
    - apply bool_decide_eq_false in Hk. split.
      + intros [[x Hx] _]. discriminate Hx.
      + tauto. }
  unfold _validate_auth_params.
  destruct (bool_decide (dom (_split_config cfg).1 ∖ OPTIONAL_AUTH_PARAMS
                         ∈ AUTH_SETS)) eqn:Hin.
  - apply bool_decide_eq_true in Hin. split; [intros _|reflexivity].
    eexists. split; [exact Hin|]. intros name Hname.
    rewrite Hdom. tauto.
  - apply bool_decide_eq_false in Hin. split; [discriminate|].
    intros (s & Hs & Hiff). exfalso. apply Hin.
    replace (dom (_split_config cfg).1 ∖ OPTIONAL_AUTH_PARAMS) with s;
      [exact Hs|].
    apply set_eq. intros k. rewrite Hdom. split.
    + intros Hk. pose proof (auth_set_required s k Hs Hk) as Hreq.
      split; [exact Hreq|]. apply Hiff; assumption.
    + intros [Hreq Hsome]. apply Hiff; assumption.
Qed.

(** A configuration of the second version of the identity service, with a
    region and without certificate validation, is accepted; one that
    names both a tenant and a project is not. *)
Example keystone_v2_config_accepted :
  _validate_auth_params
    (_split_config
       (<["username" := VStr "u"]> (<["password" := VStr "p"]>
          (<["auth_url" := VStr "http://keystone:5000/v2.0"]>
             (<["tenant_name" := VStr "t"]> (<["region" := VStr "r"]>
                {["insecure" := VBool true]})))))).1 = Ok tt.
Proof. vm_compute. reflexivity. Qed.

Example mixed_config_rejected :
  is_ok (_validate_auth_params
    (_split_config
       (<["username" := VStr "u"]> (<["password" := VStr "p"]>
          (<["auth_url" := VStr "http://keystone:5000/v3"]>
             (<["tenant_name" := VStr "t"]>
                {["project_name" := VStr "p"]}))))).1) = false.
Proof. vm_compute. reflexivity. Qed.

(** ** The first invocation of reboot *)

(** X20: on its first invocation [reboot] with a type that is hard or
    soft in any letter case sends one reboot command with the type in
    upper case, reads the server again and decides by its status: a retry
    in 30 seconds while the server is rebooting or its status unknown,
    success when it is active, a non-recoverable error when it is in
    error. *)
Theorem reboot_sends_one_command
    (os : cloud) (reboot_type : string) (kw : gmap string value)
    (c : node_ctx) (h : list call) (r : option decision)
    (id server_id status : value) (server server' : gmap string value) :
  let w := {| ctx := c; history := h; retry_request := r |} in
  let h1 := (h ++ [ServersGet id])%list in
  let h2 := (h1 ++ [ServersReboot server_id (upper reboot_type)])%list in
  let h3 := (h2 ++ [ServersGet server_id])%list in
  retry_number c = 0%nat ->
  upper reboot_type = "HARD" \/ upper reboot_type = "SOFT" ->
  runtime_properties c !! OPENSTACK_ID_PROPERTY = Some id ->
  servers_get os h id = Ok server ->
  server !! "id" = Some server_id ->
  servers_reboot os h1 server_id (upper reboot_type) = Ok tt ->
  servers_get os h2 server_id = Ok server' ->
  server' !! "status" = Some status ->
  (eq_str status SERVER_STATUS_REBOOT
   || eq_str status SERVER_STATUS_HARD_REBOOT
   || eq_str status SERVER_STATUS_UNKNOWN = true ->
   reboot os reboot_type kw w =
     (Ok (OperationRetry ("Server has " ++ py_str status ++ " state. Waiting.")
                         (Some 30)),
      {| ctx := c; history := h3;
         retry_request :=
           Some (OperationRetry
                   ("Server has " ++ py_str status ++ " state. Waiting.")
                   (Some 30)) |})) /\
  (status = VStr SERVER_STATUS_ACTIVE ->
   reboot os reboot_type kw w =
     (Ok Done, {| ctx := c; history := h3; retry_request := r |})) /\
  (status = VStr SERVER_STATUS_ERROR ->
   reboot os reboot_type kw w =
     (Raise (NonRecoverableError (Text
        "Reboot operation finished in ERROR state.")),
      {| ctx := c; history := h3; retry_request := r |})).
Proof.
  intros w h1 h2 h3 Hretry Htype Hid Hget Hsid Hreboot Hget' Hstatus.
  assert (Hin : bool_decide (upper reboot_type ∈ ["HARD"; "SOFT"]) = true).
  { apply bool_decide_eq_true. destruct Htype as [-> | ->].
    - left.
    - right. left. }
  subst w. unfold reboot. rewrite with_client_run.
  rewrite handle_kw_stored by (cbn [ctx]; eauto). cbn [snd].
  unfold reboot_body, get_server_by_context, get_openstack_id, servers_get_.
  unfold_op. simpl. rewrite Hid. simpl. rewrite Hget. simpl.
  rewrite Hretry. simpl. rewrite Hin. simpl.
  rewrite Hsid. simpl. fold h1. rewrite Hreboot. simpl.
  fold h2. rewrite Hget'. simpl. rewrite Hstatus. simpl. fold h3.
  split; [|split].
  - intros ->. reflexivity.
  - intros ->. reflexivity.
  - intros ->. reflexivity.
Qed.

(** A soft reboot, asked for in lower case, of the managed server. *)
Lemma reboot_sends_one_command_witness :
  reboot (cloud_with_server "ACTIVE") "soft" ∅ (start_of (managed_server 0)) =
    (Ok Done,
     {| ctx := managed_server 0;
        history := [ServersGet (VStr "srv-1");
                    ServersReboot (VStr "srv-1") "SOFT";
                    ServersGet (VStr "srv-1")];
        retry_request := None |}).
Proof.
  pose proof (reboot_sends_one_command (cloud_with_server "ACTIVE") "soft" ∅
                (managed_server 0) [] None (VStr "srv-1") (VStr "srv-1")
                (VStr "ACTIVE")
                (server_object "srv-1" "ACTIVE" VNone)
                (server_object "srv-1" "ACTIVE" VNone)) as H.
  cbv zeta in H.
  specialize (H ltac:(vm_compute; reflexivity)
                ltac:(right; vm_compute; reflexivity)
                ltac:(vm_compute; reflexivity) ltac:(vm_compute; reflexivity)
                ltac:(vm_compute; reflexivity) ltac:(vm_compute; reflexivity)
                ltac:(vm_compute; reflexivity) ltac:(vm_compute; reflexivity)).
  destruct H as (_ & H & _). exact (H eq_refl).
Defined.

(** ** Starting a server again *)

(** X21: [_server_start] leaves an active server alone.  Any other server
    is sent one start command and, after a delay of 10 seconds, read
    again: the operation then asks for a retry in 30 seconds unless the
    server is read in status SHUTOFF, so also when it is active by then. *)
Theorem server_start_table {C} (os : cloud) (server : gmap string value)
    (status : value) (w : world C) :
  server !! "status" = Some status ->
  if eq_str status SERVER_STATUS_ACTIVE
  then _server_start os server w = (Ok Done, w)
  else
    forall (id status' : value) (server' : gmap string value),
      let calls := [ServersStart (getid server); Sleep 10; ServersGet id] in
      servers_start os (history w) (getid server) = Ok tt ->
      server !! "id" = Some id ->
      servers_get os (history w ++ [ServersStart (getid server); Sleep 10]) id
        = Ok server' ->
      server' !! "status" = Some status' ->
      _server_start os server w =
        if eq_str status' SERVER_STATUS_SHUTOFF then (Ok Done, after w calls)
        else
          let retry := OperationRetry
                         ("Server has " ++ py_str status' ++ " state.")
                         (Some 30) in
          (Ok retry,
           {| ctx := ctx w; history := (history w ++ calls)%list;
              retry_request := Some retry |}).
Proof.
  intros Hstatus. unfold _server_start.
  unfold mbind, M_bind, bind, mret, M_ret, ret, lift, getattr.
  rewrite Hstatus. cbv beta iota.
  destruct (eq_str status SERVER_STATUS_ACTIVE); cbv beta iota delta [negb].
  - reflexivity.
  - intros id status' server'. cbv zeta. intros Hstart Hid Hget Hstatus'.
    unfold sleep, servers_get_, invoke. cbn [history ctx retry_request].
    rewrite Hstart. cbv beta iota. rewrite Hid. cbv beta iota.
    rewrite <- app_assoc. cbn [app]. rewrite Hget. cbv beta iota.
    rewrite Hstatus'. cbv beta iota.
    destruct (eq_str status' SERVER_STATUS_SHUTOFF); cbv beta iota delta [negb].
    + unfold after. rewrite <- !app_assoc. reflexivity.
    + unfold operation_retry. cbn [history ctx retry_request].
      rewrite <- !app_assoc. reflexivity.
Qed.

(** A server that was shut off and is active after the start command. *)
Lemma server_start_table_witness :
  _server_start (cloud_with_server "ACTIVE")
    (server_object "srv-1" "SHUTOFF" VNone) (start_of (managed_server 0)) =
  (Ok (OperationRetry "Server has ACTIVE state." (Some 30)),
   {| ctx := managed_server 0;
      history := [ServersStart (VStr "srv-1"); Sleep 10;
                  ServersGet (VStr "srv-1")];
      retry_request :=
        Some (OperationRetry "Server has ACTIVE state." (Some 30)) |}).
Proof.
  pose proof (server_start_table (cloud_with_server "ACTIVE")
                (server_object "srv-1" "SHUTOFF" VNone) (VStr "SHUTOFF")
                (start_of (managed_server 0))
                ltac:(vm_compute; reflexivity)) as H.
  change (eq_str (VStr "SHUTOFF") SERVER_STATUS_ACTIVE) with false in H.
  cbv iota in H.
  specialize (H (VStr "srv-1") (VStr "ACTIVE")
                (server_object "srv-1" "ACTIVE" VNone)
                ltac:(vm_compute; reflexivity) ltac:(vm_compute; reflexivity)
                ltac:(vm_compute; reflexivity) ltac:(vm_compute; reflexivity)).
  rewrite H. vm_compute. reflexivity.
Defined.

(** ** Deleting the image of a snapshot *)

(** X22: [_image_delete] looks the image up by name and type.  Without
    such an image it is done after that one listing.  Otherwise it sends
    a delete command, followed by a delay of 10 seconds, only when the
    image is active, looks the image up again, and asks for a retry in 30
    seconds as long as the image is still listed. *)
Theorem image_delete_table {C} (os : cloud) (snapshot_name : string)
    (snapshot_incremental : value) (w : world C)
    (images : list (gmap string value)) (image_id status : value) :
  let backtype := if truthy snapshot_incremental then "snapshot" else "backup" in
  let listing := images_listing snapshot_name in
  let run := _image_delete os snapshot_name snapshot_incremental w in
  list_resources os (history w) GlanceClientWithSugar "images"
    {["filters" := VDict {["name" := VStr snapshot_name]}]} = Ok images ->
  first_image images snapshot_name backtype = Ok (image_id, status) ->
  if negb (truthy image_id) then run = (Ok Done, after w [listing])
  else
    let calls :=
      listing ::
      (if eq_str status "active"
       then [DeleteResource GlanceClientWithSugar "images" image_id; Sleep 10]
       else []) in
    forall (images' : list (gmap string value)) (image_id' status' : value),
      (eq_str status "active" = true ->
       delete_resource os (history w ++ [listing]) GlanceClientWithSugar
         "images" image_id = Ok tt) ->
      list_resources os (history w ++ calls) GlanceClientWithSugar "images"
        {["filters" := VDict {["name" := VStr snapshot_name]}]} = Ok images' ->
      first_image images' snapshot_name backtype = Ok (image_id', status') ->
      run =
        if truthy image_id' then
          let retry := OperationRetry (py_str image_id' ++ " is still alive")
                                      (Some 30) in
          (Ok retry,
           {| ctx := ctx w; history := (history w ++ calls ++ [listing])%list;
              retry_request := Some retry |})
        else (Ok Done, after w (calls ++ [listing])).
Proof.
  intros backtype listing run Hlist Hfirst. subst run listing.
  unfold images_listing.
  set (listing := ListResources GlanceClientWithSugar "images"
                    {["filters" := VDict {["name" := VStr snapshot_name]}]}).
  unfold _image_delete, _get_image, images_list.
  unfold mbind, M_bind, bind, mret, M_ret, ret, lift, invoke.
  cbn [history ctx retry_request]. rewrite Hlist. cbv beta iota zeta.
  fold backtype. rewrite Hfirst. cbv beta iota.
  destruct (truthy image_id); cbv beta iota delta [negb].
  - cbv zeta. intros images' image_id' status' Hdel Hlist' Hfirst'.
    subst listing.
    destruct (eq_str status "active").
    + unfold sleep, invoke. cbn [history ctx retry_request].
      rewrite (Hdel eq_refl). cbv beta iota.
      cbn [history]. rewrite <- !app_assoc. cbn [app].
      rewrite Hlist'. cbv beta iota. fold backtype. rewrite Hfirst'.
      cbv beta iota.
      destruct (truthy image_id').
      * unfold operation_retry. cbn [history ctx retry_request].
        rewrite <- ?app_assoc. reflexivity.
      * unfold after. rewrite <- ?app_assoc. reflexivity.
    + cbv beta iota. cbn [history]. rewrite Hlist'. cbv beta iota. fold backtype.
      rewrite Hfirst'. cbv beta iota.
      destruct (truthy image_id').
      * unfold operation_retry. cbn [history ctx retry_request].
        rewrite <- ?app_assoc. reflexivity.
      * unfold after. rewrite <- ?app_assoc. reflexivity.
  - reflexivity.
Qed.

(** The removal of the backup ["nightly"]: one delete command, and the
    image is gone. *)
Lemma image_delete_table_witness :
  _image_delete image_cloud "vm-srv-1-nightly-backup" (VBool false)
    (start_of (managed_server 0)) =
  (Ok Done,
   after (start_of (managed_server 0))
     [images_listing "vm-srv-1-nightly-backup";
      DeleteResource GlanceClientWithSugar "images" (VStr "img-1");
      Sleep 10;
      images_listing "vm-srv-1-nightly-backup"]).
Proof.
  pose proof (image_delete_table image_cloud "vm-srv-1-nightly-backup"
                (VBool false) (start_of (managed_server 0))
                [nightly_backup] (VStr "img-1") (VStr "active")) as H.
  cbv zeta in H.
  specialize (H ltac:(vm_compute; reflexivity) ltac:(vm_compute; reflexivity)).
  change (negb (truthy (VStr "img-1"))) with false in H. cbv iota in H.
  specialize (H [] VNone VNone ltac:(intros _; vm_compute; reflexivity)
                ltac:(vm_compute; reflexivity) ltac:(vm_compute; reflexivity)).
  rewrite H. reflexivity.
Defined.

(** ** The interfaces of an external server *)

Lemma filter_not_nil {A} (f : A -> bool) (l : list A) (x : A) :
  x ∈ l -> f x = true -> List.filter f l <> [].
Proof.
  intros Hin Hf Hnil.
  assert (Hx : In x (List.filter f l)).
  { apply filter_In. split; [|exact Hf]. apply list_elem_of_In. exact Hin. }
  rewrite Hnil in Hx. exact Hx.
Qed.

(** X23: when a port or a network that the node is related to is already
    among the interfaces of the external server,
    [_validate_external_server_nics] fails with a non-recoverable error
    (its message is not stated here) after the one listing of the
    interfaces: nothing is attached. *)
Theorem external_server_nics_conflict (os : cloud)
    (external_server : gmap string value) (network_ids port_ids : list value)
    (w : world node_ctx) (id : value)
    (interfaces : list (gmap string value)) (ports nets : list value) :
  external_server !! "id" = Some id ->
  interface_list os (history w) id = Ok interfaces ->
  mapM (fun i => getattr i "port_id") interfaces = Ok ports ->
  mapM (fun i => getattr i "net_id") interfaces = Ok nets ->
  (exists p, p ∈ ports /\ list_contains p port_ids = true) \/
  (exists n, n ∈ nets /\ list_contains n network_ids = true) ->
  exists msg,
    _validate_external_server_nics os external_server network_ids port_ids w =
      (Raise (NonRecoverableError (Text msg)), after w [InterfaceList id]).
Proof.
  intros Hid Hlist Hports Hnets Hconflict.
  exists "Several ports/networks already connected to external server".
  unfold _validate_external_server_nics, interface_list_.
  assert (Hattr : getattr external_server "id" = Ok id)
    by (unfold getattr; rewrite Hid; reflexivity).
  rewrite Hattr.
  unfold mbind, M_bind, bind, lift, invoke. cbv beta iota.
  rewrite Hlist. cbv beta iota. rewrite Hports. cbv beta iota.
  rewrite Hnets. cbv beta iota zeta. unfold after.
  destruct Hconflict as [(p & Hp & Hc)|(n & Hn & Hc)].
  - pose proof (filter_not_nil (fun port_id => list_contains port_id port_ids)
                  ports p Hp Hc) as Hne.
    destruct (List.filter (fun port_id => list_contains port_id port_ids) ports);
      [contradiction|]. reflexivity.
  - pose proof (filter_not_nil (fun net_id => list_contains net_id network_ids)
                  nets n Hn Hc) as Hne.
    destruct (List.filter (fun net_id => list_contains net_id network_ids) nets);
      [contradiction|].
    destruct (List.filter _ ports); reflexivity.
Qed.

(** An external server that already has the port ["P"] the node is
    related to. *)
Lemma external_server_nics_conflict_witness :
  exists msg,
    _validate_external_server_nics (with_interfaces cloud_with_web [interface_P])
      (server_object "srv-1" "ACTIVE" VNone) [] [VStr "P"]
      (start_of external_server) =
    (Raise (NonRecoverableError (Text msg)),
     after (start_of external_server) [InterfaceList (VStr "srv-1")]).
Proof.
  apply (external_server_nics_conflict
           (with_interfaces cloud_with_web [interface_P])
           (server_object "srv-1" "ACTIVE" VNone) [] [VStr "P"]
           (start_of external_server) (VStr "srv-1") [interface_P]
           [VStr "P"] [VStr "D"]); try (vm_compute; reflexivity).
  left. exists (VStr "P"). split; [left | vm_compute; reflexivity].
Defined.

(** ** An adopted server is not created *)

Lemma touches_weaken {A} (P Q : call -> Prop) (m : Op node_ctx A) :
  (forall c, P c -> Q c) -> touches P m -> touches Q m.
Proof.
  intros HPQ Hm w. destruct (Hm w) as [Hs (l & Hl & HP)].
  split; [exact Hs|]. exists l. split; [exact Hl|].
  eapply Forall_impl; eassumption.
Qed.

Lemma touches_forM {A} P (l : list A) (f : A -> Op node_ctx unit) :
  (forall a, touches P (f a)) -> touches P (forM_ l f).
Proof.
  intros Hf. induction l as [|a l IH]; cbn [forM_].
  - apply touches_pure.
  - apply (touches_bind P (f a) (fun _ => forM_ l f)); [apply Hf | intros _; exact IH].
Qed.

Lemma listing_creates_nothing (c : call) : is_listing c -> ~ creates_server c.
Proof. destruct c; intros H; try contradiction; intros []. Qed.

Ltac quiet_tac :=
  repeat first
    [ apply touches_bind; [|intros ?]
    | apply touches_gets
    | apply touches_try_except; [|intros ?]
    | apply touches_set_runtime
    | apply touches_forM; intros ?
    | apply touches_invoke; intros []
    | apply touches_pure
    | match goal with
      | |- touches _ (if ?b then _ else _) => destruct b
      | |- touches _ (match ?x with _ => _ end) => destruct x
      end ].

Lemma create_external_touches os N P F K v4 v6 external_server :
  touches (fun c => ~ creates_server c)
    (create_external os N P F K v4 v6 external_server).
Proof.
  unfold create_external.
  apply touches_bind; [apply touches_gets|]. intros c.
  apply touches_bind; [apply touches_pure|]. intros network_ids.
  apply touches_bind; [apply touches_pure|]. intros port_ids.
  apply touches_bind.
  { unfold _validate_external_server_nics, interface_list_, interface_attach_,
      lift, raise, mret, M_ret, ret.
    quiet_tac. }
  intros _. apply touches_bind.
  { apply (touches_weaken is_listing); [apply listing_creates_nothing|].
    apply use_external_resource_touches. }
  intros found. apply touches_bind; [apply touches_pure|]. intros server.
  apply touches_bind.
  { unfold _set_network_and_ip_runtime_properties, set_runtime_property,
      lift, raise, mret, M_ret, ret.
    quiet_tac. }
  intros _. apply touches_bind; [|intros _; apply touches_pure].
  unfold _validate_external_server_keypair, get_server_by_context,
    get_openstack_id, servers_get_, _get_keypair_name_by_id, cosmo_get_named,
    cosmo_get, _cosmo_get, cosmo_list, get_ctx, lift, raise, mret, M_ret, ret.
  quiet_tac.
Qed.

(** X24: when the lookup of the external server finds one, [create]
    adopts it and never issues the call that creates a server, whatever
    else the adoption does and whether it succeeds or fails. *)
Theorem create_adopts_without_creating
    os N P F VT VB K SG SEC img ud v4 v6
    (args kw : gmap string value) (w : world node_ctx)
    (server : gmap string value) :
  fst (use_external_resource os F NovaClientWithSugar SERVER_OPENSTACK_TYPE
         "name" (clients_ready kw w)) = Ok (Some server) ->
  exists l,
    history (snd (create os N P F VT VB K SG SEC img ud v4 v6 args kw w)) =
      (history w ++ l)%list /\
    Forall (fun c => ~ creates_server c) l.
Proof.
  intros Hfound. rewrite create_run. unfold create_body. rewrite bind_run.
  destruct (clients_ready_same kw w) as [_ Hh0].
  destruct (use_external_resource_touches os F NovaClientWithSugar
              SERVER_OPENSTACK_TYPE "name" (clients_ready kw w))
    as [_ (l1 & Hl1 & HP1)].
  destruct (use_external_resource os F NovaClientWithSugar
              SERVER_OPENSTACK_TYPE "name" (clients_ready kw w))
    as [[found|e] w1]; cbn [fst snd] in *; [|discriminate].
  injection Hfound as ->.
  destruct (create_external_touches os N P F K v4 v6 server w1)
    as [_ (l2 & Hl2 & HP2)].
  exists (l1 ++ l2)%list. split.
  - destruct (create_external os N P F K v4 v6 server w1) as [[d|e] w2];
      cbn [snd] in *; rewrite Hl2, Hl1, Hh0, app_assoc; reflexivity.
  - apply Forall_app. split; [|exact HP2].
    eapply Forall_impl; [exact HP1 | apply listing_creates_nothing].
Qed.

(** [create] on the external server ["web"] with two bootable volumes. *)
Lemma create_adopts_without_creating_witness :
  exists l,
    history (snd (create_server cloud_with_web ∅ ∅ (start_of external_two_boot)))
      = ([] ++ l)%list /\
    Forall (fun c => ~ creates_server c) l.
Proof.
  apply (create_adopts_without_creating cloud_with_web NETWORK_OPENSTACK_TYPE
           PORT_OPENSTACK_TYPE FLOATINGIP_OPENSTACK_TYPE VOLUME_OPENSTACK_TYPE
           VOLUME_BOOTABLE KEYPAIR_OPENSTACK_TYPE SERVER_GROUP_OPENSTACK_TYPE
           SECURITY_GROUP_OPENSTACK_TYPE no_image no_userdata is_the_ip never
           ∅ ∅ (start_of external_two_boot)
           (server_object "srv-1" "ACTIVE" VNone)).
  vm_compute. reflexivity.
Defined.

(** ** Snapshots *)



(** X26: [_check_finished_upload] reads the server again: it is done when
    the task state of the server is not in the waiting list, and asks for a
    retry in 30 seconds when it is. *)
Theorem check_finished_upload_table {C} (os : cloud)
    (server server' : gmap string value) (waiting_list : list string)
    (w : world C) (id state : value) :
  server !! "id" = Some id ->
  servers_get os (history w) id = Ok server' ->
  server' !! OS_EXT_STS_TASK_STATE = Some state ->
  if list_contains state (VStr <$> waiting_list) then
    forall status, server' !! "status" = Some status ->
      let retry := OperationRetry
                     ("Server has " ++ py_str status ++ "/" ++ py_str state ++
                      " state.") (Some 30) in
      _check_finished_upload os server waiting_list w =
        (Ok retry,
         {| ctx := ctx w; history := (history w ++ [ServersGet id])%list;
            retry_request := Some retry |})
  else
    _check_finished_upload os server waiting_list w =
      (Ok Done, after w [ServersGet id]).
Proof.
  intros Hid Hget Hstate. unfold _check_finished_upload, servers_get_.
  unfold mbind, M_bind, bind, mret, M_ret, ret, lift, invoke, getattr.
  rewrite Hid. cbv beta iota. rewrite Hget. cbv beta iota.
  rewrite Hstate. cbv beta iota.
  destruct (list_contains state (VStr <$> waiting_list));
    cbv beta iota delta [negb].
  - intros status Hstatus. cbv zeta. rewrite Hstatus. reflexivity.
  - reflexivity.
Qed.

(** The check of a server that is uploading an image. *)
Lemma check_finished_upload_table_witness :
  _check_finished_upload
    (example_cloud nothing_listed ∅ no_port
       (fun _ _ => Ok (server_object "srv-1" "ACTIVE" (VStr "image_uploading")))
       wait_succeeds (fun _ => VNone) (Ok tt))
    (server_object "srv-1" "ACTIVE" VNone) ["image_uploading"]
    (start_of (managed_server 0)) =
  (Ok (OperationRetry "Server has ACTIVE/image_uploading state." (Some 30)),
   {| ctx := managed_server 0;
      history := [ServersGet (VStr "srv-1")];
      retry_request :=
        Some (OperationRetry "Server has ACTIVE/image_uploading state."
                             (Some 30)) |}).
Proof.
  pose proof (check_finished_upload_table
                (example_cloud nothing_listed ∅ no_port
                   (fun _ _ => Ok (server_object "srv-1" "ACTIVE"
                                     (VStr "image_uploading")))
                   wait_succeeds (fun _ => VNone) (Ok tt))
                (server_object "srv-1" "ACTIVE" VNone)
                (server_object "srv-1" "ACTIVE" (VStr "image_uploading"))
                ["image_uploading"] (start_of (managed_server 0))
                (VStr "srv-1") (VStr "image_uploading")
                ltac:(vm_compute; reflexivity) ltac:(vm_compute; reflexivity)
                ltac:(vm_compute; reflexivity)) as H.
  change (list_contains (VStr "image_uploading") (VStr <$> ["image_uploading"]))
    with true in H.
  cbv iota in H.
  exact (H (VStr "ACTIVE") ltac:(vm_compute; reflexivity)).
Defined.
